(** * bytree: exclude-pattern resolution and worktree provisioning

    A shallow embedding of [src/lib/git.ts] (the library behind the
    [bytree] command line tool) and the properties its specification
    states about it.

    The library is a sequence of subprocess calls (Bun's [$] shell),
    filesystem probes ([existsSync], [readFile], [Bun.Glob]) and some
    string processing.  The string processing is embedded as Rocq
    functions over [string]; the effects are embedded in a state and
    exception monad over an abstract environment [Env], which answers
    every subprocess call and every probe.  A reference environment
    (module [Ref]) gives git and the filesystem a concrete, executable
    meaning where a property depends on what git or a glob does. *)

From Stdlib Require Import String Ascii List Bool Arith Lia.
Import ListNotations.
Local Open Scope string_scope.
Local Open Scope list_scope.

Set Implicit Arguments.

(** ** JavaScript string operations used by the library

    Strings are sequences of code units below 256. *)

Module JS.

(** [s.startsWith(pat)] *)
Fixpoint startsWith (s pat : string) {struct pat} : bool :=
  match pat, s with
  | EmptyString, _ => true
  | String _ _, EmptyString => false
  | String p pat', String c s' => Ascii.eqb c p && startsWith s' pat'
  end.

(** [s.slice(n)] for a non-negative [n] *)
Fixpoint slice (n : nat) (s : string) {struct n} : string :=
  match n, s with
  | O, _ => s
  | S _, EmptyString => EmptyString
  | S n', String _ s' => slice n' s'
  end.

(** [s.endsWith(suf)]: the code units from [length s - length suf] on
    are those of [suf]. *)
Definition endsWith (s suf : string) : bool :=
  Nat.leb (String.length suf) (String.length s)
  && String.eqb (slice (String.length s - String.length suf) s) suf.

(** [s.includes(pat)] *)
Fixpoint includes (s pat : string) : bool :=
  startsWith s pat
  || match s with
     | EmptyString => false
     | String _ s' => includes s' pat
     end.

(** [s.replace(pat, rep)] with a string pattern: the first occurrence
    only.  The library only ever passes the empty replacement, so the
    [$]-patterns of replacement strings play no part. *)
Fixpoint replace (s pat rep : string) : string :=
  if startsWith s pat then rep ++ slice (String.length pat) s
  else match s with
       | EmptyString => EmptyString
       | String c s' => String c (replace s' pat rep)
       end.

(** White space and line terminators of ECMAScript below 256:
    TAB, LF, VT, FF, CR, SP and NBSP. *)
Definition isWhiteSpace (c : ascii) : bool :=
  existsb (Ascii.eqb c) ["009"; "010"; "011"; "012"; "013"; " "; "160"]%char.

Fixpoint trimStart (s : string) : string :=
  match s with
  | EmptyString => EmptyString
  | String c s' => if isWhiteSpace c then trimStart s' else s
  end.

Fixpoint trimEnd (s : string) : string :=
  match s with
  | EmptyString => EmptyString
  | String c s' =>
      match trimEnd s' with
      | EmptyString => if isWhiteSpace c then EmptyString else String c EmptyString
      | t => String c t
      end
  end.

(** [s.trim()] *)
Definition trim (s : string) : string := trimEnd (trimStart s).

(** [s.split(sep)] for a separator of one code unit. *)
Fixpoint split (sep : ascii) (s : string) : list string :=
  match s with
  | EmptyString => [EmptyString]
  | String c s' =>
      if Ascii.eqb c sep then EmptyString :: split sep s'
      else match split sep s' with
           | [] => [String c EmptyString]
           | w :: ws => String c w :: ws
           end
  end.

(** [xs.join(sep)] *)
Fixpoint joinWith (sep : string) (xs : list string) : string :=
  match xs with
  | [] => EmptyString
  | [x] => x
  | x :: xs' => x ++ sep ++ joinWith sep xs'
  end.

(** [[...new Set(xs)]]: a [Set] iterates in insertion order, so the
    first occurrence of every element is kept. *)
Fixpoint setSpreadFrom (seen xs : list string) : list string :=
  match xs with
  | [] => []
  | x :: xs' =>
      if existsb (String.eqb x) seen then setSpreadFrom seen xs'
      else x :: setSpreadFrom (x :: seen) xs'
  end.

Definition setSpread (xs : list string) : list string := setSpreadFrom [] xs.

Definition LF : ascii := "010"%char.

End JS.

(** ** [node:path] (POSIX flavour) *)

Module Path.

Definition slash : ascii := "/"%char.

(** [normalizeString]: resolves [.] and [..] segments and drops empty
    ones; [stack] holds the segments kept so far, innermost first. *)
Fixpoint normalizeSegments (allowAboveRoot : bool) (stack segs : list string)
  : list string :=
  match segs with
  | [] => rev stack
  | seg :: segs' =>
      if String.eqb seg "" || String.eqb seg "." then
        normalizeSegments allowAboveRoot stack segs'
      else if String.eqb seg ".." then
        match stack with
        | top :: stack' =>
            if String.eqb top ".." then
              normalizeSegments allowAboveRoot
                (if allowAboveRoot then ".." :: stack else stack) segs'
            else normalizeSegments allowAboveRoot stack' segs'
        | [] =>
            normalizeSegments allowAboveRoot
              (if allowAboveRoot then [".."] else []) segs'
        end
      else normalizeSegments allowAboveRoot (seg :: stack) segs'
  end.

(** [path.normalize(p)] *)
Definition normalize (p : string) : string :=
  match p with
  | EmptyString => "."
  | String c _ =>
      let isAbsolute := Ascii.eqb c slash in
      let trailingSeparator := JS.endsWith p "/" in
      let body :=
        JS.joinWith "/" (normalizeSegments (negb isAbsolute) [] (JS.split slash p)) in
      match body with
      | EmptyString =>
          if isAbsolute then "/" else if trailingSeparator then "./" else "."
      | _ =>
          let body' := if trailingSeparator then (body ++ "/")%string else body in
          if isAbsolute then ("/" ++ body')%string else body'
      end
  end.

(** [path.join(...parts)] *)
Definition join (parts : list string) : string :=
  match filter (fun a => negb (String.eqb a "")) parts with
  | [] => "."
  | nonEmpty => normalize (JS.joinWith "/" nonEmpty)
  end.

Fixpoint dropWhile (f : ascii -> bool) (l : list ascii) : list ascii :=
  match l with
  | [] => []
  | c :: l' => if f c then dropWhile f l' else l
  end.

(** [path.dirname(p)]: scanning from the end (index 0 excluded), skip
    trailing separators, then the last segment, and cut at the separator
    that precedes it. *)
Definition dirname (p : string) : string :=
  match p with
  | EmptyString => "."
  | String c rest =>
      let hasRoot := Ascii.eqb c slash in
      let isSlash := fun a => Ascii.eqb a slash in
      let back := rev (list_ascii_of_string rest) in
      match dropWhile (fun a => negb (isSlash a)) (dropWhile isSlash back) with
      | [] => if hasRoot then "/" else "."
      | _ :: before =>
          match before with
          | [] => if hasRoot then "//" else String c EmptyString
          | _ => String c (string_of_list_ascii (rev before))
          end
      end
  end.

(** A segment that names a directory entry. *)
Definition plainSegment (s : string) : bool :=
  negb (String.eqb s "") && negb (String.eqb s ".") && negb (String.eqb s "..").

(** An absolute path in normal form: [/seg/.../seg], one segment at
    least. *)
Definition isNormalAbsolute (p : string) : bool :=
  match JS.split slash p with
  | first :: seg :: segs => String.eqb first "" && forallb plainSegment (seg :: segs)
  | _ => false
  end.

End Path.

(** ** Subprocesses, the environment and the monad of effects *)

(** The command lines the library runs through Bun's [$]. *)
Inductive cmd : Type :=
| GitCommonDir (repoRoot : string)
    (** [git -C repoRoot rev-parse --git-common-dir] *)
| GitSymbolicRefOriginHead (repoRoot : string)
    (** [git -C repoRoot symbolic-ref refs/remotes/origin/HEAD] *)
| GitBranchRemote (repoRoot : string)
    (** [git -C repoRoot branch -r] *)
| GitWorktreeRemoveForce (repoRoot worktreePath : string)
    (** [git -C repoRoot worktree remove worktreePath --force] *)
| GitBranchDelete (repoRoot branch : string)
    (** [git -C repoRoot branch -D branch] *)
| GitWorktreeAdd (repoRoot branch worktreePath baseBranch : string)
    (** [git -C repoRoot worktree add -b branch worktreePath baseBranch] *)
| GitWorktreeList (repoRoot : string)
    (** [git -C repoRoot worktree list --porcelain] *)
| MkdirP (dir : string)
    (** [mkdir -p dir] *)
| CpR (srcPath destPath : string)
    (** [cp -r srcPath destPath] *).

Definition argv (c : cmd) : list string :=
  match c with
  | GitCommonDir r => ["git"; "-C"; r; "rev-parse"; "--git-common-dir"]
  | GitSymbolicRefOriginHead r =>
      ["git"; "-C"; r; "symbolic-ref"; "refs/remotes/origin/HEAD"]
  | GitBranchRemote r => ["git"; "-C"; r; "branch"; "-r"]
  | GitWorktreeRemoveForce r p => ["git"; "-C"; r; "worktree"; "remove"; p; "--force"]
  | GitBranchDelete r b => ["git"; "-C"; r; "branch"; "-D"; b]
  | GitWorktreeAdd r b p base => ["git"; "-C"; r; "worktree"; "add"; "-b"; b; p; base]
  | GitWorktreeList r => ["git"; "-C"; r; "worktree"; "list"; "--porcelain"]
  | MkdirP d => ["mkdir"; "-p"; d]
  | CpR s d => ["cp"; "-r"; s; d]
  end.

(** The commands that write to the filesystem outside git's metadata. *)
Definition isCopyCmd (c : cmd) : bool :=
  match c with
  | MkdirP _ | CpR _ _ => true
  | _ => false
  end.

(** What the program can observe of the outside world [W]:
    - [exec c w]: the standard output of [c] when it exits with status
      0, [None] when it exits with another status, and the world after;
    - [existsSync p w], [readFile p w] ([None]: the read fails);
    - [globValid pat]: [new Bun.Glob(pat)] and the start of its scan do
      not throw;
    - [globScan pat cwd w]: the relative paths that
      [glob.scan({ cwd, dot: true })] yields, until the iteration ends
      or throws (the [catch] block absorbs the exception either way).
    Nothing relates the answers of [globScan] and [existsSync]: a path
    may be yielded and yet be missing when it is probed. *)
Record Env (W : Type) : Type := {
  exec : cmd -> W -> option string * W;
  existsSync : string -> W -> bool;
  readFile : string -> W -> option string;
  globValid : string -> bool;
  globScan : string -> string -> W -> list string
}.

Inductive error : Type :=
| ShellError (c : cmd)      (** the subprocess exited with a non-zero status *)
| ReadError (path : string)
    (** [readFile] rejected; [path] records which read it was, and is
        no part of the error that Node raises *).

Inductive result (A : Type) : Type :=
| Ok (a : A)
| Throw (e : error).
Arguments Throw {A} e.

(** The world and the subprocesses run so far, each with whether it
    exited with status 0. *)
Record state (W : Type) : Type := {
  world : W;
  issued : list (cmd * bool)
}.

Definition isSome {A} (o : option A) : bool :=
  match o with Some _ => true | None => false end.

(** A worktree as the library returns it: [{ path, branch }]. *)
Record worktree : Type := { path : string; branch : string }.

Section Library.

Context {W : Type} (E : Env W).

Definition M (A : Type) : Type := state W -> result A * state W.

Definition ret {A} (a : A) : M A := fun st => (Ok a, st).

Definition bind {A B} (m : M A) (k : A -> M B) : M B :=
  fun st =>
    match m st with
    | (Ok a, st') => k a st'
    | (Throw e, st') => (Throw e, st')
    end.

(** [try { m } catch { handler }] *)
Definition tryCatch {A} (m handler : M A) : M A :=
  fun st =>
    match m st with
    | (Ok a, st') => (Ok a, st')
    | (Throw _, st') => handler st'
    end.

Notation "x <- m ;; k" := (bind m (fun x => k))
  (at level 61, m at next level, right associativity).
Notation "m ;;; k" := (bind m (fun _ => k))
  (at level 61, right associativity).

Definition run (c : cmd) (st : state W) : option string * state W :=
  let '(out, w') := exec E c (world st) in
  (out, {| world := w'; issued := issued st ++ [(c, isSome out)] |}).

(** [await $`...`.quiet()]: throws when the exit status is not 0. *)
Definition sh (c : cmd) : M string :=
  fun st =>
    match run c st with
    | (Some text, st') => (Ok text, st')
    | (None, st') => (Throw (ShellError c), st')
    end.

(** [await $`...`.quiet().nothrow()] *)
Definition sh_nothrow (c : cmd) : M unit :=
  fun st => (Ok tt, snd (run c st)).

Definition existsSyncM (p : string) : M bool :=
  fun st => (Ok (existsSync E p (world st)), st).

Definition readFileM (p : string) : M string :=
  fun st =>
    match readFile E p (world st) with
    | Some content => (Ok content, st)
    | None => (Throw (ReadError p), st)
    end.

(** *** [getDefaultBranch] *)

Definition getDefaultBranch (repoRoot : string) : M string :=
  tryCatch
    (result <- sh (GitSymbolicRefOriginHead repoRoot) ;;
     let ref := JS.trim result in
     ret (JS.replace ref "refs/remotes/origin/" ""))
    (branchList <- sh (GitBranchRemote repoRoot) ;;
     if JS.includes branchList "origin/main" then ret "main"
     else if JS.includes branchList "origin/master" then ret "master"
     else ret "main").

(** *** [getGitDir] and [getExcludePatterns] *)

Definition getGitDir (repoRoot : string) : M string :=
  let gitPath := Path.join [repoRoot; ".git"] in
  tryCatch
    (result <- sh (GitCommonDir repoRoot) ;; ret (JS.trim result))
    (ret gitPath).

(** The loop over the lines of the exclude file. *)
Definition pushPattern (patterns : list string) (line : string) : list string :=
  let trimmed := JS.trim line in
  if String.eqb trimmed "" || JS.startsWith trimmed "#" then patterns
  else patterns ++ [trimmed].

Definition parseExclude (content : string) : list string :=
  fold_left pushPattern (JS.split JS.LF content) [].

Definition getExcludePatterns (repoRoot : string) : M (list string) :=
  gitDir <- getGitDir repoRoot ;;
  let excludePath := Path.join [gitDir; "info"; "exclude"] in
  present <- existsSyncM excludePath ;;
  if negb present then ret []
  else content <- readFileM excludePath ;; ret (parseExclude content).

(** *** [findExcludedFiles] *)

(** The two rewrites of a pattern before it is handed to [Bun.Glob]. *)
Definition globPattern (pattern : string) : string :=
  let pattern := if JS.startsWith pattern "/" then JS.slice 1 pattern else pattern in
  if JS.endsWith pattern "/" then (pattern ++ "**/*")%string else pattern.

(** The [for await] loop over one scan. *)
Definition pushExisting (w : W) (repoRoot : string)
    (excludedFiles : list string) (file : string) : list string :=
  let fullPath := Path.join [repoRoot; file] in
  if existsSync E fullPath w then excludedFiles ++ [file] else excludedFiles.

(** The [try] block of one pattern; its [catch] is empty. *)
Definition scanPattern (w : W) (repoRoot : string)
    (excludedFiles : list string) (pattern : string) : list string :=
  let pattern := globPattern pattern in
  if globValid E pattern then
    fold_left (pushExisting w repoRoot) (globScan E pattern repoRoot w) excludedFiles
  else excludedFiles.

Definition findExcludedFiles (repoRoot : string) : M (list string) :=
  patterns <- getExcludePatterns repoRoot ;;
  if Nat.eqb (List.length patterns) 0 then ret []
  else fun st =>
    let excludedFiles := fold_left (scanPattern (world st) repoRoot) patterns [] in
    (Ok (JS.setSpread excludedFiles), st).

(** *** [createWorktree] and [removeWorktree] *)

Definition createWorktree (repoRoot worktreeBase name baseBranch : string)
  : M worktree :=
  let branch := ("bytree/" ++ name)%string in
  let worktreePath := Path.join [worktreeBase; name] in
  sh (MkdirP (Path.dirname worktreePath)) ;;;
  present <- existsSyncM worktreePath ;;
  (if present then
     sh_nothrow (GitWorktreeRemoveForce repoRoot worktreePath) ;;;
     sh_nothrow (GitBranchDelete repoRoot branch)
   else ret tt) ;;;
  sh (GitWorktreeAdd repoRoot branch worktreePath baseBranch) ;;;
  ret {| path := worktreePath; branch := branch |}.

Definition removeWorktree (repoRoot worktreePath branch : string) : M unit :=
  sh_nothrow (GitWorktreeRemoveForce repoRoot worktreePath) ;;;
  sh_nothrow (GitBranchDelete repoRoot branch).

(** *** [copyExcludedFiles] *)

Fixpoint copyLoop (repoRoot worktreePath : string)
    (excludedFiles copied : list string) : M (list string) :=
  match excludedFiles with
  | [] => ret copied
  | file :: rest =>
      let srcPath := Path.join [repoRoot; file] in
      let destPath := Path.join [worktreePath; file] in
      sh (MkdirP (Path.dirname destPath)) ;;;
      sh (CpR srcPath destPath) ;;;
      copyLoop repoRoot worktreePath rest (copied ++ [file])
  end.

Definition copyExcludedFiles (repoRoot worktreePath : string) : M (list string) :=
  excludedFiles <- findExcludedFiles repoRoot ;;
  copyLoop repoRoot worktreePath excludedFiles [].

(** *** [listMyWorktrees] *)

(** The variables of the parsing loop. *)
Record listState : Type := {
  worktrees : list worktree;
  currentPath : string;
  currentBranch : string
}.

Definition listStep (s : listState) (line : string) : listState :=
  if JS.startsWith line "worktree " then
    {| worktrees := worktrees s;
       currentPath := JS.replace line "worktree " "";
       currentBranch := currentBranch s |}
  else if JS.startsWith line "branch " then
    let currentBranch := JS.replace line "branch refs/heads/" "" in
    {| worktrees :=
         if JS.startsWith currentBranch "bytree/" then
           worktrees s ++ [{| path := currentPath s; branch := currentBranch |}]
         else worktrees s;
       currentPath := currentPath s;
       currentBranch := currentBranch |}
  else s.

Definition parseWorktreeList (output : string) : list worktree :=
  worktrees
    (fold_left listStep (JS.split JS.LF output)
       {| worktrees := []; currentPath := ""; currentBranch := "" |}).

Definition listMyWorktrees (repoRoot : string) : M (list worktree) :=
  output <- sh (GitWorktreeList repoRoot) ;;
  ret (parseWorktreeList output).

End Library.

(** ** Glob matching

    The fragment of [Bun.Glob] patterns made of literal code units, [?],
    [*] (any run of code units inside one path segment) and a [**]
    segment (any number of whole segments, none included).  With
    [dot: true] a leading dot is matched like any other code unit.
    A segment [.] or [..] of a pattern is matched like any other
    literal segment, and so matches no path in normal form: the model
    covers the patterns without such segments, which [Bun.Glob]
    resolves before it matches. *)

Module Glob.

Fixpoint segMatch (p : string) : string -> bool :=
  match p with
  | EmptyString =>
      fun s => match s with EmptyString => true | String _ _ => false end
  | String c p' =>
      if Ascii.eqb c "*" then
        fix star (s : string) : bool :=
          segMatch p' s
          || match s with
             | EmptyString => false
             | String _ s' => star s'
             end
      else if Ascii.eqb c "?" then
        fun s => match s with
                 | EmptyString => false
                 | String _ s' => segMatch p' s'
                 end
      else
        fun s => match s with
                 | EmptyString => false
                 | String d s' => Ascii.eqb c d && segMatch p' s'
                 end
  end.

Fixpoint pathMatch (ps : list string) : list string -> bool :=
  match ps with
  | [] => fun ss => match ss with [] => true | _ :: _ => false end
  | p :: ps' =>
      if String.eqb p "**" then
        fix globstar (ss : list string) : bool :=
          pathMatch ps' ss
          || match ss with
             | [] => false
             | _ :: ss' => globstar ss'
             end
      else
        fun ss => match ss with
                  | [] => false
                  | s :: ss' => segMatch p s && pathMatch ps' ss'
                  end
  end.

Definition globMatch (pattern file : string) : bool :=
  pathMatch (JS.split Path.slash pattern) (JS.split Path.slash file).



End Glob.

(** ** A reference environment

    One repository with its main working tree at [repo], linked
    worktrees, local branches, and a filesystem of directories and
    regular files.  Git's commands behave as its manual describes them;
    what the model leaves out is said at each command. *)

Module Ref.

Local Open Scope string_scope.

Record World : Type := {
  cwd : string;                       (** the working directory of the process *)
  repo : string;                      (** the root of the main working tree *)
  dirs : list string;                 (** the directories that exist *)
  files : list (string * string);     (** the regular files and their contents *)
  head : string;                      (** the branch checked out in the main working tree *)
  branches : list (string * string);  (** the local branches and the commit of each *)
  linked : list (string * string);    (** the linked worktrees: path and checked-out branch *)
  originHead : option string;         (** the branch [refs/remotes/origin/HEAD] points to *)
  remoteBranches : list string        (** the remote-tracking branches, as [origin/name] *)
}.

Definition inb (x : string) (l : list string) : bool := existsb (String.eqb x) l.

Fixpoint lookup {A} (k : string) (l : list (string * A)) : option A :=
  match l with
  | [] => None
  | (k', v) :: l' => if String.eqb k k' then Some v else lookup k l'
  end.

(** A relative path is resolved against the working directory. *)
Definition absolute (w : World) (p : string) : string :=
  if JS.startsWith p "/" then p else Path.join [cwd w; p].

Definition isFile (w : World) (p : string) : bool := inb p (map fst (files w)).
Definition isDir (w : World) (p : string) : bool := inb p (dirs w).
Definition pathExists (w : World) (p : string) : bool := isDir w p || isFile w p.

(** [q] is [p] or lies below it. *)
Definition within (p q : string) : bool :=
  String.eqb q p || JS.startsWith q (p ++ "/").

Definition checkedOut (w : World) (b : string) : bool :=
  String.eqb b (head w) || inb b (map snd (linked w)).

Definition stanza (w : World) (p b : string) : string :=
  let commit := match lookup b (branches w) with Some c => c | None => "" end in
  "worktree " ++ p ++ String JS.LF ("HEAD " ++ commit ++ String JS.LF
    ("branch refs/heads/" ++ b ++ String JS.LF (String JS.LF ""))).

Definition setFs (w : World) (ds : list string) (fs : list (string * string)) : World :=
  {| cwd := cwd w; repo := repo w; dirs := ds; files := fs; head := head w;
     branches := branches w; linked := linked w; originHead := originHead w;
     remoteBranches := remoteBranches w |}.

Definition setGit (w : World) (ds : list string) (fs : list (string * string))
    (bs : list (string * string)) (ls : list (string * string)) : World :=
  {| cwd := cwd w; repo := repo w; dirs := ds; files := fs; head := head w;
     branches := bs; linked := ls; originHead := originHead w;
     remoteBranches := remoteBranches w |}.

(** Every git command is run with [-C repoRoot] and fails outside the
    repository. *)
Definition execute (c : cmd) (w : World) : option string * World :=
  match c with
  | GitCommonDir r =>
      (if String.eqb r (repo w) then Some (".git" ++ String JS.LF "") else None, w)
  | GitSymbolicRefOriginHead r =>
      (if String.eqb r (repo w) then
         match originHead w with
         | Some b => Some ("refs/remotes/origin/" ++ b ++ String JS.LF "")
         | None => None
         end
       else None, w)
  | GitBranchRemote r =>
      (if String.eqb r (repo w) then
         Some (String.concat ""
                 (map (fun b => "  " ++ b ++ String JS.LF "") (remoteBranches w)))
       else None, w)
  | GitWorktreeRemoveForce r p =>
      (* removes the registration and the directory with all it holds *)
      let p := absolute w p in
      if String.eqb r (repo w) && inb p (map fst (linked w)) then
        (Some "",
         setGit w
           (filter (fun d => negb (within p d)) (dirs w))
           (filter (fun f => negb (within p (fst f))) (files w))
           (branches w)
           (filter (fun l => negb (String.eqb (fst l) p)) (linked w)))
      else (None, w)
  | GitBranchDelete r b =>
      (* refused for a branch that is checked out in some worktree *)
      if String.eqb r (repo w) && isSome (lookup b (branches w))
         && negb (checkedOut w b) then
        (Some "",
         setGit w (dirs w) (files w)
           (filter (fun x => negb (String.eqb (fst x) b)) (branches w))
           (linked w))
      else (None, w)
  | GitWorktreeAdd r b p base =>
      (* refused when the branch exists, when the base does not name a
         local branch, or when the path exists (git accepts an empty
         directory there; the model does not); the files checked out
         into the new worktree are not recorded.  A refusal leaves the
         world as it is: git creates the branch before it looks at the
         path, and leaves it behind when it then refuses the path.
         What the checkout needs beyond this (a readable
         [info/exclude], for one) is not modelled *)
      let p := absolute w p in
      match lookup base (branches w) with
      | Some commit =>
          if String.eqb r (repo w) && negb (isSome (lookup b (branches w)))
             && negb (pathExists w p) then
            (Some "",
             setGit w (dirs w ++ [p]) (files w)
               (branches w ++ [(b, commit)])
               (linked w ++ [(p, b)]))
          else (None, w)
      | None => (None, w)
      end
  | GitWorktreeList r =>
      (* the main working tree, then the linked ones in the order they
         were added; git sorts the linked ones by path *)
      (if String.eqb r (repo w) then
         Some (String.concat ""
                 (stanza w (repo w) (head w)
                  :: map (fun l => stanza w (fst l) (snd l)) (linked w)))
       else None, w)
  | MkdirP d =>
      (* the ancestors of [d] are not recorded, and not asked to be
         directories *)
      let d := absolute w d in
      if isFile w d then (None, w)
      else if isDir w d then (Some "", w)
      else (Some "", setFs w (dirs w ++ [d]) (files w))
  | CpR s d =>
      (* of a regular file into an existing directory; any other source
         makes the command fail in this model, and so does a
         destination that is a directory, into which [cp] would copy *)
      let s := absolute w s in
      let d := absolute w d in
      match lookup s (files w) with
      | Some content =>
          if isDir w (Path.dirname d) && negb (isDir w d) then
            (Some "",
             setFs w (dirs w)
               (filter (fun f => negb (String.eqb (fst f) d)) (files w)
                ++ [(d, content)]))
          else (None, w)
      | None => (None, w)
      end
  end.

(** The path of [file] relative to [cwd], when it lies below it. *)
Definition relativeTo (cwd file : string) : option string :=
  let base := (cwd ++ "/")%string in
  if JS.startsWith file base then Some (JS.slice (String.length base) file)
  else None.

(** The regular files below [cwd] whose relative path matches.  The
    relative paths are in normal form: for a pattern with a segment [.]
    or [..] there is none, where [Bun.Glob] yields paths that start
    with this segment. *)
Definition scan (pattern cwd : string) (w : World) : list string :=
  flat_map
    (fun f =>
       match relativeTo (absolute w cwd) (fst f) with
       | Some rel => if Glob.globMatch pattern rel then [rel] else []
       | None => []
       end)
    (files w).

(** The reference environment, with two knobs: the patterns the glob
    engine accepts, and the paths deleted after the scans and before
    the existence probes. *)
Definition envWith (valid : string -> bool) (gone : list string) : Env World := {|
  exec := execute;
  existsSync := fun p w => negb (inb (absolute w p) gone) && pathExists w (absolute w p);
  readFile := fun p w => lookup (absolute w p) (files w);
  globValid := valid;
  globScan := scan
|}.

(** Every pattern is accepted and nothing is deleted on the way. *)
Definition env : Env World := envWith (fun _ => true) [].

(** The same repository once its [.git/config] no longer parses: git
    stops every command with "fatal: bad config line" and status 128. *)
Definition envBadConfig : Env World := {|
  exec := fun c w => if isCopyCmd c then execute c w else (None, w);
  existsSync := existsSync env;
  readFile := readFile env;
  globValid := globValid env;
  globScan := scan
|}.

Definition start (w : World) : state World := {| world := w; issued := [] |}.

(** Git's bookkeeping is consistent: the branch of every worktree, the
    main one included, exists. *)
Definition wf (w : World) : Prop :=
  isSome (lookup (head w) (branches w)) = true
  /\ forallb (fun l => isSome (lookup (snd l) (branches w))) (linked w) = true.

(** [w'] has the repository of [w] in the same state, and every
    directory of [w] is still a directory in [w'].  Nothing is asked of
    the regular files: they may have been added, as the replication
    does, overwritten or removed. *)
Record grows (w w' : World) : Prop := {
  grows_cwd : cwd w' = cwd w;
  grows_repo : repo w' = repo w;
  grows_head : head w' = head w;
  grows_branches : branches w' = branches w;
  grows_linked : linked w' = linked w;
  grows_dirs :
    forallb (fun d => isFile w d || (isDir w' d && negb (isFile w' d))) (dirs w) = true
}.

End Ref.

(** ** Vocabulary of the properties *)

Unset Implicit Arguments.
Local Open Scope string_scope.

(** [pat] occurs in [s]. *)
Definition occursIn (pat s : string) : Prop :=
  exists pre post, s = pre ++ pat ++ post.

Definition allWhiteSpace (s : string) : Prop :=
  forallb JS.isWhiteSpace (list_ascii_of_string s) = true.

(** ** Sample worlds *)

Module Sample.

Definition nl : string := String JS.LF "".

(** A repository at [/r] with two exclude patterns, no
    [refs/remotes/origin/HEAD], and no remote branch called [main]. *)
Definition w0 : Ref.World := {|
  Ref.cwd := "/r";
  Ref.repo := "/r";
  Ref.dirs := ["/"; "/r"; "/r/.git"; "/r/.git/info"; "/r/.claude";
               "/r/.claude/cache"; "/r/foo"; "/r/foo/b"; "/r/foobar"];
  Ref.files :=
    [("/r/.git/info/exclude",
      "/.claude/" ++ nl ++ "# comment" ++ nl ++ nl ++ "/foo/" ++ nl);
     ("/r/.claude/settings.json", "{}");
     ("/r/.claude/cache/tmp.bin", "x");
     ("/r/foo/a", "1"); ("/r/foo/b/c", "2"); ("/r/foobar/d", "3")];
  Ref.head := "main";
  Ref.branches := [("main", "c0ffee")];
  Ref.linked := [];
  Ref.originHead := None;
  Ref.remoteBranches := ["origin/main-old"; "origin/master"]
|}.

(** [Sample.w0] with the exclude patterns [[], [/foo/] and [foo/a]. *)
Definition w1 : Ref.World :=
  Ref.setFs w0 (Ref.dirs w0)
    (("/r/.git/info/exclude", "[" ++ nl ++ "/foo/" ++ nl ++ "foo/a" ++ nl)
     :: tl (Ref.files w0)).

(** [Sample.w0] with the single exclude pattern [/foo/]. *)
Definition w2 : Ref.World :=
  Ref.setFs w0 (Ref.dirs w0)
    (("/r/.git/info/exclude", "/foo/" ++ nl) :: tl (Ref.files w0)).

(** [Sample.w0] with an exclude file whose only pattern matches
    nothing. *)
Definition w3 : Ref.World :=
  Ref.setFs w0 (Ref.dirs w0)
    (("/r/.git/info/exclude", "# none" ++ nl ++ "/absent/" ++ nl)
     :: tl (Ref.files w0)).

(** [Sample.w0] with a destination [/wt] in which [foo] is a regular
    file, so that [mkdir -p /wt/foo] fails. *)
Definition w4 : Ref.World :=
  Ref.setFs w0 (Ref.dirs w0 ++ ["/wt"]) (Ref.files w0 ++ [("/wt/foo", "")]).

(** [Sample.w0] with a branch [bytree/demo] left behind when its
    worktree was removed with [git worktree remove]: nothing exists at
    [/r-bytree/demo]. *)
Definition w5 : Ref.World :=
  Ref.setGit w0 (Ref.dirs w0) (Ref.files w0)
    [("main", "c0ffee"); ("bytree/demo", "0ldc0de")] [].

(** A glob engine that rejects the pattern [[]. *)
Definition rejectsBracket : string -> bool := fun p => negb (String.eqb p "[").

End Sample.

(** ** Vocabulary for the resolution of exclusions *)

(** A path is collected when a pattern that the glob engine accepts
    yields it and it is there when probed. *)
Definition collects {W : Type} (E : Env W) (w : W) (repoRoot : string)
    (patterns : list string) (file : string) : Prop :=
  exists pattern,
    In pattern patterns
    /\ globValid E (globPattern pattern) = true
    /\ In file (globScan E (globPattern pattern) repoRoot w)
    /\ existsSync E (Path.join [repoRoot; file]) w = true.

(** ** Vocabulary for the replication *)

(** The two subprocesses that copy one entry. *)
Definition copyCmds (repoRoot worktreePath file : string) : list cmd :=
  [MkdirP (Path.dirname (Path.join [worktreePath; file]));
   CpR (Path.join [repoRoot; file]) (Path.join [worktreePath; file])].

(** The log of subprocesses that all exited with status 0. *)
Definition succeeded (cs : list cmd) : list (cmd * bool) :=
  map (fun c => (c, true)) cs.

(** [ReplicationFailed] in the specification's taxonomy: the error of a
    [mkdir -p] or [cp -r] that exited with a non-zero status. *)
Definition ReplicationFailed (e : error) : Prop :=
  exists c, e = ShellError c /\ isCopyCmd c = true.

(** ** Vocabulary for the worktree listing *)

(** The path of the most recent [worktree] line among the lines [pre]
    already read; the empty string when there is none. *)
Definition lastWorktreePath (pre : list string) : string :=
  match find (fun l => JS.startsWith l "worktree ") (rev pre) with
  | Some l => JS.slice 9 l
  | None => ""
  end.

(** The entries that the lines [rest] give rise to, [pre] being the
    lines before them: one for every line that names a branch below
    [refs/heads/bytree/], paired with the most recent worktree path. *)
Fixpoint pairsAfter (pre rest : list string) : list worktree :=
  match rest with
  | [] => []
  | line :: rest' =>
      (if JS.startsWith line "branch refs/heads/bytree/" then
         [{| path := lastWorktreePath pre; branch := JS.slice 18 line |}]
       else [])
      ++ pairsAfter (pre ++ [line]) rest'
  end.

Module SampleListing.

(** What [git worktree list --porcelain] prints for a repository at
    [/r] on [main] with one linked worktree made by the tool. *)
Definition output : string :=
  "worktree /r" ++ Sample.nl ++ "HEAD c0ffee" ++ Sample.nl
  ++ "branch refs/heads/main" ++ Sample.nl ++ Sample.nl
  ++ "worktree /r-bytree/demo" ++ Sample.nl ++ "HEAD c0ffee" ++ Sample.nl
  ++ "branch refs/heads/bytree/demo" ++ Sample.nl ++ Sample.nl.

End SampleListing.

(** * The rest of the library and the command line

    [getRepoRoot], [getRepoInfo] and [getCurrentBranch] of
    [src/lib/git.ts] and the commands of [bin/bytree.ts] run three more
    subprocesses, read the working directory of the process, and write
    to the console.  They are embedded over a host [Host], which holds
    the environment of the library and answers these too. *)

Set Implicit Arguments.

(** ** [path.resolve] *)

(** The loop of [path.resolve], over the parts from the right, the
    working directory of the process last: it stops at the first
    absolute part. *)
Fixpoint resolveLoop (partsFromRight : list string) (resolvedPath : string)
  : string * bool :=
  match partsFromRight with
  | [] => (resolvedPath, false)
  | part :: rest =>
      if String.eqb part "" then resolveLoop rest resolvedPath
      else
        let resolvedPath := part ++ "/" ++ resolvedPath in
        if JS.startsWith part "/" then (resolvedPath, true)
        else resolveLoop rest resolvedPath
  end.

(** [path.resolve(...parts)], [processCwd] being [process.cwd()]. *)
Definition resolve (processCwd : string) (parts : list string) : string :=
  let '(resolvedPath, resolvedAbsolute) :=
    resolveLoop (rev (processCwd :: parts)) "" in
  let body :=
    JS.joinWith "/"
      (Path.normalizeSegments (negb resolvedAbsolute) []
         (JS.split Path.slash resolvedPath)) in
  if resolvedAbsolute then "/" ++ body
  else if String.eqb body "" then "." else body.

(** ** The pattern of [getRepoInfo]

    [/github\.com[:/]([^/]+)\/([^/.]+)/]: both groups are greedy, and a
    shorter first group never helps, for what follows it must be the
    first [/]. *)

(** The longest prefix of code units that satisfy [f], and the rest. *)
Fixpoint span (f : ascii -> bool) (s : string) : string * string :=
  match s with
  | EmptyString => (EmptyString, EmptyString)
  | String c s' =>
      if f c then let '(taken, rest) := span f s' in (String c taken, rest)
      else (EmptyString, s)
  end.

Definition notSlash (c : ascii) : bool := negb (Ascii.eqb c "/").
Definition notSlashNorDot (c : ascii) : bool :=
  negb (Ascii.eqb c "/") && negb (Ascii.eqb c ".").

(** The match that starts at the first code unit of [s]. *)
Definition matchHere (s : string) : option (string * string) :=
  if JS.startsWith s "github.com" then
    match JS.slice 10 s with
    | String sep afterSep =>
        if Ascii.eqb sep ":" || Ascii.eqb sep "/" then
          match span notSlash afterSep with
          | (String o owner, String _ afterSlash) =>
              match span notSlashNorDot afterSlash with
              | (String r repo, _) => Some (String o owner, String r repo)
              | (EmptyString, _) => None
              end
          | _ => None
          end
        else None
    | EmptyString => None
    end
  else None.

(** [url.match(...)]: the leftmost match; the two groups. *)
Fixpoint matchGithub (url : string) : option (string * string) :=
  match matchHere url with
  | Some groups => Some groups
  | None =>
      match url with
      | EmptyString => None
      | String _ url' => matchGithub url'
      end
  end.

(** ** The host *)

(** The subprocesses that only the rest of the library runs. *)
Inductive query : Type :=
| GitShowToplevel (cwd : string)
    (** [git -C cwd rev-parse --show-toplevel] *)
| GitRemoteGetUrl (repoRoot : string)
    (** [git -C repoRoot remote get-url origin] *)
| GitBranchShowCurrent (repoRoot : string)
    (** [git -C repoRoot branch --show-current] *).

(** The styles of [chalk] that the command line uses. *)
Inductive style : Type := CyanBold | White | Gray | Green | Red.

(** - [env]: the environment of the library;
    - [ask q w]: the standard output of [q] when it exits with status
      0, and the world after;
    - [processCwd w]: [process.cwd()];
    - [chalk st text]: the text in the style, as the terminal at hand
      has it rendered. *)
Record Host (W : Type) : Type := {
  env : Env W;
  ask : query -> W -> option string * W;
  processCwd : W -> string;
  chalk : style -> string -> string
}.

Inductive command : Type :=
| Lib (c : cmd)
| Query (q : query).

(** What can be thrown: the errors of the library, the failure of one
    of the three subprocesses above, and [new Error(message)]. *)
Inductive exn : Type :=
| LibError (e : error)
| QueryError (q : query)
| JsError (message : string).

Inductive outcome (A : Type) : Type :=
| Done (a : A)
| Raised (e : exn).
Arguments Raised {A} e.

(** A line of [console.log], a line of [console.error], and
    [console.error(label, error)]. *)
Inductive output : Type :=
| Stdout (line : string)
| Stderr (line : string)
| StderrError (label : string) (e : exn).

(** The world, the subprocesses run so far with whether each exited
    with status 0, and what was written to the console. *)
Record session (W : Type) : Type := {
  now : W;
  trace : list (command * bool);
  console : list output
}.

(** [{ owner, repo }] *)
Record repoInfo : Type := { owner : string; repo : string }.

(** [n.toString()] for a length *)
Fixpoint decimalFrom (fuel n : nat) (acc : string) : string :=
  match fuel with
  | O => acc
  | S fuel' =>
      let acc' := String (ascii_of_nat (48 + Nat.modulo n 10)) acc in
      if Nat.eqb (Nat.div n 10) 0 then acc' else decimalFrom fuel' (Nat.div n 10) acc'
  end.

Definition decimal (n : nat) : string := decimalFrom (S n) n "".

(** The check mark U+2713, as the three bytes written to the terminal. *)
Definition checkMark : string :=
  String (ascii_of_nat 226) (String (ascii_of_nat 156) (String (ascii_of_nat 147) "")).

(** [args.indexOf(x)]; [None] stands for -1. *)
Fixpoint indexOf (x : string) (args : list string) : option nat :=
  match args with
  | [] => None
  | a :: args' =>
      if String.eqb a x then Some O
      else match indexOf x args' with
           | Some i => Some (S i)
           | None => None
           end
  end.

(** [args.includes(x)] *)
Definition hasArg (x : string) (args : list string) : bool :=
  existsb (String.eqb x) args.

(** [!name] for a string that may be [undefined] *)
Definition falsy (name : option string) : bool :=
  match name with
  | None => true
  | Some s => String.eqb s ""
  end.

Section Cli.

Context {W : Type} (H : Host W).

Definition C (A : Type) : Type := session W -> outcome A * session W.

Definition done {A} (a : A) : C A := fun s => (Done a, s).

Definition raise {A} (e : exn) : C A := fun s => (Raised e, s).

Definition andThen {A B} (m : C A) (k : A -> C B) : C B :=
  fun s =>
    match m s with
    | (Done a, s') => k a s'
    | (Raised e, s') => (Raised e, s')
    end.

Notation "x <-- m ;; k" := (andThen m (fun x => k))
  (at level 61, m at next level, right associativity).
Notation "m ;;;; k" := (andThen m (fun _ => k))
  (at level 61, right associativity).

(** A call into the part of the library embedded above. *)
Definition call {A} (m : M (W := W) A) : C A :=
  fun s =>
    let '(r, st) := m {| world := now s; issued := [] |} in
    let s' := {| now := world st;
                 trace := (trace s ++ map (fun x => (Lib (fst x), snd x)) (issued st))%list;
                 console := console s |} in
    match r with
    | Ok a => (Done a, s')
    | Throw e => (Raised (LibError e), s')
    end.

(** [await $`...`.quiet()] for the three subprocesses of this part *)
Definition shq (q : query) : C string :=
  fun s =>
    let '(out, w') := ask H q (now s) in
    let s' := {| now := w';
                 trace := (trace s ++ [(Query q, isSome out)])%list;
                 console := console s |} in
    match out with
    | Some text => (Done text, s')
    | None => (Raised (QueryError q), s')
    end.

Definition consoleLog (line : string) : C unit :=
  fun s => (Done tt, {| now := now s; trace := trace s;
                        console := (console s ++ [Stdout line])%list |}).

Definition consoleError (line : string) : C unit :=
  fun s => (Done tt, {| now := now s; trace := trace s;
                        console := (console s ++ [Stderr line])%list |}).

(** *** [getRepoRoot], [getRepoInfo], [getCurrentBranch] *)

Definition getRepoRoot (cwd : string) : C string :=
  result <-- call (sh (env H) (GitCommonDir cwd)) ;;
  let gitCommonDir := JS.trim result in
  if String.eqb gitCommonDir ".git" then
    topLevel <-- shq (GitShowToplevel cwd) ;;
    done (JS.trim topLevel)
  else
    fun s =>
      done (Path.dirname (resolve (processCwd H (now s)) [cwd; gitCommonDir])) s.

Definition getRepoInfo (repoRoot : string) : C repoInfo :=
  result <-- shq (GitRemoteGetUrl repoRoot) ;;
  let url := JS.trim result in
  match matchGithub url with
  | Some (o, r) => done {| owner := o; repo := r |}
  | None => raise (JsError ("Could not parse GitHub URL: " ++ url))
  end.

Definition getCurrentBranch (repoRoot : string) : C string :=
  result <-- shq (GitBranchShowCurrent repoRoot) ;;
  done (JS.trim result).

(** *** The commands of [bin/bytree.ts] *)

Definition HELP : string :=
  JS.joinWith (String JS.LF "")
    [""%string;
     (chalk H CyanBold "bytree" ++ " - Git worktree manager")%string;
     "";
     chalk H White "Usage:";
     "  bytree add <name>       Create a worktree with excluded files copied";
     "  bytree remove <name>    Remove a worktree";
     "  bytree list             List all bytree worktrees";
     "  bytree excluded         Show patterns in .git/info/exclude";
     "";
     chalk H White "Examples:";
     "  bytree add feature-x    Create worktree at ../<repo>-bytree/feature-x";
     "  bytree add issue-123    Create worktree for issue #123";
     "  bytree remove feature-x Remove the worktree";
     "";
     chalk H White "Options:";
     "  --base <branch>    Base branch (default: auto-detect)";
     "  --help, -h         Show help";
     "  --version, -v      Show version";
     ""].

Definition cwdOfProcess : C string := fun s => (Done (processCwd H (now s)), s).

(** [join(repoRoot, "..", `${repoInfo.repo}-bytree`)] *)
Definition worktreeBaseOf (repoRoot : string) (info : repoInfo) : string :=
  Path.join [repoRoot; ".."; repo info ++ "-bytree"].

Definition addCommand (name : string) (baseBranch : option string) : C unit :=
  cwd <-- cwdOfProcess ;;
  repoRoot <-- getRepoRoot cwd ;;
  info <-- getRepoInfo repoRoot ;;
  base <-- (if falsy baseBranch then call (getDefaultBranch (env H) repoRoot)
            else done (match baseBranch with Some b => b | None => "" end)) ;;
  let worktreeBase := worktreeBaseOf repoRoot info in
  consoleLog "" ;;;;
  consoleLog (chalk H CyanBold "bytree add") ;;;;
  consoleLog (chalk H Gray (owner info ++ "/" ++ repo info ++ " | base: " ++ base)) ;;;;
  consoleLog "" ;;;;
  consoleLog (chalk H Gray "Creating worktree...") ;;;;
  created <-- call (createWorktree (env H) repoRoot worktreeBase name base) ;;
  consoleLog (chalk H Green (checkMark ++ " Created " ++ path created)) ;;;;
  consoleLog (chalk H Gray ("  Branch: " ++ branch created)) ;;;;
  consoleLog "" ;;;;
  consoleLog (chalk H Gray "Copying excluded files...") ;;;;
  copied <-- call (copyExcludedFiles (env H) repoRoot (path created)) ;;
  (if Nat.ltb 0 (List.length copied) then
     consoleLog (chalk H Green (checkMark ++ " Copied " ++ decimal (List.length copied)
                                ++ " excluded file(s)"))
   else consoleLog (chalk H Gray "  No excluded files to copy")) ;;;;
  consoleLog "" ;;;;
  consoleLog (chalk H White "Next:") ;;;;
  consoleLog (chalk H Gray ("  cd " ++ path created)).

Definition removeCommand (name : string) : C unit :=
  cwd <-- cwdOfProcess ;;
  repoRoot <-- getRepoRoot cwd ;;
  info <-- getRepoInfo repoRoot ;;
  let worktreeBase := worktreeBaseOf repoRoot info in
  let worktreePath := Path.join [worktreeBase; name] in
  let branch := "bytree/" ++ name in
  consoleLog "" ;;;;
  consoleLog (chalk H CyanBold "bytree remove") ;;;;
  consoleLog "" ;;;;
  call (removeWorktree (env H) repoRoot worktreePath branch) ;;;;
  consoleLog (chalk H Green (checkMark ++ " Removed " ++ name)).

(** The body of the loop of [listCommand]. *)
Definition printWorktree (wt : worktree) : C unit :=
  let name := JS.replace (branch wt) "bytree/" "" in
  consoleLog (chalk H White name) ;;;;
  consoleLog (chalk H Gray ("  " ++ path wt)) ;;;;
  consoleLog (chalk H Gray ("  " ++ branch wt)) ;;;;
  consoleLog "".

Fixpoint forEach {A} (f : A -> C unit) (xs : list A) : C unit :=
  match xs with
  | [] => done tt
  | x :: xs' => f x ;;;; forEach f xs'
  end.

Definition listCommand : C unit :=
  cwd <-- cwdOfProcess ;;
  repoRoot <-- getRepoRoot cwd ;;
  info <-- getRepoInfo repoRoot ;;
  worktrees <-- call (listMyWorktrees (env H) repoRoot) ;;
  consoleLog "" ;;;;
  consoleLog (chalk H CyanBold "bytree list") ;;;;
  consoleLog (chalk H Gray (owner info ++ "/" ++ repo info)) ;;;;
  consoleLog "" ;;;;
  if Nat.eqb (List.length worktrees) 0 then
    consoleLog (chalk H Gray "No worktrees found.") ;;;;
    consoleLog (chalk H Gray "Create one: bytree add <name>")
  else forEach printWorktree worktrees.

Definition excludedCommand : C unit :=
  cwd <-- cwdOfProcess ;;
  repoRoot <-- getRepoRoot cwd ;;
  consoleLog "" ;;;;
  consoleLog (chalk H CyanBold "bytree excluded") ;;;;
  consoleLog "" ;;;;
  patterns <-- call (getExcludePatterns (env H) repoRoot) ;;
  if Nat.eqb (List.length patterns) 0 then
    consoleLog (chalk H Gray "No patterns in .git/info/exclude")
  else forEach consoleLog patterns.

(** [process.exit(code)] ends the run: [main] returns the exit status,
    0 when it returns normally.  [args] is [Bun.argv.slice(2)]. *)
Definition exitWith (code : nat) (s : session W) : nat * session W := (code, s).

(** The [try] block of [main] around one command, and its [catch]. *)
Definition guarded (m : C unit) (s : session W) : nat * session W :=
  match m s with
  | (Done _, s') => (0, s')
  | (Raised e, s') =>
      (1, {| now := now s'; trace := trace s';
             console := (console s' ++ [StderrError (chalk H Red "Error:") e])%list |})
  end.

(** Two lines on [console.error], then [process.exit(1)]. *)
Definition nameRequired (usage : string) (s : session W) : nat * session W :=
  (1, {| now := now s; trace := trace s;
         console := (console s ++ [Stderr (chalk H Red "Error: Name required");
                                   Stderr (chalk H Gray usage)])%list |}).

Definition main (args : list string) (s : session W) : nat * session W :=
  if hasArg "--version" args || hasArg "-v" args then
    exitWith 0 (snd (consoleLog "0.1.0" s))
  else if Nat.eqb (List.length args) 0 || hasArg "--help" args || hasArg "-h" args then
    exitWith 0 (snd (consoleLog HELP s))
  else
    let command := match nth_error args 0 with Some c => c | None => "" end in
    if String.eqb command "add" then
      let name := nth_error args 1 in
      if falsy name then nameRequired "Usage: bytree add <name>" s
      else
        let baseBranch :=
          match indexOf "--base" args with
          | Some baseIdx => nth_error args (baseIdx + 1)
          | None => None
          end in
        guarded (addCommand (match name with Some n => n | None => "" end) baseBranch) s
    else if String.eqb command "remove" then
      let name := nth_error args 1 in
      if falsy name then nameRequired "Usage: bytree remove <name>" s
      else guarded (removeCommand (match name with Some n => n | None => "" end)) s
    else if String.eqb command "list" then guarded listCommand s
    else if String.eqb command "excluded" then guarded excludedCommand s
    else
      exitWith 1
        (snd (consoleLog HELP
                (snd (consoleError (chalk H Red ("Error: Unknown command: " ++ command)) s)))).

End Cli.

Unset Implicit Arguments.

(** ** Vocabulary of the properties of this part *)

(** [../] repeated [n] times. *)
Fixpoint upward (n : nat) : string :=
  match n with
  | O => ""
  | S n' => "../" ++ upward n'
  end.

(** A name with no path separator in it. *)
Definition slashFree (s : string) : bool :=
  forallb notSlash (list_ascii_of_string s).

(** [s] holds no line feed. *)
Definition singleLine (s : string) : bool :=
  forallb (fun c => negb (Ascii.eqb c JS.LF)) (list_ascii_of_string s).

(** [t] is [line] without the white space at its two ends. *)
Definition strippedOf (line t : string) : Prop :=
  exists before after,
    line = before ++ t ++ after
    /\ allWhiteSpace before /\ allWhiteSpace after
    /\ match t with
       | EmptyString => True
       | String c _ => JS.isWhiteSpace c = false
       end
    /\ forall u c, t = u ++ String c "" -> JS.isWhiteSpace c = false.

(** The patterns of a list of lines: every line is stripped of the
    white space at its ends; what is left is a pattern unless it is
    empty or starts with [#].  The order is that of the lines. *)
Inductive keptLines : list string -> list string -> Prop :=
| kept_nil : keptLines [] []
| kept_skip (line t : string) (lines patterns : list string) :
    strippedOf line t ->
    t = "" \/ (exists rest, t = String "#" rest) ->
    keptLines lines patterns ->
    keptLines (line :: lines) patterns
| kept_push (line t : string) (lines patterns : list string) :
    strippedOf line t ->
    t <> "" -> (forall rest, t <> String "#" rest) ->
    keptLines lines patterns ->
    keptLines (line :: lines) (t :: patterns).

(** [lines] are the lines of [content]: joined by line feeds they give
    [content] back, and none holds a line feed. *)
Definition linesOf (content : string) (lines : list string) : Prop :=
  lines <> []
  /\ content = JS.joinWith (String JS.LF "") lines
  /\ forallb singleLine lines = true.

(** The patterns of an exclude file that holds [content]. *)
Definition exclusionsOf (content : string) (patterns : list string) : Prop :=
  exists lines, linesOf content lines /\ keptLines lines patterns.

(** From [s] to [s'], subprocesses were run, all of them [allowed]. *)
Definition onlyRuns {W : Type} (allowed : command -> bool) (s s' : session W) : Prop :=
  exists added,
    trace s' = (trace s ++ added)%list
    /\ forallb (fun x => allowed (fst x)) added = true.

(** What [add] may run for [name] from the base [b]: no detection of
    the default branch, and no [git worktree add] but the one that
    creates [bytree/name] from [b]. *)
Definition addRuns (name b : string) (c : command) : bool :=
  match c with
  | Lib (GitSymbolicRefOriginHead _) | Lib (GitBranchRemote _) => false
  | Lib (GitWorktreeAdd _ br _ base) =>
      String.eqb br ("bytree/" ++ name) && String.eqb base b
  | _ => true
  end.

(** The worktrees of the reference world whose branch is one of
    [bytree]'s, the main working tree first, as [{ path, branch }]. *)
Definition bytreeEntries (w : Ref.World) : list worktree :=
  map (fun l => {| path := fst l; branch := snd l |})
    (filter (fun l => JS.startsWith (snd l) "bytree/")
       ((Ref.repo w, Ref.head w) :: Ref.linked w)).

(** No path, branch name or commit name that git lists holds a line
    feed. *)
Definition listable (w : Ref.World) : bool :=
  forallb
    (fun l =>
       singleLine (fst l) && singleLine (snd l)
       && singleLine (match Ref.lookup (snd l) (Ref.branches w) with
                      | Some c => c
                      | None => ""
                      end))
    ((Ref.repo w, Ref.head w) :: Ref.linked w).

(** ** The reference host *)

Module RefHost.

(** The reference environment, in which git also answers from the root
    of a linked worktree, where the common directory is the [.git] of
    the main working tree, as an absolute path, and from a directory of
    the main working tree below its root, where it is this [.git] as a
    path relative to the directory. *)
Definition envAnywhere : Env Ref.World := {|
  exec := fun c w =>
    match c with
    | GitCommonDir d =>
        let p := Ref.absolute w d in
        if Ref.inb p (map fst (Ref.linked w)) then
          (Some (Ref.repo w ++ "/.git" ++ String JS.LF ""), w)
        else
          match Ref.relativeTo (Ref.repo w) p with
          | Some rel =>
              if Ref.isDir w p && negb (Ref.within (Ref.repo w ++ "/.git") p) then
                (Some (upward (List.length (JS.split "/" rel)) ++ ".git"
                       ++ String JS.LF ""), w)
              else (None, w)
          | None => Ref.execute c w
          end
    | _ => Ref.execute c w
    end;
  existsSync := existsSync Ref.env;
  readFile := readFile Ref.env;
  globValid := globValid Ref.env;
  globScan := Ref.scan
|}.

(** The three other subprocesses, asked at the root of the main working
    tree; [originUrl] is the URL of the remote [origin], if there is
    one. *)
Definition answer (originUrl : option string) (q : query) (w : Ref.World)
  : option string * Ref.World :=
  match q with
  | GitShowToplevel d =>
      (if String.eqb (Ref.absolute w d) (Ref.repo w)
       then Some (Ref.repo w ++ String JS.LF "") else None, w)
  | GitRemoteGetUrl r =>
      (if String.eqb r (Ref.repo w) then
         match originUrl with
         | Some url => Some (url ++ String JS.LF "")
         | None => None
         end
       else None, w)
  | GitBranchShowCurrent r =>
      (if String.eqb r (Ref.repo w) then Some (Ref.head w ++ String JS.LF "") else None, w)
  end.

(** A terminal without colours: [chalk] leaves the text as it is. *)
Definition host (originUrl : option string) : Host Ref.World := {|
  env := envAnywhere;
  ask := answer originUrl;
  processCwd := Ref.cwd;
  chalk := fun _ text => text
|}.

(** The reference environment for a repository whose branches track
    the regular files [tracked] (their paths from the root, and their
    contents): [git worktree add] checks them out into the new
    worktree. *)
Definition envTracking (tracked : list (string * string)) : Env Ref.World := {|
  exec := fun c w =>
    match c with
    | GitWorktreeAdd r b p base =>
        match exec envAnywhere c w with
        | (Some text, w') =>
            (Some text,
             Ref.setFs w' (Ref.dirs w')
               (Ref.files w'
                ++ map (fun f => (Ref.absolute w p ++ "/" ++ fst f, snd f)) tracked))
        | refused => refused
        end
    | _ => exec envAnywhere c w
    end;
  existsSync := existsSync envAnywhere;
  readFile := readFile envAnywhere;
  globValid := globValid envAnywhere;
  globScan := Ref.scan
|}.

Definition hostTracking (originUrl : option string) (tracked : list (string * string))
  : Host Ref.World := {|
  env := envTracking tracked;
  ask := answer originUrl;
  processCwd := Ref.cwd;
  chalk := fun _ text => text
|}.

Definition start (w : Ref.World) : session Ref.World :=
  {| now := w; trace := []; console := [] |}.

End RefHost.

Module SampleHost.

(** [Sample.w0] with the remote of the repository of Next.js. *)
Definition nextjs : Host Ref.World :=
  RefHost.host (Some "https://github.com/vercel/next.js.git").

(** The repository of [Sample.w0] when its branches track a regular
    file [foo]: in the main working tree the file has made room for the
    directory [foo], which is excluded. *)
Definition tracksFoo : Host Ref.World :=
  RefHost.hostTracking (Some "https://github.com/vercel/next.js.git") [("foo", "tracked")].

(** [Sample.w0] after [bytree add demo], the process standing in the
    new worktree. *)
Definition inWorktree : Ref.World :=
  let w := world (snd (createWorktree Ref.env "/r" "/r-bytree" "demo" "main"
                         (Ref.start Sample.w0))) in
  {| Ref.cwd := "/r-bytree/demo"; Ref.repo := Ref.repo w; Ref.dirs := Ref.dirs w;
     Ref.files := Ref.files w; Ref.head := Ref.head w; Ref.branches := Ref.branches w;
     Ref.linked := Ref.linked w; Ref.originHead := Ref.originHead w;
     Ref.remoteBranches := Ref.remoteBranches w |}.

(** [Sample.w0] with a directory where the exclude file should be. *)
Definition unreadable : Ref.World :=
  Ref.setFs Sample.w0 (Ref.dirs Sample.w0 ++ ["/r/.git/info/exclude"]) [].


(** [Sample.w5], where a branch [bytree/demo] remains, with a directory
    of the user's at [/r-bytree/demo]. *)
Definition occupied : Ref.World :=
  Ref.setFs Sample.w5 (Ref.dirs Sample.w5 ++ ["/r-bytree"; "/r-bytree/demo"])
    (Ref.files Sample.w5 ++ [("/r-bytree/demo/notes.txt", "mine")]).

(** [Sample.w0] with white space around the exclude patterns and a
    carriage return at the end of a line. *)
Definition padded : Ref.World :=
  Ref.setFs Sample.w0 (Ref.dirs Sample.w0)
    (("/r/.git/info/exclude",
      "  /.claude/ " ++ String "013" Sample.nl ++ " # comment" ++ Sample.nl ++ Sample.nl
      ++ String "009" "/foo/" ++ Sample.nl)
     :: tl (Ref.files Sample.w0)).

End SampleHost.

(** * Properties *)

(** ** The models at work *)

Example join_resolves_dots :
  Path.join ["/foo"; "bar"; "baz/asdf"; "quux"; ".."] = "/foo/bar/baz/asdf"
  /\ Path.join ["/home/u/repo"; ".."; "repo-bytree"] = "/home/u/repo-bytree"
  /\ Path.join [".git"; "info"; "exclude"] = ".git/info/exclude"
  /\ Path.join [""; ""] = ".".
Proof. repeat split; reflexivity. Qed.

Example dirname_cuts_last_segment :
  Path.dirname "/foo/bar/baz/asdf/quux" = "/foo/bar/baz/asdf"
  /\ Path.dirname "/r-bytree/demo/" = "/r-bytree"
  /\ Path.dirname "/demo" = "/"
  /\ Path.dirname "demo" = ".".
Proof. repeat split; reflexivity. Qed.

Example string_operations :
  JS.trim ("  /.claude/ " ++ String "013" "") = "/.claude/"
  /\ JS.split JS.LF ("a" ++ Sample.nl ++ Sample.nl ++ "b" ++ Sample.nl) = ["a"; ""; "b"; ""]
  /\ JS.replace "worktree /w/worktree x" "worktree " "" = "/w/worktree x"
  /\ JS.replace "refs/remotes/origin/main" "refs/remotes/origin/" "" = "main"
  /\ JS.includes "  origin/main-old" "origin/main" = true
  /\ JS.endsWith ".claude/" "/" = true
  /\ JS.setSpread ["a"; "b"; "a"; "c"; "b"] = ["a"; "b"; "c"].
Proof. repeat split; reflexivity. Qed.

Example glob_matching :
  Glob.globMatch ".claude/**/*" ".claude/settings.json" = true
  /\ Glob.globMatch ".claude/**/*" ".claude/cache/tmp.bin" = true
  /\ Glob.globMatch ".claude/**/*" ".claude" = false
  /\ Glob.globMatch "*.log" "debug.log" = true
  /\ Glob.globMatch "*.log" "logs/debug.log" = false.
Proof. repeat split; reflexivity. Qed.

(** The scenario of the specification: the patterns of [Sample.w0], the
    files they resolve to, and [bytree add demo]. *)
Example scenario_add_demo :
  let created := createWorktree Ref.env "/r" "/r-bytree" "demo" "main" (Ref.start Sample.w0) in
  let copied := copyExcludedFiles Ref.env "/r" "/r-bytree/demo" (snd created) in
  fst (getExcludePatterns Ref.env "/r" (Ref.start Sample.w0)) = Ok ["/.claude/"; "/foo/"]
  /\ fst created = Ok {| path := "/r-bytree/demo"; branch := "bytree/demo" |}
  /\ fst copied = Ok [".claude/settings.json"; ".claude/cache/tmp.bin"; "foo/a"; "foo/b/c"]
  /\ Ref.isFile (world (snd copied)) "/r-bytree/demo/.claude/settings.json" = true
  /\ Ref.isFile (world (snd copied)) "/r-bytree/demo/.claude/cache/tmp.bin" = true.
Proof. cbv zeta. repeat split; reflexivity. Qed.

(** ** The string operations *)

Lemma append_nil_r (s : string) : s ++ "" = s.
Proof. induction s as [|c s IH]; simpl; congruence. Qed.

Lemma append_assoc (a b c : string) : (a ++ b) ++ c = a ++ (b ++ c).
Proof. induction a as [|x a IH]; simpl; congruence. Qed.

Lemma length_append (a b : string) :
  String.length (a ++ b) = String.length a + String.length b.
Proof. induction a as [|x a IH]; simpl; congruence. Qed.

Lemma startsWith_iff (s pat : string) :
  JS.startsWith s pat = true <-> exists rest, s = pat ++ rest.
Proof.
  revert s; induction pat as [|p pat IH]; intros s.
  - split; [intros _; now exists s | intros _; now destruct s].
  - destruct s as [|c s]; simpl.
    + split; [discriminate | intros [rest H]; discriminate].
    + rewrite andb_true_iff, Ascii.eqb_eq, IH. split.
      * intros [-> [rest ->]]. now exists rest.
      * intros [rest H]. injection H as -> ->. split; [reflexivity | now exists rest].
Qed.

Lemma startsWith_append (pat rest : string) : JS.startsWith (pat ++ rest) pat = true.
Proof. apply startsWith_iff. now exists rest. Qed.

Lemma slice_append (pat rest : string) :
  JS.slice (String.length pat) (pat ++ rest) = rest.
Proof. induction pat as [|p pat IH]; simpl; [now destruct rest | exact IH]. Qed.

Lemma slice_split (n : nat) (s : string) :
  n <= String.length s ->
  exists pre, s = pre ++ JS.slice n s /\ String.length pre = n.
Proof.
  revert s; induction n as [|n IH]; intros s Hn.
  - exists "". split; [now destruct s | reflexivity].
  - destruct s as [|c s]; simpl in Hn; [lia|].
    destruct (IH s) as [pre [H1 H2]]; [lia|].
    exists (String c pre). simpl. split; [now f_equal | now f_equal].
Qed.

Lemma endsWith_iff (s suf : string) :
  JS.endsWith s suf = true <-> exists pre, s = pre ++ suf.
Proof.
  unfold JS.endsWith. rewrite andb_true_iff, Nat.leb_le, String.eqb_eq. split.
  - intros [Hlen Heq].
    destruct (slice_split (String.length s - String.length suf) s) as [pre [H _]]; [lia|].
    exists pre. now rewrite Heq in H.
  - intros [pre ->]. rewrite length_append. split; [lia|].
    replace (String.length pre + String.length suf - String.length suf)
      with (String.length pre) by lia.
    apply slice_append.
Qed.

Lemma includes_iff (s pat : string) :
  JS.includes s pat = true <-> occursIn pat s.
Proof.
  unfold occursIn. induction s as [|c s IH].
  - cbn [JS.includes]. rewrite orb_false_r, startsWith_iff. split.
    + intros [rest H]. exists "", rest. exact H.
    + intros [pre [post H]]. destruct pre; [now exists post | discriminate].
  - cbn [JS.includes]. rewrite orb_true_iff, IH, startsWith_iff. split.
    + intros [[rest H] | [pre [post H]]].
      * exists "", rest. exact H.
      * exists (String c pre), post. simpl. now f_equal.
    + intros [pre [post H]]. destruct pre as [|x pre]; simpl in H.
      * left. now exists post.
      * right. injection H as _ H. now exists pre, post.
Qed.

Lemma includes_false_iff (s pat : string) :
  JS.includes s pat = false <-> ~ occursIn pat s.
Proof.
  rewrite <- includes_iff. destruct (JS.includes s pat); split; intros H;
    try reflexivity; try discriminate; now elim H.
Qed.

(** A replaced prefix: when [s] starts with [pat], the first occurrence
    is the one at index 0. *)
Lemma replace_prefix (pat rest : string) :
  JS.replace (pat ++ rest) pat "" = rest.
Proof.
  destruct pat as [|p pat]; destruct rest as [|r rest]; simpl; try reflexivity.
  - rewrite Ascii.eqb_refl, startsWith_append. simpl. apply slice_append.
  - rewrite Ascii.eqb_refl, startsWith_append. simpl. apply slice_append.
Qed.

(** [trim] removes white space at both ends and nothing else. *)
Lemma trimStart_split (s : string) :
  exists ws, s = ws ++ JS.trimStart s /\ allWhiteSpace ws.
Proof.
  induction s as [|c s [ws [H1 H2]]]; simpl.
  - now exists "".
  - destruct (JS.isWhiteSpace c) eqn:Hc.
    + exists (String c ws). simpl. split; [now f_equal|].
      unfold allWhiteSpace in *. simpl. now rewrite Hc.
    + now exists "".
Qed.

Lemma trimEnd_split (s : string) :
  exists ws, s = JS.trimEnd s ++ ws /\ allWhiteSpace ws.
Proof.
  induction s as [|c s [ws [H1 H2]]]; simpl.
  - now exists "".
  - destruct (JS.trimEnd s) as [|d t] eqn:Ht.
    + destruct (JS.isWhiteSpace c) eqn:Hc.
      * exists (String c ws). simpl in *. split; [now f_equal|].
        unfold allWhiteSpace in *. simpl. now rewrite Hc.
      * exists ws. simpl in *. split; [now f_equal | assumption].
    + exists ws. simpl in *. split; [now f_equal | assumption].
Qed.

Lemma trimStart_head (s : string) :
  match JS.trimStart s with
  | EmptyString => True
  | String c _ => JS.isWhiteSpace c = false
  end.
Proof.
  induction s as [|c s IH]; simpl; [exact I|].
  destruct (JS.isWhiteSpace c) eqn:Hc; [exact IH | exact Hc].
Qed.

Lemma trimEnd_head (s : string) :
  match s with
  | EmptyString => True
  | String c _ =>
      JS.isWhiteSpace c = false ->
      match JS.trimEnd s with EmptyString => False | String d _ => d = c end
  end.
Proof.
  destruct s as [|c s]; [exact I|]. intros Hc. simpl.
  destruct (JS.trimEnd s); [now rewrite Hc | reflexivity].
Qed.

(** The last code unit of a trimmed string is not white space. *)
Lemma trimEnd_last (s t : string) (c : ascii) :
  JS.trimEnd s = t ++ String c "" -> JS.isWhiteSpace c = false.
Proof.
  revert t; induction s as [|x s IH]; intros t; simpl.
  - destruct t; discriminate.
  - destruct (JS.trimEnd s) as [|d u] eqn:Hu.
    + destruct (JS.isWhiteSpace x) eqn:Hx.
      * destruct t; discriminate.
      * destruct t as [|y t]; simpl; intros H.
        -- now injection H as <-.
        -- injection H as _ H. destruct t; discriminate.
    + destruct t as [|y t]; simpl; intros H.
      * discriminate.
      * injection H as _ H. now apply (IH t).
Qed.

(** [setSpread] keeps exactly the elements of its argument, once each. *)
Lemma inb_iff (x : string) (l : list string) :
  existsb (String.eqb x) l = true <-> In x l.
Proof.
  rewrite existsb_exists. split.
  - intros [y [Hy Heq]]. apply String.eqb_eq in Heq. now subst.
  - intros H. exists x. split; [assumption | apply String.eqb_refl].
Qed.

Lemma setSpreadFrom_In (seen xs : list string) (x : string) :
  In x (JS.setSpreadFrom seen xs) <-> In x xs /\ ~ In x seen.
Proof.
  revert seen; induction xs as [|y xs IH]; intros seen; simpl.
  - tauto.
  - destruct (existsb (String.eqb y) seen) eqn:Hy.
    + apply inb_iff in Hy. rewrite IH. split.
      * tauto.
      * intros [[<- | H] Hn]; [contradiction | tauto].
    + assert (Hn : ~ In y seen) by (rewrite <- inb_iff, Hy; discriminate).
      simpl. rewrite IH. simpl. split.
      * intros [<- | [H1 H2]]; [tauto|]. split; [tauto|]. intros H. apply H2. now right.
      * intros [[<- | H] Hx]; [now left|].
        destruct (string_dec y x) as [-> | Hne]; [now left|]. right. split; [assumption|].
        intros [H' | H']; [contradiction | contradiction].
Qed.

Lemma setSpreadFrom_NoDup (seen xs : list string) : NoDup (JS.setSpreadFrom seen xs).
Proof.
  revert seen; induction xs as [|y xs IH]; intros seen; simpl.
  - constructor.
  - destruct (existsb (String.eqb y) seen); [apply IH|].
    constructor; [|apply IH].
    rewrite setSpreadFrom_In. intros [_ H]. apply H. now left.
Qed.

Lemma setSpread_In (xs : list string) (x : string) :
  In x (JS.setSpread xs) <-> In x xs.
Proof. unfold JS.setSpread. rewrite setSpreadFrom_In. simpl. tauto. Qed.

Lemma setSpread_NoDup (xs : list string) : NoDup (JS.setSpread xs).
Proof. apply setSpreadFrom_NoDup. Qed.

(** ** [getDefaultBranch] *)

(** The three outcomes of [getDefaultBranch], by what the two
    subprocesses answer. *)
Lemma getDefaultBranch_run {W : Type} (E : Env W) (repoRoot : string) (st : state W) :
  fst (getDefaultBranch E repoRoot st) =
  match exec E (GitSymbolicRefOriginHead repoRoot) (world st) with
  | (Some text, _) => Ok (JS.replace (JS.trim text) "refs/remotes/origin/" "")
  | (None, w1) =>
      match exec E (GitBranchRemote repoRoot) w1 with
      | (Some branchList, _) =>
          Ok (if JS.includes branchList "origin/main" then "main"
              else if JS.includes branchList "origin/master" then "master"
              else "main")
      | (None, _) => Throw (ShellError (GitBranchRemote repoRoot))
      end
  end.
Proof.
  unfold getDefaultBranch, tryCatch, bind, sh, run, ret.
  destruct (exec E (GitSymbolicRefOriginHead repoRoot) (world st)) as [[text|] w1];
    cbn [world issued fst]; [reflexivity|].
  destruct (exec E (GitBranchRemote repoRoot) w1) as [[branchList|] w2];
    cbn [fst]; [|reflexivity].
  destruct (JS.includes branchList "origin/main"); [reflexivity|].
  destruct (JS.includes branchList "origin/master"); reflexivity.
Qed.

(** C3, as stated, fails: when git refuses the repository (here its
    configuration file no longer parses) both [git symbolic-ref] and
    [git branch -r] exit with a non-zero status, and the second failure
    is not caught. *)
Lemma getDefaultBranch_can_raise :
  fst (getDefaultBranch Ref.envBadConfig "/r" (Ref.start Sample.w0))
  = Throw (ShellError (GitBranchRemote "/r"))
  /\ ~ (forall (W : Type) (E : Env W) (repoRoot : string) (st : state W),
          exists b, fst (getDefaultBranch E repoRoot st) = Ok b).
Proof.
  assert (H : fst (getDefaultBranch Ref.envBadConfig "/r" (Ref.start Sample.w0))
              = Throw (ShellError (GitBranchRemote "/r")))
    by (vm_compute; reflexivity).
  split; [exact H|].
  intros Hall.
  destruct (Hall _ Ref.envBadConfig "/r" (Ref.start Sample.w0)) as [b Hb].
  rewrite H in Hb. discriminate.
Qed.

(** C3 (amended): [getDefaultBranch] raises exactly when both the
    symbolic-ref query and the remote branch listing exit with a
    non-zero status, and the error is that of the listing.  Otherwise it
    returns a branch name: the symbolic reference of the remote's HEAD
    without its [refs/remotes/origin/] prefix when the query succeeds;
    else [master] when the listing mentions [origin/master] and not
    [origin/main]; else [main]. *)
Theorem getDefaultBranch_outcome :
  forall (W : Type) (E : Env W) (repoRoot : string) (st : state W),
    let symref := fst (exec E (GitSymbolicRefOriginHead repoRoot) (world st)) in
    let listing :=
      fst (exec E (GitBranchRemote repoRoot)
             (snd (exec E (GitSymbolicRefOriginHead repoRoot) (world st)))) in
    fst (getDefaultBranch E repoRoot st) =
    match symref, listing with
    | Some text, _ => Ok (JS.replace (JS.trim text) "refs/remotes/origin/" "")
    | None, Some branchList =>
        Ok (if JS.includes branchList "origin/main" then "main"
            else if JS.includes branchList "origin/master" then "master"
            else "main")
    | None, None => Throw (ShellError (GitBranchRemote repoRoot))
    end.
Proof.
  intros W E repoRoot st. cbv zeta. rewrite getDefaultBranch_run.
  destruct (exec E (GitSymbolicRefOriginHead repoRoot) (world st)) as [[text|] w1];
    cbn [fst snd]; [reflexivity|].
  destruct (exec E (GitBranchRemote repoRoot) w1) as [[branchList|] w2];
    reflexivity.
Qed.

(** C10: in the fallback path the decision is substring containment
    over the whole listing: [main] as soon as [origin/main] occurs
    anywhere in it (inside a longer name too), [master] only when
    [origin/main] does not occur and [origin/master] does, and [main]
    when neither occurs. *)
Theorem getDefaultBranch_fallback_substring :
  forall (W : Type) (E : Env W) (repoRoot : string) (st : state W)
         (w1 w2 : W) (branchList : string),
    exec E (GitSymbolicRefOriginHead repoRoot) (world st) = (None, w1) ->
    exec E (GitBranchRemote repoRoot) w1 = (Some branchList, w2) ->
    (occursIn "origin/main" branchList ->
     fst (getDefaultBranch E repoRoot st) = Ok "main")
    /\ (~ occursIn "origin/main" branchList ->
        occursIn "origin/master" branchList ->
        fst (getDefaultBranch E repoRoot st) = Ok "master")
    /\ (~ occursIn "origin/main" branchList ->
        ~ occursIn "origin/master" branchList ->
        fst (getDefaultBranch E repoRoot st) = Ok "main").
Proof.
  intros W E repoRoot st w1 w2 branchList Hsym Hlist.
  rewrite getDefaultBranch_run, Hsym, Hlist.
  repeat split.
  - intros Hmain. apply includes_iff in Hmain. now rewrite Hmain.
  - intros Hmain Hmaster. apply includes_false_iff in Hmain.
    apply includes_iff in Hmaster. now rewrite Hmain, Hmaster.
  - intros Hmain Hmaster. apply includes_false_iff in Hmain.
    apply includes_false_iff in Hmaster. now rewrite Hmain, Hmaster.
Qed.

(** The listing of [Sample.w0] has [origin/main-old] and
    [origin/master] and no branch called [main]; the answer is [main]. *)
Lemma getDefaultBranch_fallback_substring_witness :
  exec Ref.env (GitSymbolicRefOriginHead "/r") Sample.w0 = (None, Sample.w0)
  /\ exec Ref.env (GitBranchRemote "/r") Sample.w0
     = (Some ("  origin/main-old" ++ Sample.nl ++ "  origin/master" ++ Sample.nl),
        Sample.w0)
  /\ fst (getDefaultBranch Ref.env "/r" (Ref.start Sample.w0)) = Ok "main".
Proof.
  split; [reflexivity|]. split; [reflexivity|].
  refine (proj1 (getDefaultBranch_fallback_substring
                   Ref.World Ref.env "/r" (Ref.start Sample.w0) Sample.w0 Sample.w0
                   ("  origin/main-old" ++ Sample.nl ++ "  origin/master" ++ Sample.nl)
                   eq_refl eq_refl) _).
  exists "  ", ("-old" ++ Sample.nl ++ "  origin/master" ++ Sample.nl).
  reflexivity.
Defined.

(** ** [getExcludePatterns] *)

Lemma trim_spec (s : string) :
  exists before after,
    s = before ++ JS.trim s ++ after
    /\ allWhiteSpace before /\ allWhiteSpace after
    /\ match JS.trim s with
       | EmptyString => True
       | String c _ => JS.isWhiteSpace c = false
       end
    /\ forall t c, JS.trim s = t ++ String c "" -> JS.isWhiteSpace c = false.
Proof.
  unfold JS.trim.
  destruct (trimStart_split s) as [before [H1 H2]].
  destruct (trimEnd_split (JS.trimStart s)) as [after [H3 H4]].
  exists before, after. repeat split; try assumption.
  - rewrite <- H3. exact H1.
  - pose proof (trimStart_head s) as Hh.
    pose proof (trimEnd_head (JS.trimStart s)) as He.
    destruct (JS.trimStart s) as [|c u]; [exact I|].
    specialize (He Hh). destruct (JS.trimEnd (String c u)); [exact I | now subst].
  - intros t c. apply trimEnd_last.
Qed.

(** A line is kept when, trimmed, it is neither empty nor a comment. *)
Lemma pushPattern_fold (lines acc : list string) :
  fold_left pushPattern lines acc
  = (acc ++ filter (fun t => negb (String.eqb t "") && negb (JS.startsWith t "#"))
              (map JS.trim lines))%list.
Proof.
  revert acc; induction lines as [|line lines IH]; intros acc;
    cbn [fold_left map filter].
  - now rewrite app_nil_r.
  - rewrite IH. unfold pushPattern.
    destruct (String.eqb (JS.trim line) ""); cbn [orb negb andb]; [reflexivity|].
    destruct (JS.startsWith (JS.trim line) "#"); cbn [negb]; [reflexivity|].
    now rewrite <- app_assoc.
Qed.

Lemma getGitDir_run {W : Type} (E : Env W) (repoRoot : string) (st : state W) :
  getGitDir E repoRoot st =
  (Ok match fst (exec E (GitCommonDir repoRoot) (world st)) with
      | Some text => JS.trim text
      | None => Path.join [repoRoot; ".git"]
      end,
   snd (run E (GitCommonDir repoRoot) st)).
Proof.
  unfold getGitDir, tryCatch, bind, sh, ret, run.
  destruct (exec E (GitCommonDir repoRoot) (world st)) as [[text|] w1]; reflexivity.
Qed.

Lemma getExcludePatterns_run {W : Type} (E : Env W) (repoRoot : string) (st : state W) :
  match getGitDir E repoRoot st with
  | (Ok gitDir, st1) =>
      let excludePath := Path.join [gitDir; "info"; "exclude"] in
      getExcludePatterns E repoRoot st =
      if existsSync E excludePath (world st1) then
        match readFile E excludePath (world st1) with
        | Some content => (Ok (parseExclude content), st1)
        | None => (Throw (ReadError excludePath), st1)
        end
      else (Ok [], st1)
  | (Throw _, _) => False
  end.
Proof.
  unfold getExcludePatterns, bind. rewrite getGitDir_run. cbv zeta.
  unfold existsSyncM, readFileM, ret.
  match goal with |- context [existsSync E ?p ?w] => destruct (existsSync E p w) end;
    cbn [negb]; [|reflexivity].
  match goal with |- context [readFile E ?p ?w] => destruct (readFile E p w) end;
    reflexivity.
Qed.

(** ** [listMyWorktrees] *)

Lemma startsWith_trans (s a b : string) :
  JS.startsWith s (a ++ b) = true -> JS.startsWith s a = true.
Proof.
  rewrite !startsWith_iff. intros [rest ->]. exists (b ++ rest).
  apply append_assoc.
Qed.

Lemma startsWith_same_prefix (a s pat : string) :
  JS.startsWith (a ++ s) (a ++ pat) = JS.startsWith s pat.
Proof. induction a as [|c a IH]; simpl; [|rewrite Ascii.eqb_refl]; auto. Qed.

Lemma replace_miss (c : ascii) (s pat rep : string) :
  JS.startsWith (String c s) pat = false ->
  JS.replace (String c s) pat rep = String c (JS.replace s pat rep).
Proof. intros H. cbn [JS.replace]. now rewrite H. Qed.

(** On a [branch] line the entry is emitted exactly when the line names
    a branch below [refs/heads/bytree/], and the branch recorded is the
    rest of the line. *)
Lemma branch_line_emitted (line : string) :
  JS.startsWith line "branch " = true ->
  JS.startsWith (JS.replace line "branch refs/heads/" "") "bytree/"
  = JS.startsWith line "branch refs/heads/bytree/"
  /\ (JS.startsWith line "branch refs/heads/bytree/" = true ->
      JS.replace line "branch refs/heads/" "" = JS.slice 18 line).
Proof.
  intros H. apply startsWith_iff in H. destruct H as [r ->].
  change "branch refs/heads/bytree/" with ("branch " ++ "refs/heads/bytree/").
  rewrite startsWith_same_prefix.
  destruct (JS.startsWith r "refs/heads/") eqn:Hr.
  - apply startsWith_iff in Hr. destruct Hr as [r' ->].
    change ("branch " ++ "refs/heads/" ++ r') with ("branch refs/heads/" ++ r').
    rewrite replace_prefix. split; [|reflexivity].
    change "refs/heads/bytree/" with ("refs/heads/" ++ "bytree/").
    now rewrite startsWith_same_prefix.
  - assert (Hlong : JS.startsWith r "refs/heads/bytree/" = false).
    { destruct (JS.startsWith r "refs/heads/bytree/") eqn:Hl; [|reflexivity].
      apply (startsWith_trans _ "refs/heads/" "bytree/") in Hl. congruence. }
    rewrite Hlong. split; [|discriminate].
    change ("branch " ++ r) with (String "b" (String "r" ("anch " ++ r))).
    rewrite replace_miss.
    + rewrite replace_miss by reflexivity. reflexivity.
    + change (String "b" (String "r" ("anch " ++ r))) with ("branch " ++ r).
      change "branch refs/heads/" with ("branch " ++ "refs/heads/").
      now rewrite startsWith_same_prefix.
Qed.

Lemma lastWorktreePath_snoc_worktree (pre : list string) (line : string) :
  JS.startsWith line "worktree " = true ->
  lastWorktreePath (pre ++ [line]) = JS.slice 9 line.
Proof.
  intros H. unfold lastWorktreePath. rewrite rev_app_distr. cbn [rev app find].
  now rewrite H.
Qed.

Lemma lastWorktreePath_snoc_other (pre : list string) (line : string) :
  JS.startsWith line "worktree " = false ->
  lastWorktreePath (pre ++ [line]) = lastWorktreePath pre.
Proof.
  intros H. unfold lastWorktreePath. rewrite rev_app_distr. cbn [rev app find].
  now rewrite H.
Qed.

Lemma listStep_fold (rest pre : list string) (s : listState) :
  currentPath s = lastWorktreePath pre ->
  worktrees (fold_left listStep rest s) = (worktrees s ++ pairsAfter pre rest)%list.
Proof.
  revert pre s; induction rest as [|line rest IH]; intros pre s Hs;
    cbn [fold_left pairsAfter].
  - now rewrite app_nil_r.
  - assert (Hstep :
      worktrees (listStep s line)
      = (worktrees s
         ++ (if JS.startsWith line "branch refs/heads/bytree/"
             then [{| path := lastWorktreePath pre; branch := JS.slice 18 line |}]
             else []))%list
      /\ currentPath (listStep s line) = lastWorktreePath (pre ++ [line])).
    { unfold listStep.
      destruct (JS.startsWith line "worktree ") eqn:Hw; cbn [worktrees currentPath].
      - rewrite lastWorktreePath_snoc_worktree by assumption.
        apply startsWith_iff in Hw. destruct Hw as [r ->].
        split; [now rewrite app_nil_r|].
        now rewrite replace_prefix.
      - rewrite lastWorktreePath_snoc_other by assumption.
        destruct (JS.startsWith line "branch ") eqn:Hbr; cbn [worktrees currentPath].
        + destruct (branch_line_emitted line Hbr) as [Hem Hsl]. rewrite Hem.
          destruct (JS.startsWith line "branch refs/heads/bytree/") eqn:Hl.
          * rewrite (Hsl eq_refl), Hs. now split.
          * split; [now rewrite app_nil_r | assumption].
        + assert (Hb : JS.startsWith line "branch refs/heads/bytree/" = false).
          { destruct (JS.startsWith line "branch refs/heads/bytree/") eqn:Hl;
              [|reflexivity].
            apply (startsWith_trans _ "branch " "refs/heads/bytree/") in Hl.
            congruence. }
          rewrite Hb. split; [now rewrite app_nil_r | assumption]. }
    destruct Hstep as [Hwt Hcp].
    rewrite (IH (pre ++ [line])%list _ Hcp), Hwt. now rewrite <- app_assoc.
Qed.

Lemma pairsAfter_prefixed (rest pre : list string) (wt : worktree) :
  In wt (pairsAfter pre rest) -> JS.startsWith (branch wt) "bytree/" = true.
Proof.
  revert pre; induction rest as [|line rest IH]; intros pre; cbn [pairsAfter];
    [intros []|].
  rewrite in_app_iff. intros [H | H]; [|now apply (IH (pre ++ [line])%list)].
  destruct (JS.startsWith line "branch refs/heads/bytree/") eqn:Hl; [|contradiction].
  destruct H as [H | []]. rewrite <- H. cbn [branch].
  apply startsWith_iff in Hl. destruct Hl as [r Hr]. rewrite Hr.
  cbn. now destruct r.
Qed.

Lemma pairsAfter_app (a b pre : list string) :
  pairsAfter pre (a ++ b) = (pairsAfter pre a ++ pairsAfter (pre ++ a) b)%list.
Proof.
  revert pre; induction a as [|x a IH]; intros pre; cbn [pairsAfter app].
  - now rewrite app_nil_r.
  - rewrite IH, <- !app_assoc. reflexivity.
Qed.

Lemma lastWorktreePath_after (pre mid : list string) (wline : string) :
  JS.startsWith wline "worktree " = true ->
  (forall m, In m mid -> JS.startsWith m "worktree " = false) ->
  lastWorktreePath (pre ++ wline :: mid) = JS.slice 9 wline.
Proof.
  intros Hw Hmid. induction mid as [|m mid IH] using rev_ind.
  - now apply lastWorktreePath_snoc_worktree.
  - change (pre ++ wline :: mid ++ [m])%list with (pre ++ (wline :: mid) ++ [m])%list.
    rewrite app_assoc, lastWorktreePath_snoc_other.
    + apply IH. intros m' Hm'. apply Hmid. apply in_or_app. now left.
    + apply Hmid. apply in_or_app. right. now left.
Qed.

(** C6: [listMyWorktrees] returns, in the order of git's listing, one
    entry for every line that names a branch below
    [refs/heads/bytree/], made of the most recently seen worktree path
    and of the branch name without [refs/heads/], and no other entry:
    the branch of every entry starts with [bytree/].  A branch line
    seen after a worktree line, immediately or with lines that are not
    worktree lines in between (the [HEAD] line of git's listing), is
    paired with the path of that worktree line. *)
Theorem listMyWorktrees_pairs :
  forall (W : Type) (E : Env W) (repoRoot : string) (st : state W),
    fst (listMyWorktrees E repoRoot st)
    = match fst (exec E (GitWorktreeList repoRoot) (world st)) with
      | Some output => Ok (pairsAfter [] (JS.split JS.LF output))
      | None => Throw (ShellError (GitWorktreeList repoRoot))
      end
    /\ (forall entries wt,
          fst (listMyWorktrees E repoRoot st) = Ok entries ->
          In wt entries -> JS.startsWith (branch wt) "bytree/" = true)
    /\ (forall output pre wline mid bline post,
          fst (exec E (GitWorktreeList repoRoot) (world st)) = Some output ->
          JS.split JS.LF output = (pre ++ wline :: mid ++ bline :: post)%list ->
          JS.startsWith wline "worktree " = true ->
          (forall m, In m mid -> JS.startsWith m "worktree " = false) ->
          JS.startsWith bline "branch refs/heads/bytree/" = true ->
          exists entries,
            fst (listMyWorktrees E repoRoot st) = Ok entries
            /\ In {| path := JS.slice 9 wline; branch := JS.slice 18 bline |} entries).
Proof.
  intros W E repoRoot st.
  assert (Hrun : fst (listMyWorktrees E repoRoot st)
                 = match fst (exec E (GitWorktreeList repoRoot) (world st)) with
                   | Some output => Ok (pairsAfter [] (JS.split JS.LF output))
                   | None => Throw (ShellError (GitWorktreeList repoRoot))
                   end).
  { unfold listMyWorktrees, bind, sh, run, ret.
    destruct (exec E (GitWorktreeList repoRoot) (world st)) as [[output|] w1];
      cbn [fst]; [|reflexivity].
    unfold parseWorktreeList. now rewrite (listStep_fold _ []). }
  split; [exact Hrun|]. split.
  - intros entries wt Hok Hin. rewrite Hrun in Hok.
    destruct (fst (exec E (GitWorktreeList repoRoot) (world st))); [|discriminate].
    injection Hok as <-. now apply pairsAfter_prefixed in Hin.
  - intros output pre wline mid bline post Hout Hlines Hw Hmid Hb.
    rewrite Hrun, Hout, Hlines. eexists. split; [reflexivity|].
    change (pre ++ wline :: mid ++ bline :: post)%list
      with (pre ++ (wline :: mid) ++ bline :: post)%list.
    rewrite app_assoc, pairsAfter_app. apply in_or_app. right.
    cbn [pairsAfter app]. rewrite Hb. left.
    now rewrite (lastWorktreePath_after pre mid wline Hw Hmid).
Qed.

(** In [Sample.w0] after [bytree add demo] the listing has the main
    worktree, on [main], and the one of the tool, each with its [HEAD]
    line between the worktree line and the branch line. *)
Lemma listMyWorktrees_pairs_witness :
  let st :=
    snd (createWorktree Ref.env "/r" "/r-bytree" "demo" "main" (Ref.start Sample.w0)) in
  fst (exec Ref.env (GitWorktreeList "/r") (world st)) = Some SampleListing.output
  /\ JS.split JS.LF SampleListing.output
     = ["worktree /r"; "HEAD c0ffee"; "branch refs/heads/main"; "";
        "worktree /r-bytree/demo"; "HEAD c0ffee"; "branch refs/heads/bytree/demo";
        ""; ""]
  /\ fst (listMyWorktrees Ref.env "/r" st)
     = Ok [{| path := "/r-bytree/demo"; branch := "bytree/demo" |}]
  /\ exists entries,
       fst (listMyWorktrees Ref.env "/r" st) = Ok entries
       /\ In {| path := "/r-bytree/demo"; branch := "bytree/demo" |} entries.
Proof.
  cbv zeta. split; [reflexivity|]. split; [reflexivity|]. split; [reflexivity|].
  apply (proj2 (proj2 (listMyWorktrees_pairs Ref.World Ref.env "/r"
           (snd (createWorktree Ref.env "/r" "/r-bytree" "demo" "main"
                   (Ref.start Sample.w0)))))
           SampleListing.output
           ["worktree /r"; "HEAD c0ffee"; "branch refs/heads/main"; ""]
           "worktree /r-bytree/demo" ["HEAD c0ffee"]
           "branch refs/heads/bytree/demo" [""; ""]).
  - reflexivity.
  - reflexivity.
  - reflexivity.
  - intros m [<- | []]. reflexivity.
  - reflexivity.
Defined.

(** ** [findExcludedFiles] *)

Section Resolver.

Context {W : Type} (E : Env W).

Lemma pushExisting_fold (w : W) (repoRoot : string) (yielded acc : list string)
    (file : string) :
  In file (fold_left (pushExisting E w repoRoot) yielded acc)
  <-> In file acc
      \/ (In file yielded /\ existsSync E (Path.join [repoRoot; file]) w = true).
Proof.
  revert acc; induction yielded as [|y yielded IH]; intros acc; simpl.
  - tauto.
  - rewrite IH. unfold pushExisting.
    destruct (existsSync E (Path.join [repoRoot; y]) w) eqn:Hy.
    + rewrite in_app_iff. simpl. split.
      * intros [[H | [<- | []]] | [H1 H2]]; auto.
      * intros [H | [[<- | H1] H2]]; auto.
    + split.
      * intros [H | [H1 H2]]; auto.
      * intros [H | [[<- | H1] H2]]; auto. congruence.
Qed.

Lemma scanPattern_fold (w : W) (repoRoot : string) (patterns acc : list string)
    (file : string) :
  In file (fold_left (scanPattern E w repoRoot) patterns acc)
  <-> In file acc \/ collects E w repoRoot patterns file.
Proof.
  unfold collects.
  revert acc; induction patterns as [|p patterns IH]; intros acc; simpl.
  - split; [tauto | intros [H | [q [[] _]]]; exact H].
  - rewrite IH. unfold scanPattern.
    destruct (globValid E (globPattern p)) eqn:Hv.
    + rewrite pushExisting_fold. split.
      * intros [[H | [H1 H2]] | [q [H1 H2]]]; [now left | right | right].
        -- exists p. auto.
        -- exists q. auto.
      * intros [H | [q [[<- | H1] [H2 [H3 H4]]]]]; [auto | auto |].
        right. exists q. auto.
    + split.
      * intros [H | [q [H1 H2]]]; [now left | right]. exists q. auto.
      * intros [H | [q [[<- | H1] [H2 H3]]]]; [auto | congruence |].
        right. exists q. auto.
Qed.

(** A pattern that the glob engine rejects leaves the collection as it
    was, and the loop goes on. *)
Lemma scanPattern_skips_invalid (w : W) (repoRoot : string)
    (patterns acc : list string) :
  fold_left (scanPattern E w repoRoot) patterns acc
  = fold_left (scanPattern E w repoRoot)
      (filter (fun p => globValid E (globPattern p)) patterns) acc.
Proof.
  revert acc; induction patterns as [|p patterns IH]; intros acc; simpl;
    [reflexivity|].
  destruct (globValid E (globPattern p)) eqn:Hv; simpl.
  - apply IH.
  - rewrite <- IH. unfold scanPattern at 2. now rewrite Hv.
Qed.

Lemma findExcludedFiles_run (repoRoot : string) (st : state W) :
  findExcludedFiles E repoRoot st =
  match getExcludePatterns E repoRoot st with
  | (Ok patterns, st1) =>
      (Ok (JS.setSpread (fold_left (scanPattern E (world st1) repoRoot) patterns [])),
       st1)
  | (Throw e, st1) => (Throw e, st1)
  end.
Proof.
  unfold findExcludedFiles, bind.
  destruct (getExcludePatterns E repoRoot st) as [[patterns|e] st1]; [|reflexivity].
  destruct patterns; reflexivity.
Qed.

End Resolver.

(** C4: every path that [findExcludedFiles] returns is there when it is
    probed; a path yielded by a scan but missing at the probe (deleted
    in between) is not in the result. *)
Theorem findExcludedFiles_exist :
  forall (W : Type) (E : Env W) (repoRoot : string) (st st' : state W)
         (files : list string),
    findExcludedFiles E repoRoot st = (Ok files, st') ->
    forall file,
      (In file files ->
       existsSync E (Path.join [repoRoot; file]) (world st') = true)
      /\ (existsSync E (Path.join [repoRoot; file]) (world st') = false ->
          ~ In file files).
Proof.
  intros W E repoRoot st st' files Hrun file.
  rewrite findExcludedFiles_run in Hrun.
  destruct (getExcludePatterns E repoRoot st) as [[patterns|e] st1]; [|discriminate].
  injection Hrun as <- <-.
  assert (Hin : In file (JS.setSpread
                           (fold_left (scanPattern E (world st1) repoRoot) patterns []))
                -> existsSync E (Path.join [repoRoot; file]) (world st1) = true).
  { rewrite setSpread_In, scanPattern_fold.
    intros [[] | [p [_ [_ [_ H]]]]]. exact H. }
  split; [exact Hin|].
  intros Hgone Hfile. apply Hin in Hfile. congruence.
Qed.

(** [/r/foo/a] is matched by the pattern [/foo/] of [Sample.w0] and
    deleted before it is probed: it is not returned. *)
Lemma findExcludedFiles_exist_witness :
  findExcludedFiles (Ref.envWith (fun _ => true) ["/r/foo/a"]) "/r" (Ref.start Sample.w0)
  = (Ok [".claude/settings.json"; ".claude/cache/tmp.bin"; "foo/b/c"],
     {| world := Sample.w0; issued := [(GitCommonDir "/r", true)] |})
  /\ In "foo/a" (Ref.scan "foo/**/*" "/r" Sample.w0)
  /\ ~ In "foo/a" [".claude/settings.json"; ".claude/cache/tmp.bin"; "foo/b/c"].
Proof.
  split; [reflexivity|]. split; [now left|].
  apply (proj2 (findExcludedFiles_exist Ref.World
                  (Ref.envWith (fun _ => true) ["/r/foo/a"]) "/r"
                  (Ref.start Sample.w0)
                  {| world := Sample.w0; issued := [(GitCommonDir "/r", true)] |}
                  [".claude/settings.json"; ".claude/cache/tmp.bin"; "foo/b/c"]
                  eq_refl "foo/a")).
  reflexivity.
Defined.

(** C8: a pattern that the glob engine rejects contributes nothing and
    does not stop the resolution: the result is what the accepted
    patterns alone give.  The result has no duplicates, and holds
    exactly the paths that some accepted pattern yields and that are
    there when probed. *)
Theorem findExcludedFiles_union :
  forall (W : Type) (E : Env W) (repoRoot : string) (st st1 : state W)
         (patterns : list string),
    getExcludePatterns E repoRoot st = (Ok patterns, st1) ->
    exists files,
      findExcludedFiles E repoRoot st = (Ok files, st1)
      /\ NoDup files
      /\ (forall file, In file files <-> collects E (world st1) repoRoot patterns file)
      /\ files
         = JS.setSpread
             (fold_left (scanPattern E (world st1) repoRoot)
                (filter (fun p => globValid E (globPattern p)) patterns) []).
Proof.
  intros W E repoRoot st st1 patterns Hpat.
  rewrite findExcludedFiles_run, Hpat.
  eexists. split; [reflexivity|]. split; [apply setSpread_NoDup|]. split.
  - intros file. rewrite setSpread_In, scanPattern_fold. simpl. tauto.
  - now rewrite <- scanPattern_skips_invalid.
Qed.

(** In [Sample.w1] the pattern [[] is rejected, and [foo/a] is matched
    by both [/foo/] and [foo/a]: it is returned once. *)
Lemma findExcludedFiles_union_witness :
  getExcludePatterns (Ref.envWith Sample.rejectsBracket []) "/r" (Ref.start Sample.w1)
  = (Ok ["["; "/foo/"; "foo/a"],
     {| world := Sample.w1; issued := [(GitCommonDir "/r", true)] |})
  /\ findExcludedFiles (Ref.envWith Sample.rejectsBracket []) "/r" (Ref.start Sample.w1)
     = (Ok ["foo/a"; "foo/b/c"],
        {| world := Sample.w1; issued := [(GitCommonDir "/r", true)] |}).
Proof.
  split; [reflexivity|].
  destruct (findExcludedFiles_union Ref.World (Ref.envWith Sample.rejectsBracket [])
              "/r" (Ref.start Sample.w1)
              {| world := Sample.w1; issued := [(GitCommonDir "/r", true)] |}
              ["["; "/foo/"; "foo/a"] eq_refl) as [files [Hrun [_ [_ Hfiles]]]].
  rewrite Hrun, Hfiles. reflexivity.
Defined.

(** ** Directory patterns *)

Lemma split_head (sep : ascii) (s : string) :
  exists seg segs,
    JS.split sep s = seg :: segs
    /\ (segs = [] -> s = seg)
    /\ (segs <> [] -> exists rest, s = seg ++ String sep rest /\ segs = JS.split sep rest).
Proof.
  induction s as [|c s [seg [segs [H1 [H2 H3]]]]]; simpl.
  - exists "", []. split; [reflexivity|]. split; [reflexivity | congruence].
  - destruct (Ascii.eqb c sep) eqn:Hc.
    + apply Ascii.eqb_eq in Hc. subst c.
      exists "", (JS.split sep s). split; [reflexivity|]. split.
      * rewrite H1. discriminate.
      * intros _. now exists s.
    + rewrite H1. exists (String c seg), segs. split; [reflexivity|]. split.
      * intros Hs. simpl. f_equal. now apply H2.
      * intros Hs. destruct (H3 Hs) as [rest [Hr1 Hr2]].
        exists rest. simpl. split; [now f_equal | assumption].
Qed.







Lemma absolute_id (w : Ref.World) (p : string) :
  JS.startsWith p "/" = true -> Ref.absolute w p = p.
Proof. intros H. unfold Ref.absolute. now rewrite H. Qed.



(** *** Paths in normal form *)

Lemma split_cons (sep : ascii) (s : string) :
  exists seg segs, JS.split sep s = seg :: segs.
Proof. destruct (split_head sep s) as [seg [segs [H _]]]. now exists seg, segs. Qed.

Lemma split_app_sep (sep : ascii) (a b : string) :
  JS.split sep (a ++ String sep b) = (JS.split sep a ++ JS.split sep b)%list.
Proof.
  induction a as [|c a IH]; cbn [append JS.split].
  - now rewrite Ascii.eqb_refl.
  - destruct (Ascii.eqb c sep); [now rewrite IH|].
    rewrite IH. destruct (split_cons sep a) as [seg [segs ->]]. reflexivity.
Qed.

Lemma joinWith_split (s : string) : JS.joinWith "/" (JS.split "/" s) = s.
Proof.
  induction s as [|c s IH]; [reflexivity|]. cbn [JS.split].
  destruct (split_cons "/" s) as [seg [segs Hs]]. rewrite Hs in *.
  destruct (Ascii.eqb c "/") eqn:Hc.
  - apply Ascii.eqb_eq in Hc. subst c.
    change (JS.joinWith "/" ("" :: seg :: segs)) with ("/" ++ JS.joinWith "/" (seg :: segs)).
    now rewrite IH.
  - destruct segs as [|seg' segs].
    + cbn [JS.joinWith] in *. now rewrite IH.
    + change (JS.joinWith "/" (String c seg :: seg' :: segs))
        with (String c (seg ++ "/" ++ JS.joinWith "/" (seg' :: segs))).
      change (JS.joinWith "/" (seg :: seg' :: segs))
        with (seg ++ "/" ++ JS.joinWith "/" (seg' :: segs)) in IH.
      now rewrite IH.
Qed.

Lemma normalizeSegments_plain (above : bool) (segs stack : list string) :
  forallb Path.plainSegment segs = true ->
  Path.normalizeSegments above stack segs = (rev stack ++ segs)%list.
Proof.
  revert stack; induction segs as [|seg segs IH]; intros stack Hs;
    cbn [Path.normalizeSegments].
  - now rewrite app_nil_r.
  - cbn [forallb] in Hs. apply andb_true_iff in Hs. destruct Hs as [Hseg Hs].
    unfold Path.plainSegment in Hseg.
    apply andb_true_iff in Hseg. destruct Hseg as [Hseg H3].
    apply andb_true_iff in Hseg. destruct Hseg as [H1 H2].
    apply negb_true_iff in H1, H2, H3. rewrite H1, H2, H3. cbn [orb].
    rewrite (IH _ Hs). cbn [rev]. now rewrite <- app_assoc.
Qed.

(** [normalize] leaves an absolute path in normal form as it is. *)
Lemma normalize_normal (p : string) :
  Path.isNormalAbsolute p = true -> Path.normalize p = p.
Proof.
  unfold Path.isNormalAbsolute, Path.slash. intros Hn.
  destruct (JS.split "/" p) as [|first [|seg segs]] eqn:Hsplit; try discriminate.
  apply andb_true_iff in Hn. destruct Hn as [Hfirst Hsegs].
  apply String.eqb_eq in Hfirst. subst first.
  assert (Hp : p = "/" ++ JS.joinWith "/" (seg :: segs)).
  { rewrite <- (joinWith_split p) at 1. now rewrite Hsplit. }
  assert (Hbody : exists x t, JS.joinWith "/" (seg :: segs) = String x t).
  { cbn [forallb] in Hsegs. apply andb_true_iff in Hsegs. destruct Hsegs as [Hseg _].
    destruct seg as [|x seg]; [discriminate Hseg|].
    destruct segs; cbn [JS.joinWith append]; eauto. }
  assert (Htrail : JS.endsWith p "/" = false).
  { destruct (JS.endsWith p "/") eqn:He; [|reflexivity].
    apply endsWith_iff in He. destruct He as [pre He].
    rewrite He in Hsplit. change (pre ++ "/") with (pre ++ String "/" "") in Hsplit.
    rewrite split_app_sep in Hsplit. cbn [JS.split] in Hsplit.
    destruct (split_cons "/" pre) as [a [l Hpre]]. rewrite Hpre in Hsplit.
    cbn [app] in Hsplit. injection Hsplit as _ Hl.
    assert (Hin : In "" (seg :: segs)) by (rewrite <- Hl; apply in_or_app; right; now left).
    rewrite forallb_forall in Hsegs. specialize (Hsegs "" Hin). discriminate Hsegs. }
  unfold Path.normalize, Path.slash.
  destruct p as [|c rest]; [discriminate Hp|].
  rewrite Htrail, Hsplit. injection Hp as Hc Hrest. subst c.
  rewrite Ascii.eqb_refl. cbn [negb].
  change (Path.normalizeSegments false [] ("" :: seg :: segs))
    with (Path.normalizeSegments false [] (seg :: segs)).
  rewrite (normalizeSegments_plain false (seg :: segs) [] Hsegs). cbn [rev app].
  change (match JS.joinWith "/" (seg :: segs) with
          | "" => "/"
          | String _ _ => "/" ++ JS.joinWith "/" (seg :: segs)
          end = String "/" rest).
  change (rest = JS.joinWith "/" (seg :: segs)) in Hrest.
  destruct Hbody as [x [t Hbody]]. rewrite Hbody, Hrest, Hbody. reflexivity.
Qed.

Lemma join_two (a b : string) :
  a <> "" -> b <> "" -> Path.join [a; b] = Path.normalize (a ++ "/" ++ b).
Proof.
  intros Ha Hb. unfold Path.join. cbn [filter].
  apply String.eqb_neq in Ha, Hb. rewrite Ha, Hb. cbn [negb].
  destruct a; [now rewrite String.eqb_refl in Ha|]. reflexivity.
Qed.







(** ** [copyExcludedFiles] *)

Section Replicator.

Context {W : Type} (E : Env W).

Lemma sh_run (c : cmd) (st : state W) :
  sh E c st =
  match exec E c (world st) with
  | (Some text, w') =>
      (Ok text, {| world := w'; issued := issued st ++ [(c, true)] |})
  | (None, w') =>
      (Throw (ShellError c), {| world := w'; issued := issued st ++ [(c, false)] |})
  end.
Proof.
  unfold sh, run. destruct (exec E c (world st)) as [[text|] w']; reflexivity.
Qed.

(** The loop either copies every entry, or stops at the first
    subprocess that fails: nothing is run for the entries after it. *)
Lemma copyLoop_run (repoRoot worktreePath : string) (files copied : list string)
    (st : state W) :
  match copyLoop E repoRoot worktreePath files copied st with
  | (Ok out, st2) =>
      out = (copied ++ files)%list
      /\ issued st2
         = (issued st
            ++ succeeded (flat_map (copyCmds repoRoot worktreePath) files))%list
  | (Throw e, st2) =>
      exists done file rest,
        files = (done ++ file :: rest)%list
        /\ let mkdir := MkdirP (Path.dirname (Path.join [worktreePath; file])) in
           let cp := CpR (Path.join [repoRoot; file]) (Path.join [worktreePath; file]) in
           (e = ShellError mkdir
            /\ issued st2
               = (issued st
                  ++ succeeded (flat_map (copyCmds repoRoot worktreePath) done)
                  ++ [(mkdir, false)])%list)
           \/ (e = ShellError cp
               /\ issued st2
                  = (issued st
                     ++ succeeded (flat_map (copyCmds repoRoot worktreePath) done)
                     ++ [(mkdir, true); (cp, false)])%list)
  end.
Proof.
  revert copied st; induction files as [|file files IH]; intros copied st.
  - cbn. split; now rewrite app_nil_r.
  - cbn [copyLoop]. unfold bind at 1. rewrite sh_run.
    destruct (exec E (MkdirP _) (world st)) as [[t1|] w1].
    + unfold bind at 1. rewrite sh_run. cbn [world issued].
      destruct (exec E (CpR _ _) w1) as [[t2|] w2].
      * match goal with
        | |- context [copyLoop E repoRoot worktreePath files ?c ?s] =>
            specialize (IH c s);
            destruct (copyLoop E repoRoot worktreePath files c s) as [[out|e] st2]
        end.
        -- destruct IH as [-> Hlog]. split; [now rewrite <- app_assoc|].
           rewrite Hlog. cbn [issued flat_map copyCmds succeeded map app].
           unfold succeeded. now rewrite <- !app_assoc.
        -- destruct IH as [done [f [rest [-> Hcase]]]].
           exists (file :: done), f, rest. split; [reflexivity|].
           cbv zeta in Hcase |- *. cbn [issued] in Hcase.
           cbn [flat_map copyCmds succeeded map app].
           unfold succeeded in *. rewrite <- !app_assoc in Hcase.
           destruct Hcase as [[-> Hlog] | [-> Hlog]]; [left | right];
             (split; [reflexivity | exact Hlog]).
      * exists [], file, files. split; [reflexivity|]. right.
        split; [reflexivity|]. cbn. now rewrite <- app_assoc.
    + exists [], file, files. split; [reflexivity|]. left.
      split; reflexivity.
Qed.

(** Until it copies, [copyExcludedFiles] is [findExcludedFiles]. *)
Lemma copyExcludedFiles_run (repoRoot worktreePath : string) (st : state W) :
  copyExcludedFiles E repoRoot worktreePath st =
  match findExcludedFiles E repoRoot st with
  | (Ok files, st1) => copyLoop E repoRoot worktreePath files [] st1
  | (Throw e, st1) => (Throw e, st1)
  end.
Proof. reflexivity. Qed.

(** The only subprocess of the resolution is the query for git's
    directory. *)
Lemma findExcludedFiles_log (repoRoot : string) (st st1 : state W)
    (r : result (list string)) :
  findExcludedFiles E repoRoot st = (r, st1) ->
  st1 = snd (run E (GitCommonDir repoRoot) st).
Proof.
  rewrite findExcludedFiles_run.
  pose proof (getExcludePatterns_run E repoRoot st) as H.
  rewrite getGitDir_run in H. cbv zeta in H. rewrite H.
  destruct (existsSync E _ _).
  - destruct (readFile E _ _); now intros [= _ <-].
  - now intros [= _ <-].
Qed.

End Replicator.

(** C7: [copyExcludedFiles] returns the resolved paths, all of them
    copied by a [mkdir -p] and a [cp -r] that succeeded, or it raises
    the error of the first of these subprocesses that fails
    ([ReplicationFailed]): the entries before it were copied, and
    nothing is run for the entries after it. *)
Theorem copyExcludedFiles_all_or_abort :
  forall (W : Type) (E : Env W) (repoRoot worktreePath : string)
         (st st1 : state W) (files : list string),
    findExcludedFiles E repoRoot st = (Ok files, st1) ->
    match copyExcludedFiles E repoRoot worktreePath st with
    | (Ok copied, st2) =>
        copied = files
        /\ issued st2
           = (issued st1
              ++ succeeded (flat_map (copyCmds repoRoot worktreePath) files))%list
    | (Throw e, st2) =>
        ReplicationFailed e
        /\ exists done file rest attempt,
             files = (done ++ file :: rest)%list
             /\ issued st2
                = (issued st1
                   ++ succeeded (flat_map (copyCmds repoRoot worktreePath) done)
                   ++ attempt)%list
             /\ let mkdir := MkdirP (Path.dirname (Path.join [worktreePath; file])) in
                let cp :=
                  CpR (Path.join [repoRoot; file]) (Path.join [worktreePath; file]) in
                (e = ShellError mkdir /\ attempt = [(mkdir, false)])
                \/ (e = ShellError cp /\ attempt = [(mkdir, true); (cp, false)])
    end.
Proof.
  intros W E repoRoot worktreePath st st1 files Hfind.
  rewrite copyExcludedFiles_run, Hfind.
  pose proof (copyLoop_run E repoRoot worktreePath files [] st1) as H.
  destruct (copyLoop E repoRoot worktreePath files [] st1) as [[copied|e] st2].
  - exact H.
  - destruct H as [done [file [rest [Hfiles Hcase]]]]. cbv zeta in Hcase.
    destruct Hcase as [[He Hlog] | [He Hlog]].
    + split; [eexists; split; [exact He | reflexivity]|].
      exists done, file, rest, [(MkdirP (Path.dirname (Path.join [worktreePath; file])), false)].
      split; [assumption|]. split; [assumption|]. left. now split.
    + split; [eexists; split; [exact He | reflexivity]|].
      exists done, file, rest,
        [(MkdirP (Path.dirname (Path.join [worktreePath; file])), true);
         (CpR (Path.join [repoRoot; file]) (Path.join [worktreePath; file]), false)].
      split; [assumption|]. split; [assumption|]. right. now split.
Qed.

(** In [Sample.w4] the third of four entries cannot be copied: the
    first two are, the fourth is not attempted. *)
Lemma copyExcludedFiles_all_or_abort_witness :
  findExcludedFiles Ref.env "/r" (Ref.start Sample.w4)
  = (Ok [".claude/settings.json"; ".claude/cache/tmp.bin"; "foo/a"; "foo/b/c"],
     {| world := Sample.w4; issued := [(GitCommonDir "/r", true)] |})
  /\ fst (copyExcludedFiles Ref.env "/r" "/wt" (Ref.start Sample.w4))
     = Throw (ShellError (MkdirP "/wt/foo"))
  /\ issued (snd (copyExcludedFiles Ref.env "/r" "/wt" (Ref.start Sample.w4)))
     = [(GitCommonDir "/r", true);
        (MkdirP "/wt/.claude", true);
        (CpR "/r/.claude/settings.json" "/wt/.claude/settings.json", true);
        (MkdirP "/wt/.claude/cache", true);
        (CpR "/r/.claude/cache/tmp.bin" "/wt/.claude/cache/tmp.bin", true);
        (MkdirP "/wt/foo", false)]
  /\ ReplicationFailed (ShellError (MkdirP "/wt/foo")).
Proof.
  split; [reflexivity|]. split; [reflexivity|]. split; [reflexivity|].
  pose proof (copyExcludedFiles_all_or_abort Ref.World Ref.env "/r" "/wt"
                (Ref.start Sample.w4)
                {| world := Sample.w4; issued := [(GitCommonDir "/r", true)] |}
                [".claude/settings.json"; ".claude/cache/tmp.bin"; "foo/a"; "foo/b/c"]
                eq_refl) as H.
  assert (Hrun : fst (copyExcludedFiles Ref.env "/r" "/wt" (Ref.start Sample.w4))
                 = Throw (ShellError (MkdirP "/wt/foo"))) by reflexivity.
  destruct (copyExcludedFiles Ref.env "/r" "/wt" (Ref.start Sample.w4)) as [[copied|e] st2];
    [discriminate Hrun|].
  cbn [fst] in Hrun. injection Hrun as <-. exact (proj1 H).
Defined.

(** C9: when the resolved set is empty, [copyExcludedFiles] returns
    the empty list without error, and the only subprocess it has run is
    the query [git rev-parse --git-common-dir] of the resolution: no
    [mkdir], no [cp].  It is so when no pattern yields a path that is
    there when probed, and when there is no pattern at all. *)
Theorem copyExcludedFiles_nothing :
  forall (W : Type) (E : Env W) (repoRoot worktreePath : string)
         (st st1 : state W),
    (findExcludedFiles E repoRoot st = (Ok [], st1) ->
     copyExcludedFiles E repoRoot worktreePath st = (Ok [], st1)
     /\ st1 = snd (run E (GitCommonDir repoRoot) st)
     /\ (exists ok, issued st1 = issued st ++ [(GitCommonDir repoRoot, ok)])%list
     /\ forall c ok, In (c, ok) (issued st1) -> ~ In (c, ok) (issued st) ->
                     isCopyCmd c = false)
    /\ (forall patterns,
          getExcludePatterns E repoRoot st = (Ok patterns, st1) ->
          (forall file, ~ collects E (world st1) repoRoot patterns file) ->
          findExcludedFiles E repoRoot st = (Ok [], st1)).
Proof.
  intros W E repoRoot worktreePath st st1. split.
  - intros Hfind. rewrite copyExcludedFiles_run, Hfind.
    split; [reflexivity|].
    pose proof (findExcludedFiles_log E repoRoot st st1 _ Hfind) as Hst.
    split; [exact Hst|].
    assert (Hlog : exists ok, issued st1 = (issued st ++ [(GitCommonDir repoRoot, ok)])%list).
    { rewrite Hst. unfold run.
      destruct (exec E (GitCommonDir repoRoot) (world st)) as [out w1].
      now exists (isSome out). }
    split; [exact Hlog|].
    destruct Hlog as [ok' Hlog]. intros c ok Hin Hnew. rewrite Hlog in Hin.
    apply in_app_iff in Hin. destruct Hin as [Hin | [[= <- _] | []]];
      [contradiction | reflexivity].
  - intros patterns Hpat Hnone. rewrite findExcludedFiles_run, Hpat. f_equal. f_equal.
    destruct (JS.setSpread (fold_left (scanPattern E (world st1) repoRoot) patterns []))
      as [|file files] eqn:Hres; [reflexivity|].
    exfalso. apply (Hnone file).
    assert (Hin : In file (JS.setSpread
                             (fold_left (scanPattern E (world st1) repoRoot) patterns [])))
      by (rewrite Hres; now left).
    rewrite setSpread_In, scanPattern_fold in Hin. destruct Hin as [[] | H]. exact H.
Qed.

(** In [Sample.w3] the only pattern matches nothing. *)
Lemma copyExcludedFiles_nothing_witness :
  findExcludedFiles Ref.env "/r" (Ref.start Sample.w3)
  = (Ok [], {| world := Sample.w3; issued := [(GitCommonDir "/r", true)] |})
  /\ copyExcludedFiles Ref.env "/r" "/wt" (Ref.start Sample.w3)
     = (Ok [], {| world := Sample.w3; issued := [(GitCommonDir "/r", true)] |}).
Proof.
  split; [reflexivity|].
  exact (proj1 (proj1 (copyExcludedFiles_nothing Ref.World Ref.env "/r" "/wt"
                         (Ref.start Sample.w3)
                         {| world := Sample.w3; issued := [(GitCommonDir "/r", true)] |})
                  eq_refl)).
Defined.

(** ** [createWorktree] *)

(** The run of [createWorktree], subprocess by subprocess. *)
Lemma createWorktree_run {W : Type} (E : Env W)
    (repoRoot worktreeBase name baseBranch : string) (st : state W) :
  let branch := "bytree/" ++ name in
  let worktreePath := Path.join [worktreeBase; name] in
  let mkdir := MkdirP (Path.dirname worktreePath) in
  let remove := GitWorktreeRemoveForce repoRoot worktreePath in
  let delete := GitBranchDelete repoRoot branch in
  let add := GitWorktreeAdd repoRoot branch worktreePath baseBranch in
  let finish := fun (log : list (cmd * bool)) (w : W) =>
    match exec E add w with
    | (Some _, w') =>
        (Ok {| path := worktreePath; branch := branch |},
         {| world := w'; issued := (log ++ [(add, true)])%list |})
    | (None, w') =>
        (Throw (ShellError add),
         {| world := w'; issued := (log ++ [(add, false)])%list |})
    end in
  createWorktree E repoRoot worktreeBase name baseBranch st =
  match exec E mkdir (world st) with
  | (None, w1) =>
      (Throw (ShellError mkdir),
       {| world := w1; issued := (issued st ++ [(mkdir, false)])%list |})
  | (Some _, w1) =>
      if existsSync E worktreePath w1 then
        let '(removed, w2) := exec E remove w1 in
        let '(deleted, w3) := exec E delete w2 in
        finish (issued st ++ [(mkdir, true); (remove, isSome removed);
                              (delete, isSome deleted)])%list w3
      else finish (issued st ++ [(mkdir, true)])%list w1
  end.
Proof.
  cbv zeta. unfold createWorktree, bind, sh, sh_nothrow, existsSyncM, ret, run.
  destruct (exec E (MkdirP _) (world st)) as [[t1|] w1];
    cbn [world issued fst snd isSome]; [|reflexivity].
  destruct (existsSync E _ w1); cbn [world issued fst snd].
  - destruct (exec E (GitWorktreeRemoveForce _ _) w1) as [removed w2];
      cbn [world issued fst snd].
    destruct (exec E (GitBranchDelete _ _) w2) as [deleted w3];
      cbn [world issued fst snd].
    destruct (exec E (GitWorktreeAdd _ _ _ _) w3) as [[t|] w4];
      cbn [world issued fst snd isSome]; rewrite <- !app_assoc; reflexivity.
  - destruct (exec E (GitWorktreeAdd _ _ _ _) w1) as [[t|] w4];
      cbn [world issued fst snd isSome]; rewrite <- !app_assoc; reflexivity.
Qed.

(** C1, as stated, fails: the removal of the prior worktree and branch
    is attempted only when something exists at the target path.  In
    [Sample.w5] a branch [bytree/demo] remains and the path does not
    exist: no [branch -D] is run, the creation fails, and the old
    branch is still there. *)
Lemma createWorktree_keeps_stale_branch :
  let run := createWorktree Ref.env "/r" "/r-bytree" "demo" "main" (Ref.start Sample.w5) in
  Ref.lookup "bytree/demo" (Ref.branches Sample.w5) = Some "0ldc0de"
  /\ fst run = Throw (ShellError (GitWorktreeAdd "/r" "bytree/demo" "/r-bytree/demo" "main"))
  /\ issued (snd run)
     = [(MkdirP "/r-bytree", true);
        (GitWorktreeAdd "/r" "bytree/demo" "/r-bytree/demo" "main", false)]
  /\ Ref.lookup "bytree/demo" (Ref.branches (world (snd run))) = Some "0ldc0de"
  /\ ~ (forall (W : Type) (E : Env W) (repoRoot worktreeBase name baseBranch : string)
               (st : state W),
          exists ok,
            In (GitBranchDelete repoRoot ("bytree/" ++ name), ok)
               (issued (snd (createWorktree E repoRoot worktreeBase name baseBranch st)))).
Proof.
  cbv zeta. repeat (split; [reflexivity|]).
  intros H.
  destruct (H _ Ref.env "/r" "/r-bytree" "demo" "main" (Ref.start Sample.w5)) as [ok Hin].
  vm_compute in Hin. destruct Hin as [Hin | [Hin | []]]; discriminate Hin.
Qed.

(** *** The parent directory of an absolute path *)

Lemma dropWhile_length (f : ascii -> bool) (l : list ascii) :
  List.length (Path.dropWhile f l) <= List.length l.
Proof. induction l as [|c l IH]; simpl; [lia|]. destruct (f c); simpl; lia. Qed.

Lemma length_string_of_list (l : list ascii) :
  String.length (string_of_list_ascii l) = List.length l.
Proof. induction l as [|c l IH]; simpl; congruence. Qed.

Lemma length_list_of_string (s : string) :
  List.length (list_ascii_of_string s) = String.length s.
Proof. induction s as [|c s IH]; simpl; congruence. Qed.

Lemma dirname_length (p : string) :
  p <> "" -> String.length (Path.dirname p) <= String.length p.
Proof.
  destruct p as [|c rest]; [congruence|]. intros _. unfold Path.dirname.
  match goal with
  | |- context [Path.dropWhile ?f (Path.dropWhile ?g ?l)] =>
      pose proof (dropWhile_length f (Path.dropWhile g l)) as H1;
      pose proof (dropWhile_length g l) as H2;
      assert (Hback : List.length l = String.length rest)
        by (now rewrite length_rev, length_list_of_string);
      destruct (Path.dropWhile f (Path.dropWhile g l)) as [|x before]
  end.
  - destruct (Ascii.eqb c Path.slash); simpl; lia.
  - simpl in H1. destruct before as [|y before].
    + destruct (Ascii.eqb c Path.slash); simpl; lia.
    + cbn [String.length]. rewrite length_string_of_list, length_rev. simpl in *. lia.
Qed.

Lemma dirname_absolute (p : string) :
  JS.startsWith p "/" = true -> JS.startsWith (Path.dirname p) "/" = true.
Proof.
  destruct p as [|c rest]; [discriminate|]. cbn [JS.startsWith].
  rewrite andb_true_r. intros Hc. unfold Path.dirname, Path.slash. rewrite Hc.
  destruct (Path.dropWhile _ _) as [|x [|y before]]; try reflexivity.
  cbn [JS.startsWith]. now rewrite Hc.
Qed.

Lemma join_absolute (base name : string) :
  JS.startsWith base "/" = true -> JS.startsWith (Path.join [base; name]) "/" = true.
Proof.
  destruct base as [|c base]; [discriminate|]. cbn [JS.startsWith].
  rewrite andb_true_r. intros Hc. apply Ascii.eqb_eq in Hc. subst c.
  assert (Hn : forall s, JS.startsWith (Path.normalize (String "/" s)) "/" = true).
  { intros s. unfold Path.normalize. cbn [Ascii.eqb Path.slash]. 
    replace (Ascii.eqb "/" Path.slash) with true by reflexivity.
    destruct (JS.joinWith "/" _); reflexivity. }
  unfold Path.join. cbn [filter String.eqb negb].
  destruct (String.eqb name ""); cbn [negb JS.joinWith]; apply Hn.
Qed.

(** The parent of a path is never strictly below it. *)
Lemma within_dirname (p : string) :
  p <> "" ->
  Ref.within p (Path.dirname p) = true -> Path.dirname p = p.
Proof.
  intros Hp. unfold Ref.within. rewrite orb_true_iff, String.eqb_eq.
  intros [H | H]; [exact H|].
  apply startsWith_iff in H. destruct H as [rest H].
  pose proof (dirname_length p Hp) as Hlen. rewrite H in Hlen.
  rewrite !length_append in Hlen. simpl in Hlen. lia.
Qed.

(** *** Git in the reference environment *)

Lemma lookup_none_filter {A : Type} (k : string) (l : list (string * A)) :
  Ref.lookup k l = None ->
  filter (fun x => negb (String.eqb (fst x) k)) l = l.
Proof.
  induction l as [|[k' v] l IH]; simpl; [reflexivity|].
  rewrite (String.eqb_sym k' k).
  destruct (String.eqb k k'); [discriminate|]. intros H. simpl. now rewrite IH.
Qed.

Lemma lookup_app_l {A : Type} (k : string) (l l' : list (string * A)) (v : A) :
  Ref.lookup k l = Some v -> Ref.lookup k (l ++ l') = Some v.
Proof.
  induction l as [|[k' v'] l IH]; simpl; [discriminate|].
  destruct (String.eqb k k'); auto.
Qed.

Lemma lookup_app_r {A : Type} (k : string) (l l' : list (string * A)) :
  Ref.lookup k l = None -> Ref.lookup k (l ++ l') = Ref.lookup k l'.
Proof.
  induction l as [|[k' v'] l IH]; simpl; [reflexivity|].
  destruct (String.eqb k k'); [discriminate | auto].
Qed.

Lemma lookup_filter_other {A : Type} (k b : string) (l : list (string * A)) :
  String.eqb k b = false ->
  Ref.lookup k (filter (fun x => negb (String.eqb (fst x) b)) l) = Ref.lookup k l.
Proof.
  intros Hkb. induction l as [|[k' v] l IH]; simpl; [reflexivity|].
  destruct (String.eqb k' b) eqn:Hb; simpl.
  - apply String.eqb_eq in Hb. subst k'. now rewrite Hkb.
  - now rewrite IH.
Qed.

Lemma inb_filter_gone (p : string) (l : list string) :
  Ref.inb p (filter (fun d => negb (Ref.within p d)) l) = false.
Proof.
  unfold Ref.inb. induction l as [|d l IH]; simpl; [reflexivity|].
  destruct (Ref.within p d) eqn:Hw; simpl; [exact IH|].
  rewrite IH, orb_false_r. unfold Ref.within in Hw.
  apply orb_false_iff in Hw. destruct Hw as [Hw _]. now rewrite String.eqb_sym.
Qed.

Lemma inb_filter_kept (p q : string) (l : list string) :
  Ref.inb q l = true -> Ref.within p q = false ->
  Ref.inb q (filter (fun d => negb (Ref.within p d)) l) = true.
Proof.
  unfold Ref.inb. intros Hin Hw. apply inb_iff. apply filter_In.
  split; [now apply inb_iff | now rewrite Hw].
Qed.

Lemma inb_filter_sub (q : string) (f : string -> bool) (l : list string) :
  Ref.inb q l = false -> Ref.inb q (filter f l) = false.
Proof.
  unfold Ref.inb. intros H.
  destruct (existsb (String.eqb q) (filter f l)) eqn:He; [|reflexivity].
  apply inb_iff in He. apply filter_In in He. destruct He as [He _].
  apply inb_iff in He. congruence.
Qed.

Lemma isFile_filter_sub (w : Ref.World) (q : string)
    (f : string * string -> bool) (fs : list (string * string)) :
  Ref.inb q (map fst fs) = false -> Ref.inb q (map fst (filter f fs)) = false.
Proof.
  unfold Ref.inb. intros H.
  destruct (existsb (String.eqb q) (map fst (filter f fs))) eqn:He; [|reflexivity].
  apply inb_iff in He. apply in_map_iff in He. destruct He as [x [Hx Hin]].
  apply filter_In in Hin. destruct Hin as [Hin _].
  assert (Hq : In q (map fst fs)) by (apply in_map_iff; now exists x).
  apply inb_iff in Hq. congruence.
Qed.

Lemma isFile_filter_gone (p : string) (fs : list (string * string)) :
  Ref.inb p (map fst (filter (fun f => negb (Ref.within p (fst f))) fs)) = false.
Proof.
  unfold Ref.inb. induction fs as [|[q c] fs IH]; simpl; [reflexivity|].
  destruct (Ref.within p q) eqn:Hw; simpl; [exact IH|].
  rewrite IH, orb_false_r. unfold Ref.within in Hw.
  apply orb_false_iff in Hw. destruct Hw as [Hw _]. now rewrite String.eqb_sym.
Qed.

(** A branch that does not exist is checked out nowhere. *)
Lemma wf_not_checkedOut (w : Ref.World) (b : string) :
  Ref.wf w -> Ref.lookup b (Ref.branches w) = None -> Ref.checkedOut w b = false.
Proof.
  intros [Hhead Hlinked] Hb. unfold Ref.checkedOut. apply orb_false_iff. split.
  - destruct (String.eqb b (Ref.head w)) eqn:He; [|reflexivity].
    apply String.eqb_eq in He. subst b. rewrite Hb in Hhead. discriminate.
  - destruct (Ref.inb b (map snd (Ref.linked w))) eqn:Hin; [|reflexivity].
    apply inb_iff in Hin. apply in_map_iff in Hin. destruct Hin as [l [Hl Hin]].
    rewrite forallb_forall in Hlinked. specialize (Hlinked l Hin).
    rewrite Hl, Hb in Hlinked. discriminate.
Qed.

Lemma wf_same_git (w w' : Ref.World) :
  Ref.head w' = Ref.head w -> Ref.branches w' = Ref.branches w ->
  Ref.linked w' = Ref.linked w -> Ref.wf w -> Ref.wf w'.
Proof. unfold Ref.wf. now intros -> -> ->. Qed.

Lemma wf_fewer_linked (w : Ref.World) (ds : list string) (fs : list (string * string))
    (f : string * string -> bool) :
  Ref.wf w -> Ref.wf (Ref.setGit w ds fs (Ref.branches w) (filter f (Ref.linked w))).
Proof.
  intros [Hhead Hlinked]. split; [exact Hhead|]. cbn.
  rewrite forallb_forall in *. intros l Hl. apply filter_In in Hl. now apply Hlinked.
Qed.

Lemma wf_branch_deleted (w : Ref.World) (b : string) :
  Ref.wf w -> Ref.checkedOut w b = false ->
  Ref.wf (Ref.setGit w (Ref.dirs w) (Ref.files w)
            (filter (fun x => negb (String.eqb (fst x) b)) (Ref.branches w))
            (Ref.linked w)).
Proof.
  intros [Hhead Hlinked] Hco. unfold Ref.checkedOut in Hco.
  apply orb_false_iff in Hco. destruct Hco as [Hh Hl]. split; cbn.
  - rewrite lookup_filter_other; [exact Hhead | now rewrite String.eqb_sym].
  - rewrite forallb_forall in *. intros l Hin.
    rewrite lookup_filter_other; [now apply Hlinked|].
    destruct (String.eqb (snd l) b) eqn:He; [|reflexivity].
    apply String.eqb_eq in He. subst b.
    assert (Hc : Ref.inb (snd l) (map snd (Ref.linked w)) = true)
      by (apply inb_iff, in_map; assumption).
    congruence.
Qed.

Lemma execute_mkdir (w : Ref.World) (d : string) :
  JS.startsWith d "/" = true ->
  Ref.execute (MkdirP d) w =
  if Ref.isFile w d then (None, w)
  else if Ref.isDir w d then (Some "", w)
  else (Some "", Ref.setFs w (Ref.dirs w ++ [d]) (Ref.files w)).
Proof. intros H. unfold Ref.execute. now rewrite (absolute_id w d H). Qed.

Lemma execute_remove (w : Ref.World) (r p : string) :
  JS.startsWith p "/" = true ->
  Ref.execute (GitWorktreeRemoveForce r p) w =
  if String.eqb r (Ref.repo w) && Ref.inb p (map fst (Ref.linked w)) then
    (Some "",
     Ref.setGit w
       (filter (fun d => negb (Ref.within p d)) (Ref.dirs w))
       (filter (fun f => negb (Ref.within p (fst f))) (Ref.files w))
       (Ref.branches w)
       (filter (fun l => negb (String.eqb (fst l) p)) (Ref.linked w)))
  else (None, w).
Proof. intros H. unfold Ref.execute. now rewrite (absolute_id w p H). Qed.

Lemma execute_add (w : Ref.World) (r b p base : string) :
  JS.startsWith p "/" = true ->
  Ref.execute (GitWorktreeAdd r b p base) w =
  match Ref.lookup base (Ref.branches w) with
  | Some commit =>
      if String.eqb r (Ref.repo w) && negb (isSome (Ref.lookup b (Ref.branches w)))
         && negb (Ref.pathExists w p) then
        (Some "",
         Ref.setGit w (Ref.dirs w ++ [p]) (Ref.files w)
           (Ref.branches w ++ [(b, commit)]) (Ref.linked w ++ [(p, b)]))
      else (None, w)
  | None => (None, w)
  end.
Proof. intros H. unfold Ref.execute. now rewrite (absolute_id w p H). Qed.

(** What a successful [git worktree add -b] tells and does. *)
Lemma execute_add_inv (w w' : Ref.World) (r b p base t : string) :
  JS.startsWith p "/" = true ->
  Ref.execute (GitWorktreeAdd r b p base) w = (Some t, w') ->
  exists commit,
    String.eqb r (Ref.repo w) = true
    /\ Ref.lookup base (Ref.branches w) = Some commit
    /\ Ref.lookup b (Ref.branches w) = None
    /\ Ref.pathExists w p = false
    /\ w' = Ref.setGit w (Ref.dirs w ++ [p]) (Ref.files w)
              (Ref.branches w ++ [(b, commit)]) (Ref.linked w ++ [(p, b)]).
Proof.
  intros Hp. rewrite (execute_add w r b p base Hp).
  destruct (Ref.lookup base (Ref.branches w)) as [commit|]; [|discriminate].
  destruct (String.eqb r (Ref.repo w)); [|discriminate].
  destruct (Ref.lookup b (Ref.branches w)); [discriminate|].
  destruct (Ref.pathExists w p); [discriminate|].
  cbn. intros [= _ <-]. now exists commit.
Qed.

(** A forced removal, whether it succeeds or not, leaves the branches
    alone and only takes away what is at the path or below it. *)
Lemma execute_remove_facts (w w2 : Ref.World) (r p : string) (o : option string) :
  JS.startsWith p "/" = true ->
  Ref.execute (GitWorktreeRemoveForce r p) w = (o, w2) ->
  Ref.cwd w2 = Ref.cwd w
  /\ (Ref.wf w -> Ref.wf w2)
  /\ (forall q, Ref.isFile w q = false -> Ref.isFile w2 q = false)
  /\ (forall q, Ref.isDir w q = true -> Ref.within p q = false -> Ref.isDir w2 q = true).
Proof.
  intros Hp. rewrite (execute_remove w r p Hp).
  destruct (String.eqb r (Ref.repo w) && Ref.inb p (map fst (Ref.linked w))).
  - intros [= _ <-]. split; [reflexivity|]. split; [apply wf_fewer_linked|]. split.
    + intros q. unfold Ref.isFile. cbn. apply isFile_filter_sub. exact w.
    + intros q. unfold Ref.isDir. cbn. apply inb_filter_kept.
  - intros [= _ <-]. auto.
Qed.

Lemma execute_delete_facts (w w3 : Ref.World) (r b : string) (o : option string) :
  Ref.execute (GitBranchDelete r b) w = (o, w3) ->
  Ref.cwd w3 = Ref.cwd w /\ Ref.dirs w3 = Ref.dirs w /\ Ref.files w3 = Ref.files w
  /\ (Ref.wf w -> Ref.wf w3).
Proof.
  unfold Ref.execute.
  destruct (String.eqb r (Ref.repo w) && isSome (Ref.lookup b (Ref.branches w))
            && negb (Ref.checkedOut w b)) eqn:Hc.
  - intros [= _ <-]. do 3 (split; [reflexivity|]).
    intros Hwf. apply wf_branch_deleted; [exact Hwf|].
    apply andb_true_iff in Hc. destruct Hc as [_ Hc]. now apply negb_true_iff in Hc.
  - intros [= _ <-]. auto.
Qed.

(** The state in which a successful [createWorktree] made its
    worktree: [w3] is the world just before [git worktree add]. *)
Lemma createWorktree_first_run (repoRoot worktreeBase name baseBranch : string)
    (st st1 : state Ref.World) (wt : worktree) :
  JS.startsWith worktreeBase "/" = true ->
  Ref.wf (world st) ->
  createWorktree Ref.env repoRoot worktreeBase name baseBranch st = (Ok wt, st1) ->
  let p := Path.join [worktreeBase; name] in
  let parent := Path.dirname p in
  let b := "bytree/" ++ name in
  exists w3 commit,
    wt = {| path := p; branch := b |}
    /\ Ref.wf w3
    /\ Ref.isFile w3 parent = false
    /\ (Ref.isDir w3 parent = true \/ parent = p)
    /\ String.eqb repoRoot (Ref.repo w3) = true
    /\ Ref.lookup baseBranch (Ref.branches w3) = Some commit
    /\ Ref.lookup b (Ref.branches w3) = None
    /\ Ref.pathExists w3 p = false
    /\ world st1
       = Ref.setGit w3 (Ref.dirs w3 ++ [p]) (Ref.files w3)
           (Ref.branches w3 ++ [(b, commit)]) (Ref.linked w3 ++ [(p, b)]).
Proof.
  intros Hbase Hwf Hrun p parent b.
  assert (Hp : JS.startsWith p "/" = true) by now apply join_absolute.
  assert (Hparent : JS.startsWith parent "/" = true) by now apply dirname_absolute.
  assert (Hne : p <> "") by (intros He; rewrite He in Hp; discriminate).
  rewrite createWorktree_run in Hrun. cbv zeta in Hrun.
  fold p parent b in Hrun.
  cbn [exec existsSync Ref.env Ref.envWith] in Hrun.
  rewrite (execute_mkdir (world st) parent Hparent) in Hrun.
  (* after mkdir *)
  assert (Hmk : exists wm,
            (if Ref.isFile (world st) parent then (None, world st)
             else if Ref.isDir (world st) parent then (Some "", world st)
             else (Some "", Ref.setFs (world st) (Ref.dirs (world st) ++ [parent])
                              (Ref.files (world st))))
            = (Some "", wm)
            /\ Ref.wf wm /\ Ref.isFile wm parent = false /\ Ref.isDir wm parent = true).
  { destruct (Ref.isFile (world st) parent) eqn:Hf; [discriminate Hrun|].
    destruct (Ref.isDir (world st) parent) eqn:Hd.
    - exists (world st). auto.
    - eexists. split; [reflexivity|]. split; [exact Hwf|]. split; [exact Hf|].
      unfold Ref.isDir, Ref.inb. cbn. rewrite existsb_app. cbn.
      now rewrite String.eqb_refl, orb_true_r. }
  destruct Hmk as [wm [Hmk [Hwfm [Hfm Hdm]]]]. rewrite Hmk in Hrun.
  rewrite (absolute_id wm p Hp) in Hrun.
  replace (negb (Ref.inb p []) && Ref.pathExists wm p) with (Ref.pathExists wm p)
    in Hrun by reflexivity.
  destruct (Ref.pathExists wm p) eqn:Hex.
  - destruct (Ref.execute (GitWorktreeRemoveForce repoRoot p) wm) as [removed w2] eqn:Hrm.
    destruct (Ref.execute (GitBranchDelete repoRoot b) w2) as [deleted w3] eqn:Hdel.
    destruct (Ref.execute (GitWorktreeAdd repoRoot b p baseBranch) w3) as [[t|] w4] eqn:Hadd;
      [|discriminate Hrun].
    injection Hrun as <- <-.
    destruct (execute_remove_facts _ _ _ _ _ Hp Hrm) as [_ [Hwf2 [Hf2 Hd2]]].
    destruct (execute_delete_facts _ _ _ _ _ Hdel) as [_ [Hd3 [Hf3 Hwf3]]].
    destruct (execute_add_inv _ _ _ _ _ _ _ Hp Hadd) as [commit [H1 [H2 [H3 [H4 H5]]]]].
    exists w3, commit. split; [reflexivity|]. split; [auto|]. split.
    { unfold Ref.isFile. rewrite Hf3. now apply Hf2. }
    split.
    { destruct (Ref.within p parent) eqn:Hw.
      - right. now apply within_dirname.
      - left. unfold Ref.isDir. rewrite Hd3. now apply Hd2. }
    cbn [world]. auto.
  - destruct (Ref.execute (GitWorktreeAdd repoRoot b p baseBranch) wm) as [[t|] w4] eqn:Hadd;
      [|discriminate Hrun].
    injection Hrun as <- <-.
    destruct (execute_add_inv _ _ _ _ _ _ _ Hp Hadd) as [commit [H1 [H2 [H3 [H4 H5]]]]].
    exists wm, commit. cbn [world].
    split; [reflexivity|]. split; [exact Hwfm|]. split; [exact Hfm|].
    split; [now left|]. auto.
Qed.

Lemma filter_filter_neg {A : Type} (f : A -> bool) (l : list A) :
  filter f (filter (fun x => negb (f x)) l) = [].
Proof.
  induction l as [|x l IH]; simpl; [reflexivity|].
  destruct (f x) eqn:Hx; simpl; [exact IH|]. now rewrite Hx.
Qed.

Lemma lookup_none_filter_eq {A : Type} (k : string) (l : list (string * A)) :
  Ref.lookup k l = None -> filter (fun x => String.eqb (fst x) k) l = [].
Proof.
  induction l as [|[k' v] l IH]; simpl; [reflexivity|].
  rewrite (String.eqb_sym k' k). destruct (String.eqb k k'); [discriminate | exact IH].
Qed.

(** The second of two runs: everything the first run made is removed,
    and made again. *)
Lemma createWorktree_second_run (repoRoot worktreeBase name baseBranch : string)
    (w3 : Ref.World) (commit : string) (st' : state Ref.World) :
  let p := Path.join [worktreeBase; name] in
  let parent := Path.dirname p in
  let b := "bytree/" ++ name in
  JS.startsWith worktreeBase "/" = true ->
  Ref.wf w3 ->
  Ref.isFile w3 parent = false ->
  Ref.isDir w3 parent = true \/ parent = p ->
  String.eqb repoRoot (Ref.repo w3) = true ->
  Ref.lookup baseBranch (Ref.branches w3) = Some commit ->
  Ref.lookup b (Ref.branches w3) = None ->
  Ref.pathExists w3 p = false ->
  Ref.grows
    (Ref.setGit w3 (Ref.dirs w3 ++ [p]) (Ref.files w3)
       (Ref.branches w3 ++ [(b, commit)]) (Ref.linked w3 ++ [(p, b)]))
    (world st') ->
  exists st2,
    createWorktree Ref.env repoRoot worktreeBase name baseBranch st'
    = (Ok {| path := p; branch := b |}, st2)
    /\ issued st2
       = (issued st'
          ++ [(MkdirP parent, true);
              (GitWorktreeRemoveForce repoRoot p, true);
              (GitBranchDelete repoRoot b, true);
              (GitWorktreeAdd repoRoot b p baseBranch, true)])%list
    /\ filter (fun l => String.eqb (fst l) p) (Ref.linked (world st2)) = [(p, b)]
    /\ filter (fun x => String.eqb (fst x) b) (Ref.branches (world st2)) = [(b, commit)].
Proof.
  intros p parent b Hbase Hwf3 Hf3 Hd3 Hr3 Hbb Hb3 Hex3 Hgrow.
  assert (Hp : JS.startsWith p "/" = true) by now apply join_absolute.
  assert (Hparent : JS.startsWith parent "/" = true) by now apply dirname_absolute.
  destruct Hgrow as [_ Grepo Ghead Gbr Glk Gdirs].
  cbn [Ref.setGit Ref.repo Ref.head Ref.branches Ref.linked Ref.dirs] in Grepo, Ghead, Gbr, Glk, Gdirs.
  set (w' := world st') in *.
  unfold Ref.pathExists in Hex3. apply orb_false_iff in Hex3. destruct Hex3 as [Hdp Hfp].
  rewrite forallb_app in Gdirs. apply andb_true_iff in Gdirs. destruct Gdirs as [Gold Gnew].
  (* the worktree directory and its parent are still there *)
  assert (HP : Ref.isDir w' p = true /\ Ref.isFile w' p = false).
  { cbn [forallb] in Gnew. rewrite andb_true_r in Gnew.
    change (Ref.isFile w3 p || (Ref.isDir w' p && negb (Ref.isFile w' p)) = true) in Gnew.
    rewrite Hfp in Gnew. cbn [orb] in Gnew. apply andb_true_iff in Gnew.
    destruct Gnew as [G1 G2]. now apply negb_true_iff in G2. }
  assert (HX : Ref.isDir w' parent = true /\ Ref.isFile w' parent = false).
  { destruct Hd3 as [Hd3 | ->]; [|exact HP].
    rewrite forallb_forall in Gold. unfold Ref.isDir, Ref.inb in Hd3.
    apply inb_iff in Hd3. specialize (Gold parent Hd3).
    change (Ref.isFile w3 parent || (Ref.isDir w' parent && negb (Ref.isFile w' parent)) = true)
      in Gold.
    rewrite Hf3 in Gold. cbn [orb] in Gold. apply andb_true_iff in Gold.
    destruct Gold as [G1 G2]. now apply negb_true_iff in G2. }
  destruct HP as [HPd HPf]. destruct HX as [HXd HXf].
  pose proof (wf_not_checkedOut w3 b Hwf3 Hb3) as Hco.
  unfold Ref.checkedOut in Hco. apply orb_false_iff in Hco. destruct Hco as [Hhead Hlinked].
  (* the four subprocesses *)
  assert (Hmk : Ref.execute (MkdirP parent) w' = (Some "", w')).
  { rewrite (execute_mkdir w' parent Hparent). now rewrite HXf, HXd. }
  set (w2 := Ref.setGit w'
               (filter (fun d => negb (Ref.within p d)) (Ref.dirs w'))
               (filter (fun f => negb (Ref.within p (fst f))) (Ref.files w'))
               (Ref.branches w')
               (filter (fun l => negb (String.eqb (fst l) p)) (Ref.linked w'))).
  assert (Hrm : Ref.execute (GitWorktreeRemoveForce repoRoot p) w' = (Some "", w2)).
  { rewrite (execute_remove w' repoRoot p Hp).
    assert (Hc : String.eqb repoRoot (Ref.repo w')
                 && Ref.inb p (map fst (Ref.linked w')) = true).
    { rewrite Grepo, Hr3, Glk.
      unfold Ref.inb. rewrite map_app, existsb_app. cbn [map existsb fst].
      rewrite String.eqb_refl. cbn [orb andb]. now rewrite orb_true_r. }
    now rewrite Hc. }
  assert (Hlk2 : Ref.linked w2
                 = filter (fun l => negb (String.eqb (fst l) p)) (Ref.linked w3)).
  { unfold w2. cbn [Ref.setGit Ref.linked]. rewrite Glk, filter_app. cbn [filter fst].
    now rewrite String.eqb_refl, app_nil_r. }
  set (w3' := Ref.setGit w2 (Ref.dirs w2) (Ref.files w2)
                (filter (fun x => negb (String.eqb (fst x) b)) (Ref.branches w2))
                (Ref.linked w2)).
  assert (Hdel : Ref.execute (GitBranchDelete repoRoot b) w2 = (Some "", w3')).
  { unfold Ref.execute.
    assert (Hc : String.eqb repoRoot (Ref.repo w2)
                 && isSome (Ref.lookup b (Ref.branches w2))
                 && negb (Ref.checkedOut w2 b) = true).
    { unfold Ref.checkedOut. rewrite Hlk2.
      change (Ref.repo w2) with (Ref.repo w'). change (Ref.branches w2) with (Ref.branches w').
      change (Ref.head w2) with (Ref.head w').
      rewrite Grepo, Hr3, Gbr, Ghead, Hhead, (lookup_app_r _ _ _ Hb3).
      cbn [Ref.lookup]. rewrite String.eqb_refl. cbn [isSome andb orb].
      apply negb_true_iff. unfold Ref.inb in *.
      destruct (existsb (String.eqb b)
                  (map snd (filter (fun l => negb (String.eqb (fst l) p)) (Ref.linked w3))))
        eqn:He; [|reflexivity].
      apply inb_iff in He. apply in_map_iff in He. destruct He as [l [Hl Hin]].
      apply filter_In in Hin. destruct Hin as [Hin _].
      assert (Hc : In b (map snd (Ref.linked w3))) by (apply in_map_iff; now exists l).
      apply inb_iff in Hc. congruence. }
    now rewrite Hc. }
  assert (Hbr3 : Ref.branches w3' = Ref.branches w3).
  { unfold w3'. cbn [Ref.setGit Ref.branches].
    change (Ref.branches w2) with (Ref.branches w'). rewrite Gbr, filter_app.
    rewrite (lookup_none_filter _ _ Hb3). cbn [filter fst].
    now rewrite String.eqb_refl, app_nil_r. }
  assert (Hadd : Ref.execute (GitWorktreeAdd repoRoot b p baseBranch) w3'
                 = (Some "",
                    Ref.setGit w3' (Ref.dirs w3' ++ [p]) (Ref.files w3')
                      (Ref.branches w3' ++ [(b, commit)]) (Ref.linked w3' ++ [(p, b)]))).
  { rewrite (execute_add w3' repoRoot b p baseBranch Hp). rewrite Hbr3, Hbb, Hb3.
    change (Ref.repo w3') with (Ref.repo w'). rewrite Grepo, Hr3.
    assert (Hgone : Ref.pathExists w3' p = false).
    { unfold Ref.pathExists, Ref.isDir, Ref.isFile. apply orb_false_iff. split.
      - apply inb_filter_gone.
      - apply isFile_filter_gone. }
    now rewrite Hgone. }
  eexists. split; [|split; [|split]].
  - rewrite createWorktree_run. cbv zeta. fold p parent b.
    cbn [exec existsSync Ref.env Ref.envWith]. fold w'.
    rewrite Hmk, (absolute_id w' p Hp).
    replace (negb (Ref.inb p []) && Ref.pathExists w' p) with true
      by (unfold Ref.pathExists; now rewrite HPd).
    rewrite Hrm, Hdel, Hadd. cbn [isSome]. rewrite <- app_assoc. reflexivity.
  - reflexivity.
  - cbn [world Ref.setGit Ref.linked]. fold (Ref.linked w3'). 
    change (Ref.linked w3') with (Ref.linked w2). rewrite Hlk2, filter_app.
    rewrite (filter_filter_neg (fun l => String.eqb (fst l) p)). cbn [filter fst app].
    now rewrite String.eqb_refl.
  - cbn [world Ref.setGit Ref.branches]. rewrite Hbr3, filter_app.
    rewrite (lookup_none_filter_eq _ _ Hb3). cbn [filter fst app].
    now rewrite String.eqb_refl.
Qed.

(** C1 (amended): [createWorktree] runs the forced removal of the
    worktree and the forced deletion of the branch, in this order,
    after [mkdir -p] and before [git worktree add], exactly when
    something exists at the target path; their failures are ignored.
    When it has succeeded for a name, with an absolute worktree base,
    running it again for the same name, whatever files were added in
    between, succeeds: the worktree and the branch of the first run are
    removed, and afterwards there is exactly one worktree at the path
    for the name and exactly one branch [bytree/name], created anew
    from the base. *)
Theorem createWorktree_recreates :
  (forall (W : Type) (E : Env W) (repoRoot worktreeBase name baseBranch : string)
          (st : state W),
     let branch := "bytree/" ++ name in
     let worktreePath := Path.join [worktreeBase; name] in
     let mkdir := MkdirP (Path.dirname worktreePath) in
     let remove := GitWorktreeRemoveForce repoRoot worktreePath in
     let delete := GitBranchDelete repoRoot branch in
     let add := GitWorktreeAdd repoRoot branch worktreePath baseBranch in
     map fst (issued (snd (createWorktree E repoRoot worktreeBase name baseBranch st)))
     = (map fst (issued st)
        ++ match fst (exec E mkdir (world st)) with
           | None => [mkdir]
           | Some _ =>
               if existsSync E worktreePath (snd (exec E mkdir (world st)))
               then [mkdir; remove; delete; add]
               else [mkdir; add]
           end)%list)
  /\ (forall (repoRoot worktreeBase name baseBranch : string)
             (st st1 st1' : state Ref.World) (wt : worktree),
        JS.startsWith worktreeBase "/" = true ->
        Ref.wf (world st) ->
        createWorktree Ref.env repoRoot worktreeBase name baseBranch st = (Ok wt, st1) ->
        Ref.grows (world st1) (world st1') ->
        let p := Path.join [worktreeBase; name] in
        let b := "bytree/" ++ name in
        wt = {| path := p; branch := b |}
        /\ exists st2 commit,
             createWorktree Ref.env repoRoot worktreeBase name baseBranch st1'
             = (Ok wt, st2)
             /\ issued st2
                = (issued st1'
                   ++ [(MkdirP (Path.dirname p), true);
                       (GitWorktreeRemoveForce repoRoot p, true);
                       (GitBranchDelete repoRoot b, true);
                       (GitWorktreeAdd repoRoot b p baseBranch, true)])%list
             /\ filter (fun l => String.eqb (fst l) p) (Ref.linked (world st2))
                = [(p, b)]
             /\ Ref.lookup baseBranch (Ref.branches (world st1')) = Some commit
             /\ filter (fun x => String.eqb (fst x) b) (Ref.branches (world st2))
                = [(b, commit)]).
Proof.
  split.
  - intros W E repoRoot worktreeBase name baseBranch st. cbv zeta.
    rewrite createWorktree_run. cbv zeta.
    destruct (exec E (MkdirP _) (world st)) as [[t1|] w1]; cbn [fst snd].
    + destruct (existsSync E _ w1).
      * destruct (exec E (GitWorktreeRemoveForce _ _) w1) as [removed w2].
        destruct (exec E (GitBranchDelete _ _) w2) as [deleted w3].
        destruct (exec E (GitWorktreeAdd _ _ _ _) w3) as [[t|] w4];
          cbn [snd issued]; rewrite <- app_assoc, map_app; reflexivity.
      * destruct (exec E (GitWorktreeAdd _ _ _ _) w1) as [[t|] w4];
          cbn [snd issued]; rewrite <- app_assoc, map_app; reflexivity.
    + cbn [snd issued]. now rewrite map_app.
  - intros repoRoot worktreeBase name baseBranch st st1 st1' wt Hbase Hwf Hrun Hgrow p b.
    destruct (createWorktree_first_run _ _ _ _ _ _ _ Hbase Hwf Hrun)
      as [w3 [commit [Hwt [Hwf3 [Hf3 [Hd3 [Hr3 [Hbb [Hb3 [Hex3 Hw1]]]]]]]]]].
    fold p b in Hwt, Hf3, Hd3, Hb3, Hex3, Hw1.
    split; [exact Hwt|]. rewrite Hw1 in Hgrow.
    destruct (createWorktree_second_run repoRoot worktreeBase name baseBranch w3 commit st1'
                Hbase Hwf3 Hf3 Hd3 Hr3 Hbb Hb3 Hex3 Hgrow)
      as [st2 [Hrun2 [Hlog [Hone Hbranch]]]].
    exists st2, commit. rewrite Hwt. split; [exact Hrun2|]. split; [exact Hlog|].
    split; [exact Hone|]. split; [|exact Hbranch].
    destruct Hgrow as [_ _ _ Gbr _ _]. rewrite Gbr. cbn [Ref.setGit Ref.branches].
    now apply lookup_app_l.
Qed.

(** [bytree add demo] twice in [Sample.w0], the excluded files being
    copied into the worktree after each creation. *)
Lemma createWorktree_recreates_witness :
  let first := createWorktree Ref.env "/r" "/r-bytree" "demo" "main" (Ref.start Sample.w0) in
  let copied := copyExcludedFiles Ref.env "/r" "/r-bytree/demo" (snd first) in
  let second := createWorktree Ref.env "/r" "/r-bytree" "demo" "main" (snd copied) in
  JS.startsWith "/r-bytree" "/" = true
  /\ Ref.wf Sample.w0
  /\ fst first = Ok {| path := "/r-bytree/demo"; branch := "bytree/demo" |}
  /\ fst copied
     = Ok [".claude/settings.json"; ".claude/cache/tmp.bin"; "foo/a"; "foo/b/c"]
  /\ Ref.grows (world (snd first)) (world (snd copied))
  /\ fst second = Ok {| path := "/r-bytree/demo"; branch := "bytree/demo" |}
  /\ Ref.linked (world (snd second)) = [("/r-bytree/demo", "bytree/demo")]
  /\ Ref.branches (world (snd second)) = [("main", "c0ffee"); ("bytree/demo", "c0ffee")].
Proof.
  cbv zeta.
  assert (Hwf : Ref.wf Sample.w0) by (split; reflexivity).
  assert (Hgrow : Ref.grows
            (world (snd (createWorktree Ref.env "/r" "/r-bytree" "demo" "main"
                           (Ref.start Sample.w0))))
            (world (snd (copyExcludedFiles Ref.env "/r" "/r-bytree/demo"
                           (snd (createWorktree Ref.env "/r" "/r-bytree" "demo" "main"
                                   (Ref.start Sample.w0)))))))
    by (constructor; reflexivity).
  split; [reflexivity|]. split; [exact Hwf|]. split; [reflexivity|].
  split; [reflexivity|]. split; [exact Hgrow|].
  split; [|split; reflexivity].
  destruct (proj2 createWorktree_recreates "/r" "/r-bytree" "demo" "main"
              (Ref.start Sample.w0)
              (snd (createWorktree Ref.env "/r" "/r-bytree" "demo" "main"
                      (Ref.start Sample.w0)))
              (snd (copyExcludedFiles Ref.env "/r" "/r-bytree/demo"
                      (snd (createWorktree Ref.env "/r" "/r-bytree" "demo" "main"
                              (Ref.start Sample.w0)))))
              {| path := "/r-bytree/demo"; branch := "bytree/demo" |}
              eq_refl Hwf eq_refl Hgrow)
    as [_ [st2 [commit [Hrun _]]]].
  now rewrite Hrun.
Defined.

(** * The rest of the library *)

(** ** [getRepoInfo] *)

Lemma span_prefix (f : ascii -> bool) (taken rest : string) :
  forallb f (list_ascii_of_string taken) = true ->
  match rest with
  | EmptyString => True
  | String c _ => f c = false
  end ->
  span f (taken ++ rest) = (taken, rest).
Proof.
  intros Htaken Hrest. induction taken as [|c taken IH]; cbn [append].
  - destruct rest as [|c rest]; [reflexivity|]. cbn [span]. now rewrite Hrest.
  - cbn [list_ascii_of_string forallb] in Htaken.
    apply andb_true_iff in Htaken. destruct Htaken as [Hc Htaken].
    cbn [span]. now rewrite Hc, (IH Htaken).
Qed.

(** What [span] takes satisfies the test, and what it leaves starts
    with a code unit that does not. *)
Lemma span_spec (f : ascii -> bool) (s : string) :
  let '(taken, rest) := span f s in
  s = taken ++ rest
  /\ forallb f (list_ascii_of_string taken) = true
  /\ match rest with
     | EmptyString => True
     | String c _ => f c = false
     end.
Proof.
  induction s as [|c s IH]; cbn [span].
  - repeat split.
  - destruct (f c) eqn:Hc.
    + destruct (span f s) as [taken rest]. destruct IH as [-> [H1 H2]].
      split; [reflexivity|]. split; [|exact H2].
      cbn [list_ascii_of_string forallb]. now rewrite Hc.
    + repeat split. exact Hc.
Qed.

Lemma matchHere_github (sep : ascii) (o r rest : string) :
  sep = ":"%char \/ sep = "/"%char ->
  o <> "" -> forallb notSlash (list_ascii_of_string o) = true ->
  r <> "" -> forallb notSlashNorDot (list_ascii_of_string r) = true ->
  match rest with
  | EmptyString => True
  | String c _ => notSlashNorDot c = false
  end ->
  matchHere ("github.com" ++ String sep (o ++ "/" ++ r ++ rest)) = Some (o, r).
Proof.
  intros Hsep Ho Hos Hr Hrs Hrest. unfold matchHere.
  rewrite startsWith_append.
  change 10 with (String.length "github.com"). rewrite slice_append.
  assert (Hs : Ascii.eqb sep ":" || Ascii.eqb sep "/" = true)
    by (destruct Hsep as [-> | ->]; reflexivity).
  rewrite Hs.
  rewrite (span_prefix notSlash o ("/" ++ r ++ rest) Hos) by reflexivity.
  destruct o as [|oc o]; [congruence|]. cbn [append].
  rewrite (span_prefix notSlashNorDot r rest Hrs Hrest).
  destruct r as [|rc r]; [congruence|]. reflexivity.
Qed.

Lemma matchGithub_here (url : string) (groups : string * string) :
  matchHere url = Some groups -> matchGithub url = Some groups.
Proof. intros H. destruct url; cbn [matchGithub]; now rewrite H. Qed.

Lemma matchGithub_skip (c : ascii) (url : string) :
  matchHere (String c url) = None -> matchGithub (String c url) = matchGithub url.
Proof. intros H. cbn [matchGithub]. now rewrite H. Qed.

Lemma matchHere_occurs (url : string) (groups : string * string) :
  matchHere url = Some groups -> JS.startsWith url "github.com" = true.
Proof.
  unfold matchHere. destruct (JS.startsWith url "github.com"); [reflexivity|discriminate].
Qed.

Lemma matchGithub_none (url : string) :
  ~ occursIn "github.com" url -> matchGithub url = None.
Proof.
  induction url as [|c url IH]; intros Hno.
  - reflexivity.
  - assert (Hhere : matchHere (String c url) = None).
    { destruct (matchHere (String c url)) as [g|] eqn:Hm; [|reflexivity].
      apply matchHere_occurs in Hm. apply startsWith_iff in Hm. destruct Hm as [rest Hm].
      elim Hno. exists "", rest. exact Hm. }
    rewrite (matchGithub_skip _ _ Hhere). apply IH.
    intros [pre [post Hocc]]. apply Hno. exists (String c pre), post.
    cbn [append]. now f_equal.
Qed.

(** The two groups of a match are not empty; the first has no [/], the
    second neither [/] nor [.]. *)
Lemma matchGithub_groups (url o r : string) :
  matchGithub url = Some (o, r) ->
  occursIn "github.com" url
  /\ o <> "" /\ forallb notSlash (list_ascii_of_string o) = true
  /\ r <> "" /\ forallb notSlashNorDot (list_ascii_of_string r) = true.
Proof.
  induction url as [|c url IH]; cbn [matchGithub].
  - discriminate.
  - destruct (matchHere (String c url)) as [g|] eqn:Hm.
    + intros [= ->]. split.
      { pose proof (matchHere_occurs _ _ Hm) as Hs. apply startsWith_iff in Hs.
        destruct Hs as [rest Hs]. exists "", rest. exact Hs. }
      unfold matchHere in Hm.
      destruct (JS.startsWith (String c url) "github.com"); [|discriminate].
      destruct (JS.slice 10 (String c url)) as [|sep afterSep]; [discriminate|].
      destruct (Ascii.eqb sep ":" || Ascii.eqb sep "/"); [|discriminate].
      pose proof (span_spec notSlash afterSep) as H1.
      destruct (span notSlash afterSep) as [[|oc o'] [|x afterSlash]]; try discriminate.
      pose proof (span_spec notSlashNorDot afterSlash) as H2.
      destruct (span notSlashNorDot afterSlash) as [[|rc r'] rest]; [discriminate|].
      injection Hm as <- <-. destruct H1 as [_ [H1 _]]. destruct H2 as [_ [H2 _]].
      repeat split; try discriminate; assumption.
    + intros Hrec. destruct (IH Hrec) as [[pre [post Hocc]] Hrest].
      split; [|exact Hrest]. exists (String c pre), post. cbn [append]. now f_equal.
Qed.

Lemma getRepoInfo_run {W : Type} (H : Host W) (repoRoot : string) (s : session W) :
  fst (getRepoInfo H repoRoot s) =
  match fst (ask H (GitRemoteGetUrl repoRoot) (now s)) with
  | None => Raised (QueryError (GitRemoteGetUrl repoRoot))
  | Some text =>
      match matchGithub (JS.trim text) with
      | Some (o, r) => Done {| owner := o; repo := r |}
      | None => Raised (JsError ("Could not parse GitHub URL: " ++ JS.trim text))
      end
  end.
Proof.
  unfold getRepoInfo, andThen, shq.
  destruct (ask H (GitRemoteGetUrl repoRoot) (now s)) as [[text|] w']; cbn [fst];
    [|reflexivity].
  destruct (matchGithub (JS.trim text)) as [[o r]|]; reflexivity.
Qed.



(** X2: the owner and the repository name that [getRepoInfo] returns
    are never empty and hold no [/]; the repository name holds no [.]
    either. *)
Theorem getRepoInfo_names :
  forall (W : Type) (H : Host W) (repoRoot : string) (s : session W) (info : repoInfo),
    fst (getRepoInfo H repoRoot s) = Done info ->
    owner info <> "" /\ forallb notSlash (list_ascii_of_string (owner info)) = true
    /\ repo info <> ""
    /\ forallb notSlashNorDot (list_ascii_of_string (repo info)) = true.
Proof.
  intros W H repoRoot s info. rewrite getRepoInfo_run.
  destruct (fst (ask H (GitRemoteGetUrl repoRoot) (now s))) as [text|]; [|discriminate].
  destruct (matchGithub (JS.trim text)) as [[o r]|] eqn:Hm; [|discriminate].
  intros [= <-]. cbn [owner repo].
  destruct (matchGithub_groups _ _ _ Hm) as [_ Hg]. exact Hg.
Qed.

Lemma getRepoInfo_names_witness :
  fst (getRepoInfo SampleHost.nextjs "/r" (RefHost.start Sample.w0))
  = Done {| owner := "vercel"; repo := "next" |}
  /\ "next" <> "".
Proof.
  split; [reflexivity|].
  exact (proj1 (proj2 (proj2
           (getRepoInfo_names Ref.World SampleHost.nextjs "/r" (RefHost.start Sample.w0)
              {| owner := "vercel"; repo := "next" |} eq_refl)))).
Defined.

(** A match further on is found too, unless one starts before it. *)
Lemma matchGithub_found (pre url : string) (groups : string * string) :
  matchHere url = Some groups -> exists found, matchGithub (pre ++ url) = Some found.
Proof.
  intros Hhere. induction pre as [|c pre IH]; cbn [append].
  - exists groups. now apply matchGithub_here.
  - cbn [matchGithub]. destruct (matchHere (String c (pre ++ url))) as [g|]; eauto.
Qed.

(** X3: [getRepoInfo] raises the error of [git remote get-url origin]
    when it fails (no remote [origin]), and
    [Error("Could not parse GitHub URL: ...")] when the text
    [github.com] does not occur in the URL.  The pattern is not
    anchored: a URL in which [github.com], [:] or [/], an owner, [/]
    and a repository name occur is accepted whatever stands before
    them, the name of another host included. *)
Theorem getRepoInfo_failure :
  forall (W : Type) (H : Host W) (repoRoot : string) (s : session W),
    (fst (ask H (GitRemoteGetUrl repoRoot) (now s)) = None ->
     fst (getRepoInfo H repoRoot s) = Raised (QueryError (GitRemoteGetUrl repoRoot)))
    /\ (forall text,
          fst (ask H (GitRemoteGetUrl repoRoot) (now s)) = Some text ->
          ~ occursIn "github.com" (JS.trim text) ->
          fst (getRepoInfo H repoRoot s)
          = Raised (JsError ("Could not parse GitHub URL: " ++ JS.trim text)))
    /\ (forall (text before o r rest : string) (sep : ascii),
          fst (ask H (GitRemoteGetUrl repoRoot) (now s)) = Some text ->
          JS.trim text = before ++ "github.com" ++ String sep (o ++ "/" ++ r ++ rest) ->
          sep = ":"%char \/ sep = "/"%char ->
          o <> "" -> forallb notSlash (list_ascii_of_string o) = true ->
          r <> "" -> forallb notSlashNorDot (list_ascii_of_string r) = true ->
          match rest with
          | EmptyString => True
          | String c _ => notSlashNorDot c = false
          end ->
          exists info, fst (getRepoInfo H repoRoot s) = Done info).
Proof.
  intros W H repoRoot s. split; [|split].
  - intros Hask. now rewrite getRepoInfo_run, Hask.
  - intros text Hask Hno. now rewrite getRepoInfo_run, Hask, (matchGithub_none _ Hno).
  - intros text before o r rest sep Hask Hurl Hsep Ho Hos Hr Hrs Hrest.
    rewrite getRepoInfo_run, Hask, Hurl.
    destruct (matchGithub_found before _ _
                (matchHere_github sep o r rest Hsep Ho Hos Hr Hrs Hrest))
      as [[o' r'] Hfound].
    rewrite Hfound. eauto.
Qed.

(** No remote; a remote on GitLab; and a remote on GitLab whose path
    holds [github.com], which is accepted. *)
Lemma getRepoInfo_failure_witness :
  fst (getRepoInfo (RefHost.host None) "/r" (RefHost.start Sample.w0))
  = Raised (QueryError (GitRemoteGetUrl "/r"))
  /\ fst (getRepoInfo (RefHost.host (Some "https://gitlab.com/group/project.git")) "/r"
            (RefHost.start Sample.w0))
     = Raised (JsError "Could not parse GitHub URL: https://gitlab.com/group/project.git")
  /\ exists info,
       fst (getRepoInfo (RefHost.host (Some "https://gitlab.com/github.com/o/r.git")) "/r"
              (RefHost.start Sample.w0)) = Done info.
Proof.
  split; [|split].
  - apply (proj1 (getRepoInfo_failure Ref.World (RefHost.host None) "/r"
                    (RefHost.start Sample.w0))).
    reflexivity.
  - apply (proj1 (proj2 (getRepoInfo_failure Ref.World
                    (RefHost.host (Some "https://gitlab.com/group/project.git")) "/r"
                    (RefHost.start Sample.w0)))
             ("https://gitlab.com/group/project.git" ++ Sample.nl)).
    + reflexivity.
    + apply includes_false_iff. reflexivity.
  - assert (Ho : "o" <> "") by discriminate.
    assert (Hr : "r" <> "") by discriminate.
    apply (proj2 (proj2 (getRepoInfo_failure Ref.World
                    (RefHost.host (Some "https://gitlab.com/github.com/o/r.git")) "/r"
                    (RefHost.start Sample.w0)))
             ("https://gitlab.com/github.com/o/r.git" ++ Sample.nl)
             "https://gitlab.com/" "o" "r" ".git" "/"%char
             eq_refl eq_refl (or_intror eq_refl) Ho eq_refl Hr eq_refl eq_refl).
Defined.

(** ** [getRepoRoot] *)

Lemma normalizeSegments_app_plain (above : bool) (xs ys stack : list string) :
  forallb Path.plainSegment xs = true ->
  Path.normalizeSegments above stack (xs ++ ys)
  = Path.normalizeSegments above (rev xs ++ stack) ys.
Proof.
  revert stack; induction xs as [|x xs IH]; intros stack Hxs; [reflexivity|].
  cbn [forallb] in Hxs. apply andb_true_iff in Hxs. destruct Hxs as [Hx Hxs].
  unfold Path.plainSegment in Hx.
  apply andb_true_iff in Hx. destruct Hx as [Hx H3].
  apply andb_true_iff in Hx. destruct Hx as [H1 H2].
  apply negb_true_iff in H1, H2, H3.
  cbn [app Path.normalizeSegments]. rewrite H1, H2, H3. cbn [orb].
  rewrite (IH _ Hxs). cbn [rev]. now rewrite <- app_assoc.
Qed.

(** The segments of an absolute path in normal form. *)
Lemma normal_segments (p : string) :
  Path.isNormalAbsolute p = true ->
  exists seg segs,
    JS.split "/" p = "" :: seg :: segs
    /\ forallb Path.plainSegment (seg :: segs) = true
    /\ p = "/" ++ JS.joinWith "/" (seg :: segs).
Proof.
  unfold Path.isNormalAbsolute, Path.slash. intros Hn.
  destruct (JS.split "/" p) as [|first [|seg segs]] eqn:Hsplit; try discriminate.
  apply andb_true_iff in Hn. destruct Hn as [Hfirst Hsegs].
  apply String.eqb_eq in Hfirst. subst first.
  exists seg, segs. split; [reflexivity|]. split; [exact Hsegs|].
  rewrite <- (joinWith_split p) at 1. now rewrite Hsplit.
Qed.

(** [path.resolve] returns an absolute last part in normal form as it
    is, whatever stands before it. *)
Lemma resolve_normal (processCwd cwd p : string) :
  Path.isNormalAbsolute p = true -> resolve processCwd [cwd; p] = p.
Proof.
  intros Hn. destruct (normal_segments p Hn) as [seg [segs [Hsplit [Hplain Hp]]]].
  assert (Habs : JS.startsWith p "/" = true) by (rewrite Hp; reflexivity).
  assert (Hne : String.eqb p "" = false) by (rewrite Hp; reflexivity).
  unfold resolve. cbn [rev app resolveLoop]. rewrite Hne, Habs. cbn [negb].
  unfold Path.slash. change (p ++ "/" ++ "") with (p ++ String "/" "").
  rewrite split_app_sep, Hsplit. cbn [JS.split app].
  change (Path.normalizeSegments false [] ("" :: seg :: (segs ++ [""])%list))
    with (Path.normalizeSegments false [] ((seg :: segs) ++ [""])%list).
  rewrite (normalizeSegments_app_plain false (seg :: segs) [""] [] Hplain).
  cbn [Path.normalizeSegments String.eqb orb]. rewrite app_nil_r, rev_involutive.
  now rewrite Hp.
Qed.

Lemma list_ascii_app (a b : string) :
  list_ascii_of_string (a ++ b) = (list_ascii_of_string a ++ list_ascii_of_string b)%list.
Proof. induction a as [|c a IH]; cbn; [reflexivity | now rewrite IH]. Qed.

(** The parent of [root/.git]. *)
Lemma dirname_dot_git (c : ascii) (r : string) :
  r <> "" -> Path.dirname (String c r ++ "/.git") = String c r.
Proof.
  intros Hr. unfold Path.dirname. cbn [append].
  rewrite list_ascii_app, rev_app_distr. cbn [list_ascii_of_string rev app].
  cbn [Path.dropWhile Ascii.eqb Path.slash Bool.eqb negb andb].
  destruct (rev (list_ascii_of_string r)) as [|x before] eqn:Hrev.
  - exfalso. apply Hr. apply (f_equal (@rev ascii)) in Hrev.
    rewrite rev_involutive in Hrev. cbn in Hrev.
    rewrite <- (string_of_list_ascii_of_string r), Hrev. reflexivity.
  - rewrite <- Hrev, rev_involutive, string_of_list_ascii_of_string. reflexivity.
Qed.

Lemma getRepoRoot_run {W : Type} (H : Host W) (cwd : string) (s : session W) :
  fst (getRepoRoot H cwd s) =
  match exec (env H) (GitCommonDir cwd) (now s) with
  | (None, _) => Raised (LibError (ShellError (GitCommonDir cwd)))
  | (Some text, w1) =>
      if String.eqb (JS.trim text) ".git" then
        match fst (ask H (GitShowToplevel cwd) w1) with
        | Some topLevel => Done (JS.trim topLevel)
        | None => Raised (QueryError (GitShowToplevel cwd))
        end
      else Done (Path.dirname (resolve (processCwd H w1) [cwd; JS.trim text]))
  end.
Proof.
  unfold getRepoRoot, andThen, call, sh, run, shq, done. cbn [world issued].
  destruct (exec (env H) (GitCommonDir cwd) (now s)) as [[text|] w1];
    cbn [world issued fst now]; [|reflexivity].
  destruct (String.eqb (JS.trim text) ".git"); [|reflexivity].
  cbn [now]. destruct (ask H (GitShowToplevel cwd) w1) as [[topLevel|] w2]; reflexivity.
Qed.

(** X4: [getRepoRoot] raises when [git rev-parse --git-common-dir]
    fails (the directory is not in a repository); where git answers
    [.git], at the root of the main working tree, it returns what
    [--show-toplevel] prints, trimmed; and where git answers
    [root/.git] with [root] an absolute path in normal form, as it
    does inside a linked worktree, it returns [root], whatever the
    directory it was asked about. *)
Theorem getRepoRoot_cases :
  forall (W : Type) (H : Host W) (cwd : string) (s : session W),
    let common := exec (env H) (GitCommonDir cwd) (now s) in
    (fst common = None ->
     fst (getRepoRoot H cwd s) = Raised (LibError (ShellError (GitCommonDir cwd))))
    /\ (forall text,
          fst common = Some text -> JS.trim text = ".git" ->
          fst (getRepoRoot H cwd s)
          = match fst (ask H (GitShowToplevel cwd) (snd common)) with
            | Some topLevel => Done (JS.trim topLevel)
            | None => Raised (QueryError (GitShowToplevel cwd))
            end)
    /\ (forall text root,
          fst common = Some text -> JS.trim text = root ++ "/.git" ->
          Path.isNormalAbsolute root = true ->
          fst (getRepoRoot H cwd s) = Done root).
Proof.
  intros W H cwd s common. unfold common. rewrite getRepoRoot_run.
  destruct (exec (env H) (GitCommonDir cwd) (now s)) as [[text|] w1]; cbn [fst snd].
  - split; [discriminate|]. split.
    + intros text' [= <-] Htrim. now rewrite Htrim.
    + intros text' root [= <-] Htrim Hroot. rewrite Htrim.
      destruct (normal_segments root Hroot) as [seg [segs [Hsplit [Hplain Hp]]]].
      assert (Hgit : Path.isNormalAbsolute (root ++ "/.git") = true).
      { unfold Path.isNormalAbsolute, Path.slash.
        change (root ++ "/.git") with (root ++ String "/" ".git").
        rewrite split_app_sep, Hsplit.
        change (JS.split "/" ".git") with [".git"].
        cbn [app]. cbn [forallb] in Hplain |- *.
        apply andb_true_iff in Hplain. destruct Hplain as [Hseg Hsegs].
        rewrite forallb_app, Hseg, Hsegs. reflexivity. }
      assert (Hne : String.eqb (root ++ "/.git") ".git" = false).
      { rewrite Hp. reflexivity. }
      rewrite Hne, (resolve_normal _ _ _ Hgit).
      assert (Hroot' : exists r, root = String "/" r /\ r <> "").
      { rewrite Hp. cbn [forallb] in Hplain. apply andb_true_iff in Hplain.
        destruct Hplain as [Hseg _]. destruct seg as [|x seg]; [discriminate Hseg|].
        eexists. split; [reflexivity|]. destruct segs; discriminate. }
      destruct Hroot' as [r [-> Hr]]. now rewrite (dirname_dot_git _ r Hr).
  - split; [reflexivity|]. split; intros; discriminate.
Qed.

(** From inside the linked worktree [/r-bytree/demo], the root is [/r]. *)
Lemma getRepoRoot_cases_witness :
  exec (env SampleHost.nextjs) (GitCommonDir "/r-bytree/demo") SampleHost.inWorktree
  = (Some ("/r/.git" ++ Sample.nl), SampleHost.inWorktree)
  /\ Path.isNormalAbsolute "/r" = true
  /\ fst (getRepoRoot SampleHost.nextjs "/r-bytree/demo"
            (RefHost.start SampleHost.inWorktree)) = Done "/r".
Proof.
  split; [reflexivity|]. split; [reflexivity|].
  apply (proj2 (proj2 (getRepoRoot_cases Ref.World SampleHost.nextjs "/r-bytree/demo"
                         (RefHost.start SampleHost.inWorktree)))
           ("/r/.git" ++ Sample.nl) "/r"); reflexivity.
Defined.

(** ** The directory of the worktrees *)

Lemma split_no_slash (s : string) :
  forallb notSlash (list_ascii_of_string s) = true -> JS.split "/" s = [s].
Proof.
  induction s as [|c s IH]; [reflexivity|]. cbn [list_ascii_of_string forallb JS.split].
  intros Hs. apply andb_true_iff in Hs. destruct Hs as [Hc Hs].
  unfold notSlash in Hc. apply negb_true_iff in Hc. now rewrite Hc, (IH Hs).
Qed.

Lemma joinWith_snoc (segs : list string) (x : string) :
  segs <> [] -> JS.joinWith "/" (segs ++ [x]) = JS.joinWith "/" segs ++ "/" ++ x.
Proof.
  induction segs as [|seg segs IH]; [congruence|]. intros _.
  destruct segs as [|seg' segs]; [reflexivity|].
  change (JS.joinWith "/" ((seg :: seg' :: segs) ++ [x]))
    with (seg ++ "/" ++ JS.joinWith "/" ((seg' :: segs) ++ [x])).
  rewrite IH by discriminate.
  change (JS.joinWith "/" (seg :: seg' :: segs))
    with (seg ++ "/" ++ JS.joinWith "/" (seg' :: segs)).
  now rewrite !append_assoc.
Qed.

(** The segments of [parent/last], [parent] being the root directory
    (written as the empty string) or in normal form. *)
Lemma child_segments (parent last : string) :
  parent = "" \/ Path.isNormalAbsolute parent = true ->
  forallb notSlash (list_ascii_of_string last) = true ->
  exists segs,
    JS.split "/" (parent ++ String "/" last) = ("" :: segs ++ [last])%list
    /\ forallb Path.plainSegment segs = true
    /\ forall x, parent ++ "/" ++ x = "/" ++ JS.joinWith "/" (segs ++ [x]).
Proof.
  intros Hparent Hlast. rewrite split_app_sep, (split_no_slash last Hlast).
  destruct Hparent as [-> | Hn].
  - exists []. repeat split.
  - destruct (normal_segments parent Hn) as [seg [segs [Hsplit [Hplain Hp]]]].
    exists (seg :: segs). rewrite Hsplit. split; [reflexivity|]. split; [exact Hplain|].
    intros x. rewrite joinWith_snoc by discriminate. rewrite Hp at 1.
    now rewrite !append_assoc.
Qed.

Lemma joinWith_snoc_nonempty_aux (segs : list string) (c : ascii) (t : string) :
  forallb Path.plainSegment segs = true ->
  exists x u, JS.joinWith "/" (segs ++ [String c t]) = String x u.
Proof.
  intros Hsegs. destruct segs as [|seg segs]; cbn [app JS.joinWith]; [eauto|].
  cbn [forallb] in Hsegs. apply andb_true_iff in Hsegs. destruct Hsegs as [Hseg _].
  destruct seg as [|x seg]; [discriminate Hseg|].
  destruct (segs ++ [String c t])%list; cbn [append]; eauto.
Qed.

Lemma normalizeSegments_pop (above : bool) (top : string) (stack rest : list string) :
  String.eqb top ".." = false ->
  Path.normalizeSegments above (top :: stack) (".." :: rest)
  = Path.normalizeSegments above stack rest.
Proof.
  intros Htop. cbn [Path.normalizeSegments].
  change (String.eqb ".." "" || String.eqb ".." ".") with false.
  change (String.eqb ".." "..") with true. cbv iota. now rewrite Htop.
Qed.

(** [join(root, "..", name)] is the sibling [name] of [root]. *)
Lemma join_sibling (parent last name : string) :
  parent = "" \/ Path.isNormalAbsolute parent = true ->
  Path.plainSegment last = true ->
  forallb notSlash (list_ascii_of_string last) = true ->
  Path.plainSegment name = true ->
  forallb notSlash (list_ascii_of_string name) = true ->
  Path.join [parent ++ "/" ++ last; ".."; name] = parent ++ "/" ++ name.
Proof.
  intros Hparent Hlast Hlasts Hname Hnames.
  destruct (child_segments parent last Hparent Hlasts) as [segs [Hsplit [Hplain Hjoin]]].
  assert (Hne : String.eqb name "" = false /\ String.eqb name ".." = false
                /\ String.eqb name "." = false).
  { unfold Path.plainSegment in Hname. apply andb_true_iff in Hname.
    destruct Hname as [Hname H3]. apply andb_true_iff in Hname.
    destruct Hname as [H1 H2]. apply negb_true_iff in H1, H2, H3. auto. }
  destruct Hne as [Hne [Hdd Hd]].
  assert (Hlastdd : String.eqb last ".." = false).
  { unfold Path.plainSegment in Hlast. apply andb_true_iff in Hlast.
    destruct Hlast as [_ H3]. now apply negb_true_iff in H3. }
  assert (Hroot : exists t, parent ++ "/" ++ last = String "/" t).
  { rewrite Hjoin. eexists. reflexivity. }
  destruct Hroot as [t Hroot].
  unfold Path.join. cbn [filter]. rewrite Hne, Hroot.
  change (String.eqb (String "/" t) "") with false. change (String.eqb ".." "") with false.
  cbn [negb].
  change (JS.joinWith "/" [String "/" t; ".."; name])
    with (String "/" t ++ String "/" (".." ++ String "/" name)).
  assert (Hsplit' : JS.split "/" (String "/" t ++ String "/" (".." ++ String "/" name))
                    = ("" :: (segs ++ [last]) ++ [".."; name])%list).
  { rewrite split_app_sep, <- Hroot.
    change (parent ++ "/" ++ last) with (parent ++ String "/" last). rewrite Hsplit.
    change (".." ++ String "/" name) with (".." ++ String "/" name).
    rewrite (split_app_sep "/" ".." name), (split_no_slash name Hnames). reflexivity. }
  assert (Hend : JS.endsWith (String "/" t ++ String "/" (".." ++ String "/" name)) "/" = false).
  { destruct (JS.endsWith _ "/") eqn:He; [|reflexivity].
    apply endsWith_iff in He. destruct He as [pre He].
    apply (f_equal (JS.split "/")) in He. rewrite Hsplit' in He.
    change (pre ++ "/") with (pre ++ String "/" "") in He.
    rewrite split_app_sep in He. cbn [JS.split] in He.
    assert (Hlast' : List.last (("" :: (segs ++ [last]) ++ [".."]) ++ [name])%list "x" = name)
      by apply last_last.
    replace ((("" :: (segs ++ [last]) ++ [".."]) ++ [name])%list)
      with ("" :: (segs ++ [last]) ++ [".."; name])%list in Hlast'
      by (cbn [app]; now rewrite <- !app_assoc).
    rewrite He, last_last in Hlast'. subst name. discriminate Hne. }
  unfold Path.normalize. cbn [append]. cbn [append] in Hend, Hsplit'.
  rewrite Hend. unfold Path.slash. rewrite Hsplit'.
  change (Ascii.eqb "/" "/") with true. cbn [negb].
  change (Path.normalizeSegments false [] ("" :: (segs ++ [last]) ++ [".."; name])%list)
    with (Path.normalizeSegments false [] ((segs ++ [last]) ++ ".." :: [name] ++ [])%list).
  rewrite (normalizeSegments_app_plain false (segs ++ [last]) _ [])
    by (rewrite forallb_app, Hplain; cbn [forallb]; now rewrite Hlast).
  rewrite rev_unit, app_nil_r. cbn [app].
  rewrite (normalizeSegments_pop false last (rev segs) _ Hlastdd).
  change (Path.normalizeSegments false (rev segs) [name])
    with (Path.normalizeSegments false (rev segs) ([name] ++ [])).
  rewrite (normalizeSegments_app_plain false [name] [] (rev segs))
    by (cbn [forallb]; now rewrite Hname).
  cbn [Path.normalizeSegments rev app]. rewrite rev_involutive.
  destruct name as [|c u]; [discriminate Hne|].
  destruct (joinWith_snoc_nonempty_aux segs c u Hplain) as [x [v Hbody]].
  rewrite Hbody, <- Hbody. symmetry. apply Hjoin.
Qed.


Lemma child_normal (parent x : string) :
  parent = "" \/ Path.isNormalAbsolute parent = true ->
  Path.plainSegment x = true ->
  forallb notSlash (list_ascii_of_string x) = true ->
  Path.isNormalAbsolute (parent ++ "/" ++ x) = true.
Proof.
  intros Hparent Hx Hxs.
  destruct (child_segments parent x Hparent Hxs) as [segs [Hsplit [Hplain _]]].
  unfold Path.isNormalAbsolute, Path.slash.
  change (parent ++ "/" ++ x) with (parent ++ String "/" x). rewrite Hsplit.
  assert (Hall : forallb Path.plainSegment (segs ++ [x]) = true).
  { rewrite forallb_app, Hplain. cbn [forallb]. now rewrite Hx. }
  destruct (segs ++ [x])%list as [|seg rest] eqn:Hsegs.
  - now destruct segs.
  - exact Hall.
Qed.

(** The name [repo-bytree] of the directory of the worktrees is a plain
    segment. *)
Lemma bytree_name_plain (r : string) :
  r <> "" -> forallb notSlashNorDot (list_ascii_of_string r) = true ->
  Path.plainSegment (r ++ "-bytree") = true
  /\ forallb notSlash (list_ascii_of_string (r ++ "-bytree")) = true.
Proof.
  intros Hr Hrs. split.
  - destruct r as [|c r]; [congruence|]. cbn [list_ascii_of_string forallb] in Hrs.
    apply andb_true_iff in Hrs. destruct Hrs as [Hc _].
    unfold notSlashNorDot in Hc. apply andb_true_iff in Hc. destruct Hc as [_ Hdot].
    apply negb_true_iff in Hdot. unfold Path.plainSegment. cbn [append String.eqb].
    rewrite Hdot. reflexivity.
  - rewrite list_ascii_app, forallb_app. apply andb_true_iff. split; [|reflexivity].
    rewrite forallb_forall in Hrs |- *. intros c Hc. specialize (Hrs c Hc).
    unfold notSlashNorDot in Hrs. apply andb_true_iff in Hrs. now destruct Hrs.
Qed.

(** X5: the commands [add] and [remove] place the worktree [name] of a
    repository at [parent/last], whose remote names it [repo], at
    [parent/repo-bytree/name]: in a directory beside the repository,
    named after the remote and not after the directory of the
    repository. *)
Theorem worktree_location :
  forall (parent last name : string) (info : repoInfo),
    parent = "" \/ Path.isNormalAbsolute parent = true ->
    Path.plainSegment last = true ->
    forallb notSlash (list_ascii_of_string last) = true ->
    repo info <> "" ->
    forallb notSlashNorDot (list_ascii_of_string (repo info)) = true ->
    Path.plainSegment name = true ->
    forallb notSlash (list_ascii_of_string name) = true ->
    worktreeBaseOf (parent ++ "/" ++ last) info = parent ++ "/" ++ repo info ++ "-bytree"
    /\ Path.join [worktreeBaseOf (parent ++ "/" ++ last) info; name]
       = parent ++ "/" ++ repo info ++ "-bytree" ++ "/" ++ name.
Proof.
  intros parent last name info Hparent Hlast Hlasts Hr Hrs Hname Hnames.
  destruct (bytree_name_plain (repo info) Hr Hrs) as [Hb Hbs].
  assert (Hbase : worktreeBaseOf (parent ++ "/" ++ last) info
                  = parent ++ "/" ++ repo info ++ "-bytree").
  { unfold worktreeBaseOf. now apply join_sibling. }
  split; [exact Hbase|]. rewrite Hbase.
  pose proof (child_normal parent _ Hparent Hb Hbs) as Hnb.
  pose proof (child_normal _ name (or_intror Hnb) Hname Hnames) as Hn.
  assert (Hne : name <> "") by (intros ->; discriminate Hname).
  assert (Hbne : parent ++ "/" ++ repo info ++ "-bytree" <> "").
  { destruct parent; discriminate. }
  rewrite (join_two _ _ Hbne Hne).
  replace (parent ++ "/" ++ repo info ++ "-bytree" ++ "/" ++ name)
    with ((parent ++ "/" ++ repo info ++ "-bytree") ++ "/" ++ name)
    by (now rewrite !append_assoc).
  now apply normalize_normal.
Qed.

(** A checkout of Next.js at [/home/dev/work]. *)
Lemma worktree_location_witness :
  worktreeBaseOf "/home/dev/work" {| owner := "vercel"; repo := "next" |}
  = "/home/dev/next-bytree"
  /\ Path.join [worktreeBaseOf "/home/dev/work" {| owner := "vercel"; repo := "next" |};
                "feature-x"]
     = "/home/dev/next-bytree/feature-x".
Proof.
  apply (worktree_location "/home/dev" "work" "feature-x"
           {| owner := "vercel"; repo := "next" |});
    try reflexivity; [right; reflexivity | discriminate].
Defined.

(** ** The patterns of the exclude file *)

Lemma trimEnd_idem (s : string) : JS.trimEnd (JS.trimEnd s) = JS.trimEnd s.
Proof.
  induction s as [|c s IH]; [reflexivity|]. cbn [JS.trimEnd].
  destruct (JS.trimEnd s) as [|d u] eqn:Hs.
  - destruct (JS.isWhiteSpace c) eqn:Hc; [reflexivity|]. cbn [JS.trimEnd]. now rewrite Hc.
  - change (JS.trimEnd (String c (String d u)))
      with (match JS.trimEnd (String d u) with
            | EmptyString => if JS.isWhiteSpace c then EmptyString else String c EmptyString
            | t => String c t
            end).
    now rewrite IH.
Qed.

Lemma trim_idem (s : string) : JS.trim (JS.trim s) = JS.trim s.
Proof.
  destruct (trim_spec s) as [before [after [_ [_ [_ [Hhead _]]]]]].
  unfold JS.trim at 1.
  assert (Hstart : JS.trimStart (JS.trim s) = JS.trim s).
  { revert Hhead. destruct (JS.trim s) as [|c u]; [reflexivity|].
    intros Hhead. cbn [JS.trimStart]. now rewrite Hhead. }
  rewrite Hstart. unfold JS.trim. apply trimEnd_idem.
Qed.

Lemma split_no_sep (sep : ascii) (s x : string) :
  In x (JS.split sep s) ->
  forallb (fun c => negb (Ascii.eqb c sep)) (list_ascii_of_string x) = true.
Proof.
  revert x; induction s as [|c s IH]; intros x; cbn [JS.split].
  - intros [<- | []]. reflexivity.
  - destruct (Ascii.eqb c sep) eqn:Hc.
    + intros [<- | Hx]; [reflexivity | now apply IH].
    + destruct (JS.split sep s) as [|w ws].
      * intros [<- | []]. cbn [list_ascii_of_string forallb]. now rewrite Hc.
      * intros [<- | Hx].
        -- cbn [list_ascii_of_string forallb]. rewrite Hc. apply IH. now left.
        -- apply IH. now right.
Qed.

Lemma trim_forallb (f : ascii -> bool) (s : string) :
  forallb f (list_ascii_of_string s) = true ->
  forallb f (list_ascii_of_string (JS.trim s)) = true.
Proof.
  destruct (trim_spec s) as [before [after [Hs _]]]. intros Hf.
  rewrite Hs, !list_ascii_app, !forallb_app in Hf.
  apply andb_true_iff in Hf. destruct Hf as [_ Hf].
  apply andb_true_iff in Hf. now destruct Hf.
Qed.

Lemma parseExclude_patterns (content p : string) :
  In p (parseExclude content) ->
  p <> "" /\ JS.startsWith p "#" = false /\ JS.trim p = p /\ singleLine p = true.
Proof.
  unfold parseExclude. rewrite pushPattern_fold. cbn [app].
  intros Hp. apply filter_In in Hp. destruct Hp as [Hp Hkeep].
  apply in_map_iff in Hp. destruct Hp as [line [<- Hline]].
  apply andb_true_iff in Hkeep. destruct Hkeep as [Hne Hhash].
  apply negb_true_iff in Hne, Hhash.
  split; [intros Heq; now rewrite Heq in Hne|].
  split; [exact Hhash|]. split; [apply trim_idem|].
  apply trim_forallb. exact (split_no_sep JS.LF content line Hline).
Qed.

(** X6: every pattern that [getExcludePatterns] returns is a trimmed
    line: it is not empty, does not start with [#], has no white space
    at either end (trimming it again changes nothing) and holds no line
    feed. *)
Theorem getExcludePatterns_trimmed :
  forall (W : Type) (E : Env W) (repoRoot : string) (st : state W)
         (patterns : list string) (p : string),
    fst (getExcludePatterns E repoRoot st) = Ok patterns ->
    In p patterns ->
    p <> "" /\ JS.startsWith p "#" = false /\ JS.trim p = p /\ singleLine p = true.
Proof.
  intros W E repoRoot st patterns p Hrun Hp.
  pose proof (getExcludePatterns_run E repoRoot st) as Hr.
  destruct (getGitDir E repoRoot st) as [[gitDir|e] st1]; [|contradiction].
  cbv zeta in Hr. rewrite Hr in Hrun.
  destruct (existsSync E _ (world st1)).
  - destruct (readFile E _ (world st1)) as [content|]; [|discriminate].
    cbn [fst] in Hrun. injection Hrun as <-. now apply (parseExclude_patterns content).
  - cbn [fst] in Hrun. injection Hrun as <-. destruct Hp.
Qed.

Lemma getExcludePatterns_trimmed_witness :
  fst (getExcludePatterns Ref.env "/r" (Ref.start Sample.w0)) = Ok ["/.claude/"; "/foo/"]
  /\ JS.trim "/foo/" = "/foo/".
Proof.
  split; [reflexivity|].
  exact (proj1 (proj2 (proj2
           (getExcludePatterns_trimmed Ref.World Ref.env "/r" (Ref.start Sample.w0)
              ["/.claude/"; "/foo/"] "/foo/" eq_refl (or_intror (or_introl eq_refl)))))).
Defined.

(** X7: the resolution raises in one case only: the exclude file is
    there and cannot be read (it is a directory, say), and the error is
    that of this read, the read of [gitDir/info/exclude].  A failure of
    git is never raised.  [copyExcludedFiles] then raises the same
    error, having run nothing but the query of the resolution. *)
Theorem findExcludedFiles_failure :
  forall (W : Type) (E : Env W) (repoRoot : string) (st : state W) (e : error),
    fst (findExcludedFiles E repoRoot st) = Throw e ->
    let st1 := snd (run E (GitCommonDir repoRoot) st) in
    let gitDir :=
      match fst (exec E (GitCommonDir repoRoot) (world st)) with
      | Some text => JS.trim text
      | None => Path.join [repoRoot; ".git"]
      end in
    let excludePath := Path.join [gitDir; "info"; "exclude"] in
    e = ReadError excludePath
    /\ existsSync E excludePath (world st1) = true
    /\ readFile E excludePath (world st1) = None
    /\ forall worktreePath,
         copyExcludedFiles E repoRoot worktreePath st = (Throw e, st1).
Proof.
  intros W E repoRoot st e Hrun st1 gitDir excludePath.
  assert (Hfind : findExcludedFiles E repoRoot st = (Throw e, st1)
                  /\ e = ReadError excludePath
                  /\ existsSync E excludePath (world st1) = true
                  /\ readFile E excludePath (world st1) = None).
  { rewrite findExcludedFiles_run in Hrun |- *.
    pose proof (getExcludePatterns_run E repoRoot st) as Hr.
    rewrite getGitDir_run in Hr. cbv zeta in Hr. fold gitDir st1 excludePath in Hr.
    rewrite Hr in Hrun |- *.
    destruct (existsSync E excludePath (world st1)); [|discriminate].
    destruct (readFile E excludePath (world st1)); [discriminate|].
    cbn [fst] in Hrun. injection Hrun as <-. repeat split. }
  destruct Hfind as [Hfind [He [Hex Hread]]].
  split; [exact He|]. split; [exact Hex|]. split; [exact Hread|].
  intros worktreePath. now rewrite copyExcludedFiles_run, Hfind.
Qed.

Lemma findExcludedFiles_failure_witness :
  fst (findExcludedFiles Ref.env "/r" (Ref.start SampleHost.unreadable))
  = Throw (ReadError ".git/info/exclude")
  /\ issued (snd (copyExcludedFiles Ref.env "/r" "/r-bytree/demo"
                    (Ref.start SampleHost.unreadable)))
     = [(GitCommonDir "/r", true)].
Proof.
  split; [reflexivity|].
  rewrite (proj2 (proj2 (proj2
             (findExcludedFiles_failure Ref.World Ref.env "/r"
                (Ref.start SampleHost.unreadable)
                (ReadError ".git/info/exclude") eq_refl))) "/r-bytree/demo").
  reflexivity.
Defined.

(** ** The exclude file is looked for from the working directory *)

Lemma join_below (dir : string) :
  Path.isNormalAbsolute dir = true ->
  Path.join [dir; ".git/info/exclude"] = dir ++ "/.git/info/exclude".
Proof.
  intros Hdir.
  pose proof (child_normal dir ".git" (or_intror Hdir) eq_refl eq_refl) as H1.
  pose proof (child_normal _ "info" (or_intror H1) eq_refl eq_refl) as H2.
  pose proof (child_normal _ "exclude" (or_intror H2) eq_refl eq_refl) as H3.
  assert (Heq : ((dir ++ "/" ++ ".git") ++ "/" ++ "info") ++ "/" ++ "exclude"
                = dir ++ "/" ++ ".git/info/exclude").
  { rewrite !append_assoc. reflexivity. }
  rewrite Heq in H3.
  rewrite join_two; [now apply normalize_normal | | discriminate].
  destruct (normal_segments dir Hdir) as [seg [segs [_ [_ ->]]]]. discriminate.
Qed.

(** X8: where git names the common directory [.git], as it does when
    asked at the root of the main working tree, [getExcludePatterns]
    looks for [.git/info/exclude], a relative path that does not
    mention the root it was given; so it is resolved against the
    working directory of the process.  In the reference world, a
    process that stands elsewhere, with no [.git/info/exclude] below
    its working directory, gets no pattern at all, whatever the exclude
    file of the repository holds. *)
Theorem getExcludePatterns_process_cwd :
  (forall (W : Type) (E : Env W) (repoRoot : string) (st : state W) (text : string),
     fst (exec E (GitCommonDir repoRoot) (world st)) = Some text ->
     JS.trim text = ".git" ->
     let w1 := snd (exec E (GitCommonDir repoRoot) (world st)) in
     fst (getExcludePatterns E repoRoot st)
     = if existsSync E ".git/info/exclude" w1 then
         match readFile E ".git/info/exclude" w1 with
         | Some content => Ok (parseExclude content)
         | None => Throw (ReadError ".git/info/exclude")
         end
       else Ok [])
  /\ (forall (w : Ref.World),
        Path.isNormalAbsolute (Ref.cwd w) = true ->
        Ref.pathExists w (Ref.cwd w ++ "/.git/info/exclude") = false ->
        fst (getExcludePatterns Ref.env (Ref.repo w) (Ref.start w)) = Ok []).
Proof.
  assert (Hgen : forall (W : Type) (E : Env W) (repoRoot : string) (st : state W)
                        (text : string),
             fst (exec E (GitCommonDir repoRoot) (world st)) = Some text ->
             JS.trim text = ".git" ->
             let w1 := snd (exec E (GitCommonDir repoRoot) (world st)) in
             fst (getExcludePatterns E repoRoot st)
             = if existsSync E ".git/info/exclude" w1 then
                 match readFile E ".git/info/exclude" w1 with
                 | Some content => Ok (parseExclude content)
                 | None => Throw (ReadError ".git/info/exclude")
                 end
               else Ok []).
  { intros W E repoRoot st text Hexec Htrim w1.
    pose proof (getExcludePatterns_run E repoRoot st) as Hr.
    rewrite getGitDir_run in Hr. cbv zeta in Hr. rewrite Hexec, Htrim in Hr.
    change (Path.join [".git"; "info"; "exclude"]) with ".git/info/exclude" in Hr.
    rewrite Hr.
    assert (Hw : world (snd (run E (GitCommonDir repoRoot) st)) = w1).
    { unfold run, w1. now destruct (exec E (GitCommonDir repoRoot) (world st)). }
    rewrite Hw. destruct (existsSync E ".git/info/exclude" w1); [|reflexivity].
    now destruct (readFile E ".git/info/exclude" w1). }
  split; [exact Hgen|].
  intros w Hcwd Hnone.
  rewrite (Hgen Ref.World Ref.env (Ref.repo w) (Ref.start w) (".git" ++ Sample.nl)).
  - cbn [Ref.start world Ref.env Ref.envWith exec Ref.execute snd existsSync].
    unfold Ref.absolute.
    change (JS.startsWith ".git/info/exclude" "/") with false. cbv iota.
    rewrite (join_below _ Hcwd), Hnone. reflexivity.
  - cbn [Ref.start world Ref.env Ref.envWith exec Ref.execute fst].
    now rewrite String.eqb_refl.
  - reflexivity.
Qed.

(** The process stands in the worktree [demo]: the exclude file of the
    repository has two patterns, and none is found. *)
Lemma getExcludePatterns_process_cwd_witness :
  Ref.lookup "/r/.git/info/exclude" (Ref.files SampleHost.inWorktree)
  = Some ("/.claude/" ++ Sample.nl ++ "# comment" ++ Sample.nl ++ Sample.nl
          ++ "/foo/" ++ Sample.nl)
  /\ fst (getExcludePatterns Ref.env (Ref.repo SampleHost.inWorktree)
            (Ref.start SampleHost.inWorktree)) = Ok [].
Proof.
  split; [reflexivity|].
  apply (proj2 getExcludePatterns_process_cwd SampleHost.inWorktree); reflexivity.
Defined.

(** ** [removeWorktree] *)

Lemma removeWorktree_run {W : Type} (E : Env W) (repoRoot worktreePath branch : string)
    (st : state W) :
  let remove := GitWorktreeRemoveForce repoRoot worktreePath in
  let delete := GitBranchDelete repoRoot branch in
  removeWorktree E repoRoot worktreePath branch st
  = (Ok tt,
     {| world := snd (exec E delete (snd (exec E remove (world st))));
        issued :=
          (issued st
           ++ [(remove, isSome (fst (exec E remove (world st))));
               (delete, isSome (fst (exec E delete (snd (exec E remove (world st))))))])%list
     |}).
Proof.
  intros remove delete. subst remove delete. unfold removeWorktree, bind, sh_nothrow, run.
  destruct (exec E (GitWorktreeRemoveForce repoRoot worktreePath) (world st)) as [o1 w1].
  cbn [snd fst world issued].
  destruct (exec E (GitBranchDelete repoRoot branch) w1) as [o2 w2].
  cbn [snd fst world issued].
  now rewrite <- app_assoc.
Qed.

Lemma inb_map_filter {A : Type} (g : A -> string) (f : A -> bool) (q : string)
    (l : list A) :
  Ref.inb q (map g l) = false -> Ref.inb q (map g (filter f l)) = false.
Proof.
  unfold Ref.inb. induction l as [|x l IH]; [reflexivity|]. cbn [map existsb filter].
  intros Hq. apply orb_false_iff in Hq. destruct Hq as [Hx Hl].
  destruct (f x); cbn [map existsb]; [rewrite Hx|]; now apply IH.
Qed.

Lemma inb_filter_path (p : string) (l : list (string * string)) :
  Ref.inb p (map fst (filter (fun x => negb (String.eqb (fst x) p)) l)) = false.
Proof.
  unfold Ref.inb. induction l as [|x l IH]; [reflexivity|]. cbn [filter].
  destruct (String.eqb (fst x) p) eqn:Hx; cbn [negb map existsb]; [exact IH|].
  rewrite String.eqb_sym, Hx. exact IH.
Qed.

Lemma within_refl (p : string) : Ref.within p p = true.
Proof. unfold Ref.within. now rewrite String.eqb_refl. Qed.

(** The forced removal of the worktree that was just added. *)
Lemma execute_remove_added (w3 : Ref.World) (r p b commit : string) :
  JS.startsWith p "/" = true ->
  String.eqb r (Ref.repo w3) = true ->
  Ref.execute (GitWorktreeRemoveForce r p)
    (Ref.setGit w3 (Ref.dirs w3 ++ [p]) (Ref.files w3)
       (Ref.branches w3 ++ [(b, commit)]) (Ref.linked w3 ++ [(p, b)]))
  = (Some "",
     Ref.setGit w3
       (filter (fun d => negb (Ref.within p d)) (Ref.dirs w3))
       (filter (fun f => negb (Ref.within p (fst f))) (Ref.files w3))
       (Ref.branches w3 ++ [(b, commit)])
       (filter (fun l => negb (String.eqb (fst l) p)) (Ref.linked w3))).
Proof.
  intros Hp Hrepo. rewrite (execute_remove _ _ _ Hp).
  assert (Hin : Ref.inb p (map fst (Ref.linked w3 ++ [(p, b)])) = true).
  { unfold Ref.inb. rewrite map_app, existsb_app. cbn [map fst existsb].
    now rewrite String.eqb_refl, orb_true_r. }
  unfold Ref.setGit at 1 2 3.
  cbn [Ref.repo Ref.linked Ref.dirs Ref.files Ref.branches Ref.head Ref.cwd].
  rewrite Hrepo, Hin. cbn [andb]. unfold Ref.setGit.
  cbn [Ref.repo Ref.linked Ref.dirs Ref.files Ref.branches Ref.head Ref.cwd
       Ref.originHead Ref.remoteBranches].
  rewrite !filter_app. cbn [filter fst]. rewrite within_refl, String.eqb_refl.
  cbn [negb]. now rewrite !app_nil_r.
Qed.

(** The deletion of its branch, once the worktree is removed. *)
Lemma execute_delete_added (w3 : Ref.World) (r b commit : string)
    (ds : list string) (fs ls : list (string * string)) :
  String.eqb r (Ref.repo w3) = true ->
  Ref.lookup b (Ref.branches w3) = None ->
  String.eqb b (Ref.head w3) = false ->
  Ref.inb b (map snd ls) = false ->
  Ref.execute (GitBranchDelete r b)
    (Ref.setGit w3 ds fs (Ref.branches w3 ++ [(b, commit)]) ls)
  = (Some "", Ref.setGit w3 ds fs (Ref.branches w3) ls).
Proof.
  intros Hrepo Hnone Hhead Hls. unfold Ref.execute, Ref.checkedOut.
  unfold Ref.setGit at 1 2 3 4.
  cbn [Ref.repo Ref.linked Ref.dirs Ref.files Ref.branches Ref.head Ref.cwd].
  rewrite Hrepo, (lookup_app_r b _ [(b, commit)] Hnone). cbn [Ref.lookup].
  rewrite String.eqb_refl, Hhead, Hls. cbn [isSome andb orb negb]. unfold Ref.setGit.
  cbn [Ref.repo Ref.linked Ref.dirs Ref.files Ref.branches Ref.head Ref.cwd
       Ref.originHead Ref.remoteBranches].
  rewrite filter_app. cbn [filter fst]. rewrite String.eqb_refl. cbn [negb].
  now rewrite app_nil_r, (lookup_none_filter b _ Hnone).
Qed.

(** X9: [removeWorktree] undoes [createWorktree].  In the reference
    world, after [createWorktree] has succeeded, [removeWorktree] with
    the path and the branch it returned runs its two commands with
    success; afterwards the branch is gone, no worktree is registered
    at the path, nothing exists there, and git's bookkeeping is
    consistent. *)
Theorem removeWorktree_undoes_createWorktree :
  forall (repoRoot worktreeBase name baseBranch : string)
         (st st1 : state Ref.World) (wt : worktree),
    JS.startsWith worktreeBase "/" = true ->
    Ref.wf (world st) ->
    createWorktree Ref.env repoRoot worktreeBase name baseBranch st = (Ok wt, st1) ->
    let removal := removeWorktree Ref.env repoRoot (path wt) (branch wt) st1 in
    fst removal = Ok tt
    /\ issued (snd removal)
       = (issued st1
          ++ [(GitWorktreeRemoveForce repoRoot (path wt), true);
              (GitBranchDelete repoRoot (branch wt), true)])%list
    /\ Ref.lookup (branch wt) (Ref.branches (world (snd removal))) = None
    /\ Ref.inb (path wt) (map fst (Ref.linked (world (snd removal)))) = false
    /\ Ref.pathExists (world (snd removal)) (path wt) = false
    /\ Ref.wf (world (snd removal)).
Proof.
  intros repoRoot worktreeBase name baseBranch st st1 wt Hbase Hwf Hrun.
  destruct (createWorktree_first_run repoRoot worktreeBase name baseBranch st st1 wt
              Hbase Hwf Hrun)
    as [w3 [commit [-> [Hwf3 [_ [_ [Hrepo [_ [Hnone [Hfree Hw1]]]]]]]]]].
  cbn [path branch].
  set (p := Path.join [worktreeBase; name]) in *.
  set (b := "bytree/" ++ name) in *.
  assert (Hp : JS.startsWith p "/" = true) by now apply join_absolute.
  pose proof (wf_not_checkedOut w3 b Hwf3 Hnone) as Hco.
  unfold Ref.checkedOut in Hco. apply orb_false_iff in Hco. destruct Hco as [Hhead Hlinked].
  rewrite removeWorktree_run. cbn [fst snd world issued].
  change (exec Ref.env) with Ref.execute.
  rewrite Hw1, (execute_remove_added w3 repoRoot p b commit Hp Hrepo). cbn [fst snd].
  rewrite (execute_delete_added w3 repoRoot b commit _ _ _ Hrepo Hnone Hhead
             (inb_map_filter snd _ b _ Hlinked)).
  cbn [fst snd isSome].
  cbn [Ref.setGit Ref.repo Ref.linked Ref.dirs Ref.files Ref.branches Ref.head Ref.cwd].
  split; [reflexivity|]. split; [reflexivity|]. split; [exact Hnone|].
  split; [apply inb_filter_path|]. split.
  - unfold Ref.pathExists, Ref.isDir, Ref.isFile.
    cbn [Ref.setGit Ref.dirs Ref.files].
    now rewrite inb_filter_gone, isFile_filter_gone.
  - apply (wf_fewer_linked w3 _ _ _ Hwf3).
Qed.

Lemma removeWorktree_undoes_createWorktree_witness :
  Ref.wf Sample.w0
  /\ Ref.lookup "bytree/demo"
       (Ref.branches
          (world (snd (removeWorktree Ref.env "/r" "/r-bytree/demo" "bytree/demo"
                         (snd (createWorktree Ref.env "/r" "/r-bytree" "demo" "main"
                                 (Ref.start Sample.w0))))))) = None.
Proof.
  assert (Hwf : Ref.wf Sample.w0) by (split; reflexivity).
  split; [exact Hwf|].
  exact (proj1 (proj2 (proj2
           (removeWorktree_undoes_createWorktree "/r" "/r-bytree" "demo" "main"
              (Ref.start Sample.w0)
              (snd (createWorktree Ref.env "/r" "/r-bytree" "demo" "main"
                      (Ref.start Sample.w0)))
              {| path := "/r-bytree/demo"; branch := "bytree/demo" |}
              eq_refl Hwf eq_refl)))).
Defined.

(** ** [listMyWorktrees] reads git's listing back *)

Lemma split_single (s : string) : singleLine s = true -> JS.split JS.LF s = [s].
Proof.
  unfold singleLine. induction s as [|c s IH]; [reflexivity|].
  cbn [list_ascii_of_string forallb JS.split]. intros Hs.
  apply andb_true_iff in Hs. destruct Hs as [Hc Hs].
  apply negb_true_iff in Hc. now rewrite Hc, (IH Hs).
Qed.

Lemma singleLine_app (a b : string) :
  singleLine (a ++ b) = singleLine a && singleLine b.
Proof. unfold singleLine. now rewrite list_ascii_app, forallb_app. Qed.

Lemma concat_cons (x : string) (xs : list string) :
  String.concat "" (x :: xs) = x ++ String.concat "" xs.
Proof. destruct xs; cbn [String.concat]; [now rewrite append_nil_r | reflexivity]. Qed.

(** The four lines of a stanza of git's listing. *)
Lemma stanza_split (w : Ref.World) (p b rest : string) :
  let commit := match Ref.lookup b (Ref.branches w) with Some c => c | None => "" end in
  singleLine p = true -> singleLine b = true -> singleLine commit = true ->
  JS.split JS.LF (Ref.stanza w p b ++ rest)
  = ("worktree " ++ p) :: ("HEAD " ++ commit) :: ("branch refs/heads/" ++ b) :: ""
    :: JS.split JS.LF rest.
Proof.
  intros commit Hp Hb Hc. unfold Ref.stanza. fold commit.
  assert (Hshape :
    ("worktree " ++ p ++ String JS.LF ("HEAD " ++ commit ++ String JS.LF
       ("branch refs/heads/" ++ b ++ String JS.LF (String JS.LF "")))) ++ rest
    = ("worktree " ++ p) ++ String JS.LF
        (("HEAD " ++ commit) ++ String JS.LF
           (("branch refs/heads/" ++ b) ++ String JS.LF (String JS.LF rest)))).
  { rewrite !append_assoc. cbn [append]. rewrite !append_assoc. cbn [append].
    rewrite !append_assoc. reflexivity. }
  rewrite Hshape, !split_app_sep.
  rewrite (split_single ("worktree " ++ p)) by (now rewrite singleLine_app, Hp).
  rewrite (split_single ("HEAD " ++ commit)) by (now rewrite singleLine_app, Hc).
  rewrite (split_single ("branch refs/heads/" ++ b)) by (now rewrite singleLine_app, Hb).
  reflexivity.
Qed.

(** What the loop of [listMyWorktrees] does with these four lines. *)
Lemma listStep_stanza (p b commit : string) (rest : list string) (s : listState) :
  fold_left listStep
    (("worktree " ++ p) :: ("HEAD " ++ commit) :: ("branch refs/heads/" ++ b) :: ""
     :: rest) s
  = fold_left listStep rest
      {| worktrees :=
           if JS.startsWith b "bytree/"
           then (worktrees s ++ [{| path := p; branch := b |}])%list
           else worktrees s;
         currentPath := p;
         currentBranch := b |}.
Proof.
  reflexivity.
Qed.

Lemma listing_parsed (w : Ref.World) (entries : list (string * string)) (s : listState) :
  forallb
    (fun l =>
       singleLine (fst l) && singleLine (snd l)
       && singleLine (match Ref.lookup (snd l) (Ref.branches w) with
                      | Some c => c
                      | None => ""
                      end)) entries = true ->
  worktrees
    (fold_left listStep
       (JS.split JS.LF
          (String.concat "" (map (fun l => Ref.stanza w (fst l) (snd l)) entries))) s)
  = (worktrees s
     ++ map (fun l => {| path := fst l; branch := snd l |})
          (filter (fun l => JS.startsWith (snd l) "bytree/") entries))%list.
Proof.
  revert s; induction entries as [|[p b] entries IH]; intros s Hall.
  - cbn [map String.concat JS.split fold_left filter]. unfold listStep.
    change (JS.startsWith "" "worktree ") with false.
    change (JS.startsWith "" "branch ") with false. cbv iota. now rewrite app_nil_r.
  - cbn [forallb fst snd] in Hall. apply andb_true_iff in Hall. destruct Hall as [Hl Hall].
    apply andb_true_iff in Hl. destruct Hl as [Hl Hc].
    apply andb_true_iff in Hl. destruct Hl as [Hp Hb].
    cbn [map fst snd]. rewrite concat_cons, (stanza_split w p b _ Hp Hb Hc).
    rewrite listStep_stanza, (IH _ Hall). cbn [worktrees filter snd].
    destruct (JS.startsWith b "bytree/"); cbn [map fst snd]; [|reflexivity].
    now rewrite <- app_assoc.
Qed.

Lemma listMyWorktrees_reference (st : state Ref.World) :
  listable (world st) = true ->
  fst (listMyWorktrees Ref.env (Ref.repo (world st)) st) = Ok (bytreeEntries (world st)).
Proof.
  intros Hall. unfold listMyWorktrees, bind, sh, run, ret.
  change (exec Ref.env) with Ref.execute. cbn [Ref.execute].
  rewrite String.eqb_refl. cbn [fst]. f_equal. unfold parseWorktreeList.
  apply (listing_parsed (world st) ((Ref.repo (world st), Ref.head (world st))
                                    :: Ref.linked (world st))).
  exact Hall.
Qed.

(** X10: [listMyWorktrees] reads git's listing back.  In the reference
    world, where git prints a stanza of four lines for every worktree,
    it returns exactly the worktrees whose branch starts with
    [bytree/], the main working tree included when it has such a
    branch checked out, each with its own path, in git's order. *)
Theorem listMyWorktrees_reads_back :
  forall (st : state Ref.World),
    listable (world st) = true ->
    fst (listMyWorktrees Ref.env (Ref.repo (world st)) st) = Ok (bytreeEntries (world st)).
Proof. exact listMyWorktrees_reference. Qed.

Lemma listMyWorktrees_reads_back_witness :
  listable SampleHost.inWorktree = true
  /\ fst (listMyWorktrees Ref.env "/r" (Ref.start SampleHost.inWorktree))
     = Ok [{| path := "/r-bytree/demo"; branch := "bytree/demo" |}].
Proof.
  split; [reflexivity|].
  exact (listMyWorktrees_reads_back (Ref.start SampleHost.inWorktree) eq_refl).
Defined.

(** X11: what [createWorktree] has created, [listMyWorktrees] lists.
    In the reference world, after [createWorktree] has succeeded, the
    listing holds the worktree it returned, and the name that the
    command [list] prints for it, the branch without its first
    [bytree/], is the name that was given. *)
Theorem createWorktree_then_listMyWorktrees :
  forall (repoRoot worktreeBase name baseBranch : string)
         (st st1 : state Ref.World) (wt : worktree),
    JS.startsWith worktreeBase "/" = true ->
    Ref.wf (world st) ->
    createWorktree Ref.env repoRoot worktreeBase name baseBranch st = (Ok wt, st1) ->
    listable (world st1) = true ->
    exists entries,
      fst (listMyWorktrees Ref.env repoRoot st1) = Ok entries
      /\ In wt entries
      /\ JS.replace (branch wt) "bytree/" "" = name.
Proof.
  intros repoRoot worktreeBase name baseBranch st st1 wt Hbase Hwf Hrun Hall.
  destruct (createWorktree_first_run repoRoot worktreeBase name baseBranch st st1 wt
              Hbase Hwf Hrun)
    as [w3 [commit [-> [_ [_ [_ [Hrepo [_ [_ [_ Hw1]]]]]]]]]].
  apply String.eqb_eq in Hrepo.
  assert (Hroot : repoRoot = Ref.repo (world st1)) by (now rewrite Hw1).
  exists (bytreeEntries (world st1)). split; [|split].
  - rewrite Hroot at 1. now apply listMyWorktrees_reference.
  - unfold bytreeEntries. apply in_map_iff.
    exists (Path.join [worktreeBase; name], "bytree/" ++ name). split; [reflexivity|].
    apply filter_In. split; [|apply (startsWith_append "bytree/" name)].
    right. rewrite Hw1. cbn [Ref.setGit Ref.linked]. apply in_or_app. right. now left.
  - cbn [branch]. apply replace_prefix.
Qed.

Lemma createWorktree_then_listMyWorktrees_witness :
  Ref.wf Sample.w0
  /\ exists entries,
       fst (listMyWorktrees Ref.env "/r"
              (snd (createWorktree Ref.env "/r" "/r-bytree" "demo" "main"
                      (Ref.start Sample.w0)))) = Ok entries
       /\ In {| path := "/r-bytree/demo"; branch := "bytree/demo" |} entries
       /\ JS.replace "bytree/demo" "bytree/" "" = "demo".
Proof.
  assert (Hwf : Ref.wf Sample.w0) by (split; reflexivity).
  split; [exact Hwf|].
  exact (createWorktree_then_listMyWorktrees "/r" "/r-bytree" "demo" "main"
           (Ref.start Sample.w0)
           (snd (createWorktree Ref.env "/r" "/r-bytree" "demo" "main"
                   (Ref.start Sample.w0)))
           {| path := "/r-bytree/demo"; branch := "bytree/demo" |}
           eq_refl Hwf eq_refl eq_refl).
Defined.

(** ** The replication leaves the repository as it is *)

Lemma grows_refl (w : Ref.World) : Ref.grows w w.
Proof.
  constructor; try reflexivity. apply forallb_forall. intros d Hd.
  assert (Hdir : Ref.isDir w d = true) by (now apply inb_iff).
  rewrite Hdir. now destruct (Ref.isFile w d).
Qed.

Lemma grows_trans (a b c : Ref.World) : Ref.grows a b -> Ref.grows b c -> Ref.grows a c.
Proof.
  intros [H1 H2 H3 H4 H5 H6] [K1 K2 K3 K4 K5 K6].
  constructor; try congruence.
  apply forallb_forall. intros d Hd.
  pose proof (proj1 (forallb_forall _ _) H6 d Hd) as Hab. cbv beta in Hab.
  apply orb_true_iff in Hab. destruct Hab as [Hfile | Hab]; [now rewrite Hfile|].
  apply andb_true_iff in Hab. destruct Hab as [Hdir Hnot].
  apply negb_true_iff in Hnot.
  pose proof (proj1 (forallb_forall _ _) K6 d (proj1 (inb_iff d (Ref.dirs b)) Hdir)) as Hbc.
  cbv beta in Hbc. rewrite Hnot in Hbc. cbn [orb] in Hbc. rewrite Hbc. apply orb_true_r.
Qed.

Lemma inb_app (q : string) (l l' : list string) :
  Ref.inb q (l ++ l') = Ref.inb q l || Ref.inb q l'.
Proof. unfold Ref.inb. apply existsb_app. Qed.

(** A [mkdir -p] or a [cp -r] changes nothing of git's, and leaves
    every directory a directory. *)
Lemma execute_copy_grows (c : cmd) (w : Ref.World) :
  isCopyCmd c = true -> Ref.grows w (snd (Ref.execute c w)).
Proof.
  destruct c as [r | r | r | r p | r b | r b p base | r | d | src dst];
    try discriminate; intros _; cbn [Ref.execute].
  - destruct (Ref.isFile w (Ref.absolute w d)); [apply grows_refl|].
    destruct (Ref.isDir w (Ref.absolute w d)); [apply grows_refl|]. cbn [snd].
    constructor; try reflexivity. apply forallb_forall. intros q Hq.
    assert (Hdir : Ref.inb q (Ref.dirs w) = true) by (now apply inb_iff).
    unfold Ref.isDir, Ref.isFile. cbn [Ref.setFs Ref.dirs Ref.files].
    rewrite inb_app, Hdir. cbn [orb andb].
    now destruct (Ref.inb q (map fst (Ref.files w))).
  - destruct (Ref.lookup (Ref.absolute w src) (Ref.files w)) as [content|];
      [|apply grows_refl].
    destruct (Ref.isDir w (Path.dirname (Ref.absolute w dst))); [|apply grows_refl].
    destruct (Ref.isDir w (Ref.absolute w dst)) eqn:Hdst; [apply grows_refl|].
    cbn [negb andb snd]. constructor; try reflexivity.
    apply forallb_forall. intros q Hq.
    assert (Hdir : Ref.isDir w q = true) by (now apply inb_iff).
    unfold Ref.isDir at 1. unfold Ref.isFile at 2.
    cbn [Ref.setFs Ref.dirs Ref.files]. fold (Ref.isDir w q). rewrite Hdir.
    destruct (Ref.isFile w q) eqn:Hfile; [reflexivity|]. cbn [orb andb].
    rewrite map_app, inb_app. cbn [map fst].
    rewrite (isFile_filter_sub w q _ _ Hfile). unfold Ref.inb. cbn [existsb orb].
    destruct (String.eqb q (Ref.absolute w dst)) eqn:Heq; [|reflexivity].
    apply String.eqb_eq in Heq. subst q. congruence.
Qed.

Lemma copyLoop_grows (valid : string -> bool) (gone : list string)
    (repoRoot worktreePath : string) (files copied : list string)
    (st : state Ref.World) :
  Ref.grows (world st)
    (world (snd (copyLoop (Ref.envWith valid gone) repoRoot worktreePath files copied st))).
Proof.
  revert copied st; induction files as [|file files IH]; intros copied st.
  - apply grows_refl.
  - cbn [copyLoop]. unfold bind at 1. rewrite sh_run.
    change (exec (Ref.envWith valid gone)) with Ref.execute.
    pose proof (execute_copy_grows
                  (MkdirP (Path.dirname (Path.join [worktreePath; file]))) (world st)
                  eq_refl) as H1.
    destruct (Ref.execute (MkdirP (Path.dirname (Path.join [worktreePath; file])))
                (world st)) as [[t1|] w1]; cbn [snd] in H1; [|exact H1].
    unfold bind at 1. rewrite sh_run. cbn [world issued].
    change (exec (Ref.envWith valid gone)) with Ref.execute.
    pose proof (execute_copy_grows
                  (CpR (Path.join [repoRoot; file]) (Path.join [worktreePath; file])) w1
                  eq_refl) as H2.
    destruct (Ref.execute
                (CpR (Path.join [repoRoot; file]) (Path.join [worktreePath; file])) w1)
      as [[t2|] w2]; cbn [snd] in H2; [|exact (grows_trans _ _ _ H1 H2)].
    apply (grows_trans _ _ _ H1). apply (grows_trans _ _ _ H2).
    exact (IH (copied ++ [file])%list
              {| world := w2;
                 issued := ((issued st
                             ++ [(MkdirP (Path.dirname (Path.join [worktreePath; file])),
                                  true)])
                            ++ [(CpR (Path.join [repoRoot; file])
                                   (Path.join [worktreePath; file]), true)])%list |}).
Qed.

Lemma copyExcludedFiles_grows_world (valid : string -> bool) (gone : list string)
    (repoRoot worktreePath : string) (st : state Ref.World) :
  Ref.grows (world st)
    (world (snd (copyExcludedFiles (Ref.envWith valid gone) repoRoot worktreePath st))).
Proof.
  rewrite copyExcludedFiles_run.
  destruct (findExcludedFiles (Ref.envWith valid gone) repoRoot st) as [r st1] eqn:Hfind.
  pose proof (findExcludedFiles_log _ _ _ _ _ Hfind) as Hst1.
  assert (Hw : world st1 = world st).
  { rewrite Hst1. unfold run. change (exec (Ref.envWith valid gone)) with Ref.execute.
    cbn [Ref.execute]. reflexivity. }
  destruct r as [files|e]; cbn [snd].
  - rewrite <- Hw. apply copyLoop_grows.
  - rewrite Hw. apply grows_refl.
Qed.

Lemma inb_filter_other (q d : string) (l : list (string * string)) :
  String.eqb q d = false ->
  Ref.inb q (map fst (filter (fun f => negb (String.eqb (fst f) d)) l))
  = Ref.inb q (map fst l).
Proof.
  intros Hq. unfold Ref.inb. induction l as [|[k v] l IH]; [reflexivity|].
  cbn [filter fst map existsb]. destruct (String.eqb k d) eqn:Hk; cbn [negb].
  - apply String.eqb_eq in Hk. subst k. now rewrite Hq, IH.
  - cbn [map fst existsb]. now rewrite IH.
Qed.

(** What a [mkdir -p] or a [cp -r] leaves of the regular files: none is
    removed, and none but the destination of the copy is written. *)
Lemma execute_copy_files (c : cmd) (w : Ref.World) :
  isCopyCmd c = true ->
  Ref.cwd (snd (Ref.execute c w)) = Ref.cwd w
  /\ (forall q, Ref.isFile w q = true -> Ref.isFile (snd (Ref.execute c w)) q = true)
  /\ (forall q,
        match c with
        | CpR _ dst => q <> Ref.absolute w dst
        | _ => True
        end ->
        Ref.lookup q (Ref.files (snd (Ref.execute c w))) = Ref.lookup q (Ref.files w)).
Proof.
  destruct c as [r | r | r | r p | r b | r b p base | r | d | src dst];
    try discriminate; intros _; cbn [Ref.execute].
  - destruct (Ref.isFile w (Ref.absolute w d)); [now repeat split|].
    destruct (Ref.isDir w (Ref.absolute w d)); now repeat split.
  - destruct (Ref.lookup (Ref.absolute w src) (Ref.files w)) as [content|];
      [|now repeat split].
    destruct (Ref.isDir w (Path.dirname (Ref.absolute w dst))
              && negb (Ref.isDir w (Ref.absolute w dst))); [|now repeat split].
    cbn [snd]. split; [reflexivity|]. split.
    + intros q Hq. unfold Ref.isFile in Hq |- *. cbn [Ref.setFs Ref.files].
      rewrite map_app, inb_app. cbn [map fst]. unfold Ref.inb at 2. cbn [existsb].
      destruct (String.eqb q (Ref.absolute w dst)) eqn:Heq;
        [apply orb_true_r|].
      now rewrite (inb_filter_other q _ _ Heq), Hq.
    + intros q Hq. apply String.eqb_neq in Hq. cbn [Ref.setFs Ref.files].
      destruct (Ref.lookup q (Ref.files w)) as [v|] eqn:Hv.
      * apply lookup_app_l. now rewrite (lookup_filter_other q _ _ Hq).
      * rewrite lookup_app_r by (now rewrite (lookup_filter_other q _ _ Hq)).
        cbn [Ref.lookup]. now rewrite Hq.
Qed.

Lemma copyLoop_files (valid : string -> bool) (gone : list string)
    (repoRoot worktreePath : string) (files acc : list string)
    (st st' : state Ref.World) (r : result (list string)) :
  copyLoop (Ref.envWith valid gone) repoRoot worktreePath files acc st = (r, st') ->
  Ref.cwd (world st') = Ref.cwd (world st)
  /\ (forall q, Ref.isFile (world st) q = true -> Ref.isFile (world st') q = true)
  /\ (forall q,
        (forall f, In f files ->
                   q <> Ref.absolute (world st) (Path.join [worktreePath; f])) ->
        Ref.lookup q (Ref.files (world st')) = Ref.lookup q (Ref.files (world st))).
Proof.
  revert acc st; induction files as [|file files IH]; intros acc st Hrun.
  - cbn [copyLoop] in Hrun. unfold ret in Hrun. injection Hrun as _ <-. now repeat split.
  - cbn [copyLoop] in Hrun. unfold bind at 1 in Hrun. rewrite sh_run in Hrun.
    change (exec (Ref.envWith valid gone)) with Ref.execute in Hrun.
    destruct (execute_copy_files
                (MkdirP (Path.dirname (Path.join [worktreePath; file]))) (world st)
                eq_refl) as [Hc1 [Hf1 Hl1]].
    destruct (Ref.execute (MkdirP (Path.dirname (Path.join [worktreePath; file])))
                (world st)) as [[t1|] w1]; cbn [snd] in Hc1, Hf1, Hl1.
    2:{ injection Hrun as _ <-. cbn [world]. split; [exact Hc1|]. split; [exact Hf1|].
        intros q _. now apply Hl1. }
    unfold bind at 1 in Hrun. rewrite sh_run in Hrun. cbn [world issued] in Hrun.
    change (exec (Ref.envWith valid gone)) with Ref.execute in Hrun.
    destruct (execute_copy_files
                (CpR (Path.join [repoRoot; file]) (Path.join [worktreePath; file])) w1
                eq_refl) as [Hc2 [Hf2 Hl2]].
    destruct (Ref.execute
                (CpR (Path.join [repoRoot; file]) (Path.join [worktreePath; file])) w1)
      as [[t2|] w2]; cbn [snd] in Hc2, Hf2, Hl2.
    2:{ injection Hrun as _ <-. cbn [world]. split; [congruence|]. split; [now auto|].
        intros q Hq. rewrite Hl2, Hl1; [reflexivity | exact I |].
        unfold Ref.absolute. rewrite Hc1. apply Hq. now left. }
    destruct (IH _ _ Hrun) as [Hc3 [Hf3 Hl3]]. cbn [world] in Hc3, Hf3, Hl3.
    split; [congruence|]. split; [now auto|]. intros q Hq.
    rewrite Hl3, Hl2, Hl1; [reflexivity | exact I | |].
    + unfold Ref.absolute. rewrite Hc1. apply Hq. now left.
    + intros f Hf. unfold Ref.absolute. rewrite Hc2, Hc1. apply Hq. now right.
Qed.

(** X12: in the reference world, [copyExcludedFiles] changes nothing of
    git's (the branches, the worktrees, what is checked out), whether
    it succeeds or raises on the way.  Every directory remains a
    directory and every regular file a regular file; and a path that is
    no destination [worktreePath/file] of a resolved file, nor lies
    below one, holds the content it held.  (A regular file at a
    destination is overwritten.) *)
Theorem copyExcludedFiles_frame :
  forall (valid : string -> bool) (gone : list string)
         (repoRoot worktreePath : string) (st : state Ref.World),
    let w := world st in
    let run := copyExcludedFiles (Ref.envWith valid gone) repoRoot worktreePath st in
    let w' := world (snd run) in
    let resolved :=
      match fst (findExcludedFiles (Ref.envWith valid gone) repoRoot st) with
      | Ok files => files
      | Throw _ => []
      end in
    Ref.grows w w'
    /\ (forall q, Ref.isFile w q = true -> Ref.isFile w' q = true)
    /\ (forall q,
          forallb (fun f =>
                     negb (Ref.within (Ref.absolute w (Path.join [worktreePath; f])) q))
            resolved = true ->
          Ref.lookup q (Ref.files w') = Ref.lookup q (Ref.files w)).
Proof.
  intros valid gone repoRoot worktreePath st w run w' resolved.
  split; [apply copyExcludedFiles_grows_world|].
  unfold w', run, resolved. rewrite copyExcludedFiles_run.
  destruct (findExcludedFiles (Ref.envWith valid gone) repoRoot st) as [r st1] eqn:Hfind.
  pose proof (findExcludedFiles_log _ _ _ _ _ Hfind) as Hst1.
  assert (Hw : world st1 = w).
  { rewrite Hst1. unfold run. change (exec (Ref.envWith valid gone)) with Ref.execute.
    cbn [Ref.execute]. reflexivity. }
  destruct r as [files|e]; cbn [fst snd].
  - destruct (copyLoop (Ref.envWith valid gone) repoRoot worktreePath files [] st1)
      as [r st2] eqn:Hloop.
    destruct (copyLoop_files valid gone repoRoot worktreePath files [] st1 st2 r Hloop)
      as [_ [Hfiles Hlookup]].
    cbn [snd]. rewrite Hw in Hfiles, Hlookup. split; [exact Hfiles|].
    intros q Hq. apply Hlookup. intros f Hf ->.
    rewrite forallb_forall in Hq. specialize (Hq f Hf).
    now rewrite within_refl in Hq.
  - rewrite Hw. now split.
Qed.

(** [bytree add demo] in [Sample.w0]: the sources are as they were. *)
Lemma copyExcludedFiles_frame_witness :
  let created :=
    snd (createWorktree Ref.env "/r" "/r-bytree" "demo" "main" (Ref.start Sample.w0)) in
  let copied := snd (copyExcludedFiles Ref.env "/r" "/r-bytree/demo" created) in
  fst (findExcludedFiles Ref.env "/r" created)
  = Ok [".claude/settings.json"; ".claude/cache/tmp.bin"; "foo/a"; "foo/b/c"]
  /\ Ref.lookup "/r/foo/a" (Ref.files (world copied))
     = Ref.lookup "/r/foo/a" (Ref.files (world created)).
Proof.
  cbv zeta. split; [reflexivity|].
  apply (proj2 (proj2
           (copyExcludedFiles_frame (fun _ => true) [] "/r" "/r-bytree/demo"
              (snd (createWorktree Ref.env "/r" "/r-bytree" "demo" "main"
                      (Ref.start Sample.w0)))))
           "/r/foo/a").
  vm_compute. reflexivity.
Defined.

(** ** The command line *)

(** X13: a version flag anywhere among the arguments wins over
    everything else, [--help] and the commands included: [main] prints
    [0.1.0] and exits with status 0.  Without one, no argument at all
    or a help flag anywhere makes it print the help text and exit with
    status 0.  In both cases no subprocess is run. *)
Theorem main_flags :
  forall (W : Type) (H : Host W) (args : list string) (s : session W),
    (hasArg "--version" args || hasArg "-v" args = true ->
     main H args s
     = (0, {| now := now s; trace := trace s;
              console := (console s ++ [Stdout "0.1.0"])%list |}))
    /\ (hasArg "--version" args || hasArg "-v" args = false ->
        args = [] \/ hasArg "--help" args || hasArg "-h" args = true ->
        main H args s
        = (0, {| now := now s; trace := trace s;
                 console := (console s ++ [Stdout (HELP H)])%list |})).
Proof.
  intros W H args s. unfold main. split.
  - intros Hv. rewrite Hv. reflexivity.
  - intros Hv Hh. rewrite Hv.
    assert (Hcond : Nat.eqb (List.length args) 0 || hasArg "--help" args
                    || hasArg "-h" args = true).
    { destruct Hh as [-> | Hh]; [reflexivity|].
      rewrite <- orb_assoc, Hh. apply orb_true_r. }
    rewrite Hcond. reflexivity.
Qed.

(** [bytree remove demo --help -v] prints the version; [bytree add -h]
    prints the help text. *)
Lemma main_flags_witness :
  main SampleHost.nextjs ["remove"; "demo"; "--help"; "-v"] (RefHost.start Sample.w0)
  = (0, {| now := Sample.w0; trace := []; console := [Stdout "0.1.0"] |})
  /\ main SampleHost.nextjs ["add"; "-h"] (RefHost.start Sample.w0)
     = (0, {| now := Sample.w0; trace := [];
              console := [Stdout (HELP SampleHost.nextjs)] |}).
Proof.
  split.
  - apply (proj1 (main_flags Ref.World SampleHost.nextjs
                    ["remove"; "demo"; "--help"; "-v"] (RefHost.start Sample.w0))).
    reflexivity.
  - apply (proj2 (main_flags Ref.World SampleHost.nextjs ["add"; "-h"]
                    (RefHost.start Sample.w0))).
    + reflexivity.
    + right. reflexivity.
Defined.

(** X14: without a flag, [add] or [remove] with no name, or with the
    empty name, writes two lines to the standard error and exits with
    status 1; and a first argument that is no command writes one line
    to the standard error, the help text to the standard output, and
    exits with status 1.  In both cases no subprocess is run. *)
Theorem main_usage_errors :
  forall (W : Type) (H : Host W) (command : string) (rest : list string) (s : session W),
    let args := command :: rest in
    hasArg "--version" args || hasArg "-v" args = false ->
    hasArg "--help" args || hasArg "-h" args = false ->
    (command = "add" \/ command = "remove" ->
     falsy (nth_error rest 0) = true ->
     main H args s
     = (1, {| now := now s; trace := trace s;
              console :=
                (console s
                 ++ [Stderr (chalk H Red "Error: Name required");
                     Stderr (chalk H Gray ("Usage: bytree " ++ command ++ " <name>"))])%list
           |}))
    /\ (~ In command ["add"; "remove"; "list"; "excluded"] ->
        main H args s
        = (1, {| now := now s; trace := trace s;
                 console :=
                   (console s
                    ++ [Stderr (chalk H Red ("Error: Unknown command: " ++ command));
                        Stdout (HELP H)])%list |})).
Proof.
  intros W H command rest s args Hv Hh. unfold main. fold args. rewrite Hv.
  assert (Hcond : Nat.eqb (List.length args) 0 || hasArg "--help" args
                  || hasArg "-h" args = false).
  { rewrite <- orb_assoc, Hh. reflexivity. }
  rewrite Hcond. unfold args. cbn [nth_error]. split.
  - intros [-> | ->] Hname.
    + change (String.eqb "add" "add") with true. cbv iota.
      destruct rest as [|name rest']; cbn [nth_error] in Hname |- *; now rewrite Hname.
    + change (String.eqb "remove" "add") with false.
      change (String.eqb "remove" "remove") with true. cbv iota.
      destruct rest as [|name rest']; cbn [nth_error] in Hname |- *; now rewrite Hname.
  - intros Hno.
    assert (Hneq : forall c, In c ["add"; "remove"; "list"; "excluded"] ->
                             String.eqb command c = false).
    { intros c Hc. apply String.eqb_neq. intros ->. now apply Hno. }
    rewrite (Hneq "add"), (Hneq "remove"), (Hneq "list"), (Hneq "excluded");
      cbn [In]; auto 6.
    unfold exitWith, consoleLog, consoleError. cbn [snd now trace console].
    now rewrite <- app_assoc.
Qed.

Lemma main_usage_errors_witness :
  main SampleHost.nextjs ["remove"] (RefHost.start Sample.w0)
  = (1, {| now := Sample.w0; trace := [];
           console := [Stderr "Error: Name required";
                       Stderr "Usage: bytree remove <name>"] |})
  /\ main SampleHost.nextjs ["rm"; "demo"] (RefHost.start Sample.w0)
     = (1, {| now := Sample.w0; trace := [];
              console := [Stderr "Error: Unknown command: rm";
                          Stdout (HELP SampleHost.nextjs)] |}).
Proof.
  split.
  - apply (proj1 (main_usage_errors Ref.World SampleHost.nextjs "remove" []
                    (RefHost.start Sample.w0) eq_refl eq_refl)).
    + now right.
    + reflexivity.
  - apply (proj2 (main_usage_errors Ref.World SampleHost.nextjs "rm" ["demo"]
                    (RefHost.start Sample.w0) eq_refl eq_refl)).
    cbn [In]. intros [Hc | [Hc | [Hc | [Hc | []]]]]; discriminate Hc.
Defined.

(** X15: [remove] reports success whatever git answers.  Once the root
    and the remote of the repository are known, the command runs the
    two commands of [removeWorktree] at [worktrees/name], prints
    [Removed name] and exits with status 0, whether or not there was
    such a worktree or such a branch, and whether or not git could
    remove them. *)
Theorem remove_reports_success :
  forall (W : Type) (H : Host W) (name : string) (rest : list string)
         (s s1 s2 : session W) (root : string) (info : repoInfo),
    let args := "remove" :: name :: rest in
    hasArg "--version" args || hasArg "-v" args = false ->
    hasArg "--help" args || hasArg "-h" args = false ->
    name <> "" ->
    getRepoRoot H (processCwd H (now s)) s = (Done root, s1) ->
    getRepoInfo H root s1 = (Done info, s2) ->
    let remove :=
      GitWorktreeRemoveForce root (Path.join [worktreeBaseOf root info; name]) in
    let delete := GitBranchDelete root ("bytree/" ++ name) in
    let removed := exec (env H) remove (now s2) in
    let deleted := exec (env H) delete (snd removed) in
    main H args s
    = (0, {| now := snd deleted;
             trace := (trace s2 ++ [(Lib remove, isSome (fst removed));
                                    (Lib delete, isSome (fst deleted))])%list;
             console := (console s2
                         ++ [Stdout ""; Stdout (chalk H CyanBold "bytree remove");
                             Stdout "";
                             Stdout (chalk H Green (checkMark ++ " Removed " ++ name))])%list
          |}).
Proof.
  intros W H name rest s s1 s2 root info args Hv Hh Hname Hroot Hinfo
         remove delete removed deleted.
  unfold main. fold args. rewrite Hv.
  assert (Hcond : Nat.eqb (List.length args) 0 || hasArg "--help" args
                  || hasArg "-h" args = false).
  { rewrite <- orb_assoc, Hh. reflexivity. }
  rewrite Hcond. unfold args. cbn [nth_error falsy].
  change (String.eqb "remove" "add") with false.
  change (String.eqb "remove" "remove") with true. cbv iota.
  apply String.eqb_neq in Hname. rewrite Hname.
  unfold guarded, removeCommand, andThen, cwdOfProcess. rewrite Hroot, Hinfo.
  unfold consoleLog, call. cbn [now trace console].
  rewrite removeWorktree_run. cbn [world issued map fst snd].
  fold remove delete. fold removed. fold deleted.
  cbn [now trace console app map fst snd]. now rewrite <- !app_assoc.
Qed.

(** [bytree remove nothing] where there is no such worktree: git
    refuses both commands, and the command reports the removal. *)
Lemma remove_reports_success_witness :
  main SampleHost.nextjs ["remove"; "nothing"] (RefHost.start Sample.w0)
  = (0, {| now := Sample.w0;
           trace := [(Lib (GitCommonDir "/r"), true);
                     (Query (GitShowToplevel "/r"), true);
                     (Query (GitRemoteGetUrl "/r"), true);
                     (Lib (GitWorktreeRemoveForce "/r" "/next-bytree/nothing"), false);
                     (Lib (GitBranchDelete "/r" "bytree/nothing"), false)];
           console := [Stdout ""; Stdout "bytree remove"; Stdout "";
                       Stdout (checkMark ++ " Removed nothing")] |}).
Proof.
  apply (remove_reports_success Ref.World SampleHost.nextjs "nothing" []
           (RefHost.start Sample.w0)
           (snd (getRepoRoot SampleHost.nextjs "/r" (RefHost.start Sample.w0)))
           (snd (getRepoInfo SampleHost.nextjs "/r"
                   (snd (getRepoRoot SampleHost.nextjs "/r" (RefHost.start Sample.w0)))))
           "/r" {| owner := "vercel"; repo := "next" |});
    try reflexivity.
  discriminate.
Defined.

(** X16: the name that [add] takes is the second argument, whatever it
    is, and the base branch is the argument after the first [--base].
    So [bytree add --base main] creates a worktree named [--base] from
    [main]; after a name, the base is what follows the first [--base]
    among the remaining arguments, and there is none when nothing
    follows it or when there is no [--base]. *)
Theorem add_reads_arguments :
  forall (W : Type) (H : Host W) (name : string) (rest : list string) (s : session W),
    let args := "add" :: name :: rest in
    hasArg "--version" args || hasArg "-v" args = false ->
    hasArg "--help" args || hasArg "-h" args = false ->
    name <> "" ->
    main H args s
    = guarded H
        (addCommand H name
           (if String.eqb name "--base" then nth_error rest 0
            else match indexOf "--base" rest with
                 | Some i => nth_error rest (S i)
                 | None => None
                 end)) s.
Proof.
  intros W H name rest s args Hv Hh Hname. unfold main. fold args. rewrite Hv.
  assert (Hcond : Nat.eqb (List.length args) 0 || hasArg "--help" args
                  || hasArg "-h" args = false).
  { rewrite <- orb_assoc, Hh. reflexivity. }
  rewrite Hcond. unfold args. cbn [nth_error falsy].
  change (String.eqb "add" "add") with true. cbv iota.
  apply String.eqb_neq in Hname. rewrite Hname. f_equal. f_equal.
  cbn [indexOf]. change (String.eqb "add" "--base") with false. cbv iota.
  destruct (String.eqb name "--base"); [reflexivity|].
  destruct (indexOf "--base" rest) as [i|]; [|reflexivity].
  cbn [Nat.add nth_error]. now rewrite Nat.add_1_r.
Qed.

(** [bytree add --base main]: the worktree is called [--base]. *)
Lemma add_reads_arguments_witness :
  main SampleHost.nextjs ["add"; "--base"; "main"] (RefHost.start Sample.w0)
  = guarded SampleHost.nextjs (addCommand SampleHost.nextjs "--base" (Some "main"))
      (RefHost.start Sample.w0)
  /\ In (Lib (GitWorktreeAdd "/r" "bytree/--base" "/next-bytree/--base" "main"), true)
        (trace (snd (main SampleHost.nextjs ["add"; "--base"; "main"]
                       (RefHost.start Sample.w0)))).
Proof.
  split.
  - apply (add_reads_arguments Ref.World SampleHost.nextjs "--base" ["main"]
             (RefHost.start Sample.w0)); [reflexivity | reflexivity | discriminate].
  - vm_compute. tauto.
Defined.

(** The subprocesses of [copyExcludedFiles]: the query of the
    resolution, then [mkdir -p] and [cp -r]. *)
Lemma copyExcludedFiles_commands {W : Type} (E : Env W) (repoRoot worktreePath : string)
    (st st' : state W) (r : result (list string)) :
  copyExcludedFiles E repoRoot worktreePath st = (r, st') ->
  exists added,
    issued st' = (issued st ++ added)%list
    /\ forall c ok, In (c, ok) added -> c = GitCommonDir repoRoot \/ isCopyCmd c = true.
Proof.
  rewrite copyExcludedFiles_run.
  destruct (findExcludedFiles E repoRoot st) as [found st1] eqn:Hfind.
  pose proof (findExcludedFiles_log _ _ _ _ _ Hfind) as Hst1.
  assert (Hlog : issued st1
                 = (issued st
                    ++ [(GitCommonDir repoRoot,
                         isSome (fst (exec E (GitCommonDir repoRoot) (world st))))])%list).
  { rewrite Hst1. unfold run.
    now destruct (exec E (GitCommonDir repoRoot) (world st)). }
  assert (Hcopies : forall files c ok,
             In (c, ok) (succeeded (flat_map (copyCmds repoRoot worktreePath) files)) ->
             isCopyCmd c = true).
  { intros files c ok Hin. unfold succeeded in Hin. apply in_map_iff in Hin.
    destruct Hin as [c' [[= <- _] Hin]]. apply in_flat_map in Hin.
    destruct Hin as [file [_ Hin]]. cbn [copyCmds In] in Hin.
    destruct Hin as [<- | [<- | []]]; reflexivity. }
  destruct found as [files|e].
  - intros Hloop. pose proof (copyLoop_run E repoRoot worktreePath files [] st1) as Hr.
    rewrite Hloop in Hr. destruct r as [out|e].
    + destruct Hr as [_ Hissued]. eexists. split.
      * rewrite Hissued, Hlog, <- app_assoc. reflexivity.
      * intros c ok Hin. cbn [app In] in Hin. destruct Hin as [[= <- _] | Hin]; [now left|].
        right. exact (Hcopies _ _ _ Hin).
    + destruct Hr as [done [file [rest [_ Hr]]]]. cbv zeta in Hr.
      destruct Hr as [[_ Hissued] | [_ Hissued]]; eexists; (split;
        [rewrite Hissued, Hlog, <- app_assoc; reflexivity|]);
        intros c ok Hin; cbn [app In] in Hin;
        (destruct Hin as [[= <- _] | Hin]; [now left|]); right;
        apply in_app_or in Hin; destruct Hin as [Hin | Hin];
        try exact (Hcopies _ _ _ Hin); cbn [In] in Hin.
      * destruct Hin as [[= <- _] | []]. reflexivity.
      * destruct Hin as [[= <- _] | [[= <- _] | []]]; reflexivity.
  - intros [= <- <-]. eexists. split; [exact Hlog|].
    intros c ok Hin. cbn [In] in Hin. destruct Hin as [[= <- _] | []]. now left.
Qed.

(** X17: [add] undoes nothing.  Whether the base branch was given or
    detected: when the worktree has been created and the replication
    then raises, the command has printed that the worktree was created,
    writes the error to the standard error and exits with status 1;
    after the creation it has run the query of the resolution and copy
    commands only: the new worktree and its branch are left as they
    are, with the entries copied so far. *)
Theorem add_undoes_nothing :
  forall (W : Type) (H : Host W) (name : string) (baseBranch : option string)
         (s s1 s2 s3 : session W) (root base : string) (info : repoInfo)
         (wt : worktree) (st4 st5 : state W) (e : error),
    getRepoRoot H (processCwd H (now s)) s = (Done root, s1) ->
    getRepoInfo H root s1 = (Done info, s2) ->
    (baseBranch = Some base /\ base <> "" /\ s3 = s2)
    \/ (falsy baseBranch = true
        /\ call (getDefaultBranch (env H) root) s2 = (Done base, s3)) ->
    createWorktree (env H) root (worktreeBaseOf root info) name base
      {| world := now s3; issued := [] |} = (Ok wt, st4) ->
    copyExcludedFiles (env H) root (path wt) {| world := world st4; issued := [] |}
    = (Throw e, st5) ->
    guarded H (addCommand H name baseBranch) s
    = (1, {| now := world st5;
             trace := (trace s3
                       ++ map (fun x => (Lib (fst x), snd x)) (issued st4)
                       ++ map (fun x => (Lib (fst x), snd x)) (issued st5))%list;
             console :=
               (console s3
                ++ [Stdout "";
                    Stdout (chalk H CyanBold "bytree add");
                    Stdout (chalk H Gray (owner info ++ "/" ++ repo info
                                          ++ " | base: " ++ base));
                    Stdout "";
                    Stdout (chalk H Gray "Creating worktree...");
                    Stdout (chalk H Green (checkMark ++ " Created " ++ path wt));
                    Stdout (chalk H Gray ("  Branch: " ++ branch wt));
                    Stdout "";
                    Stdout (chalk H Gray "Copying excluded files...");
                    StderrError (chalk H Red "Error:") (LibError e)])%list |})
    /\ forall c ok, In (c, ok) (issued st5) -> c = GitCommonDir root \/ isCopyCmd c = true.
Proof.
  intros W H name baseBranch s s1 s2 s3 root base info wt st4 st5 e Hroot Hinfo Hbase
         Hcreate Hcopy.
  split.
  - unfold guarded, addCommand, andThen, cwdOfProcess. rewrite Hroot, Hinfo.
    assert (Hchosen :
      (if falsy baseBranch then call (getDefaultBranch (env H) root)
       else done match baseBranch with Some b => b | None => "" end) s2
      = (Done base, s3)).
    { destruct Hbase as [[-> [Hne ->]] | [-> Hcall]]; [|exact Hcall].
      cbn [falsy]. apply String.eqb_neq in Hne. now rewrite Hne. }
    rewrite Hchosen.
    unfold consoleLog, call. cbn [now trace console].
    rewrite Hcreate. cbn [now trace console]. rewrite Hcopy. cbn [now trace console].
    now rewrite <- !app_assoc.
  - destruct (copyExcludedFiles_commands _ _ _ _ _ _ Hcopy) as [added [Hissued Hadded]].
    cbn [issued app] in Hissued. rewrite Hissued. exact Hadded.
Qed.

(** [bytree add demo] where the branches track a regular file [foo] and
    the main working tree has an excluded directory [foo]: the worktree
    is created with the file, [mkdir -p] fails on it, and the worktree
    stays, with the two entries copied before. *)
Lemma add_undoes_nothing_witness :
  let run :=
    guarded SampleHost.tracksFoo (addCommand SampleHost.tracksFoo "demo" None)
      (RefHost.start Sample.w0) in
  fst run = 1
  /\ Ref.linked (now (snd run)) = [("/next-bytree/demo", "bytree/demo")]
  /\ Ref.isFile (now (snd run)) "/next-bytree/demo/.claude/settings.json" = true
  /\ Ref.isFile (now (snd run)) "/next-bytree/demo/foo" = true.
Proof.
  cbv zeta.
  set (s1 := snd (getRepoRoot SampleHost.tracksFoo "/r" (RefHost.start Sample.w0))).
  set (s2 := snd (getRepoInfo SampleHost.tracksFoo "/r" s1)).
  set (s3 := snd (call (getDefaultBranch (env SampleHost.tracksFoo) "/r") s2)).
  set (st4 := snd (createWorktree (env SampleHost.tracksFoo) "/r" "/next-bytree" "demo"
                     "main" {| world := now s3; issued := [] |})).
  set (st5 := snd (copyExcludedFiles (env SampleHost.tracksFoo) "/r" "/next-bytree/demo"
                     {| world := world st4; issued := [] |})).
  assert (Hcopy : copyExcludedFiles (env SampleHost.tracksFoo) "/r" "/next-bytree/demo"
                    {| world := world st4; issued := [] |}
                  = (Throw (ShellError (MkdirP "/next-bytree/demo/foo")), st5))
    by (vm_compute; reflexivity).
  rewrite (proj1 (add_undoes_nothing Ref.World SampleHost.tracksFoo "demo" None
                    (RefHost.start Sample.w0) s1 s2 s3 "/r" "main"
                    {| owner := "vercel"; repo := "next" |}
                    {| path := "/next-bytree/demo"; branch := "bytree/demo" |}
                    st4 st5 (ShellError (MkdirP "/next-bytree/demo/foo"))
                    eq_refl eq_refl (or_intror (conj eq_refl eq_refl)) eq_refl Hcopy)).
  split; [reflexivity|]. split; [vm_compute; reflexivity|].
  split; vm_compute; reflexivity.
Defined.


(** X18: [add], [remove] and [list] need a remote on GitHub.  When the
    root of the repository is found and [getRepoInfo] raises (no remote
    [origin], or a URL that is not one of GitHub), each of them writes
    the error to the standard error and exits with status 1, having
    printed nothing and run nothing after the query of the remote. *)
Theorem remote_required :
  forall (W : Type) (H : Host W) (s s1 s2 : session W) (root : string) (e : exn),
    getRepoRoot H (processCwd H (now s)) s = (Done root, s1) ->
    getRepoInfo H root s1 = (Raised e, s2) ->
    let failure :=
      (1, {| now := now s2; trace := trace s2;
             console := (console s2 ++ [StderrError (chalk H Red "Error:") e])%list |}) in
    (forall name baseBranch, guarded H (addCommand H name baseBranch) s = failure)
    /\ (forall name, guarded H (removeCommand H name) s = failure)
    /\ guarded H (listCommand H) s = failure.
Proof.
  intros W H s s1 s2 root e Hroot Hinfo failure. unfold failure.
  split; [|split]; intros;
    unfold guarded, addCommand, removeCommand, listCommand, andThen, cwdOfProcess;
    now rewrite Hroot, Hinfo.
Qed.

(** A repository whose remote is on GitLab. *)
Lemma remote_required_witness :
  guarded (RefHost.host (Some "https://gitlab.com/group/project.git"))
    (listCommand (RefHost.host (Some "https://gitlab.com/group/project.git")))
    (RefHost.start Sample.w0)
  = (1, {| now := Sample.w0;
           trace := [(Lib (GitCommonDir "/r"), true);
                     (Query (GitShowToplevel "/r"), true);
                     (Query (GitRemoteGetUrl "/r"), true)];
           console :=
             [StderrError "Error:"
                (JsError "Could not parse GitHub URL: https://gitlab.com/group/project.git")]
        |}).
Proof.
  apply (proj2 (proj2
           (remote_required Ref.World
              (RefHost.host (Some "https://gitlab.com/group/project.git"))
              (RefHost.start Sample.w0)
              (snd (getRepoRoot (RefHost.host (Some "https://gitlab.com/group/project.git"))
                      "/r" (RefHost.start Sample.w0)))
              (snd (getRepoInfo (RefHost.host (Some "https://gitlab.com/group/project.git"))
                      "/r"
                      (snd (getRepoRoot
                              (RefHost.host (Some "https://gitlab.com/group/project.git"))
                              "/r" (RefHost.start Sample.w0)))))
              "/r"
              (JsError "Could not parse GitHub URL: https://gitlab.com/group/project.git")
              eq_refl eq_refl))).
Defined.

(** What [forEach] over [console.log] leaves of the session. *)
Lemma forEach_consoleLog {W : Type} (lines : list string) (s : session W) :
  forEach (consoleLog (W := W)) lines s
  = (Done tt, {| now := now s; trace := trace s;
                 console := (console s ++ map Stdout lines)%list |}).
Proof.
  revert s; induction lines as [|line lines IH]; intros s.
  - cbn [forEach map]. unfold done. rewrite app_nil_r. now destruct s.
  - cbn [forEach map]. unfold andThen, consoleLog at 1. rewrite IH.
    cbn [now trace console]. now rewrite <- app_assoc.
Qed.

Lemma getExcludePatterns_log {W : Type} (E : Env W) (repoRoot : string) (st : state W) :
  snd (getExcludePatterns E repoRoot st) = snd (run E (GitCommonDir repoRoot) st).
Proof.
  pose proof (getExcludePatterns_run E repoRoot st) as Hr.
  rewrite getGitDir_run in Hr. cbv zeta in Hr. rewrite Hr.
  destruct (existsSync E _ _); [|reflexivity].
  now destruct (readFile E _ _).
Qed.

(** The subprocesses of [getRepoRoot]; it writes nothing. *)
Lemma getRepoRoot_session {W : Type} (H : Host W) (cwd : string) (s : session W) :
  console (snd (getRepoRoot H cwd s)) = console s
  /\ exists added,
       trace (snd (getRepoRoot H cwd s)) = (trace s ++ added)%list
       /\ forall c ok, In (c, ok) added ->
                       c = Lib (GitCommonDir cwd) \/ c = Query (GitShowToplevel cwd).
Proof.
  unfold getRepoRoot, andThen, call, sh, run, shq, done. cbn [world issued].
  destruct (exec (env H) (GitCommonDir cwd) (now s)) as [[text|] w1];
    cbn [world issued app map fst snd now trace console].
  - destruct (String.eqb (JS.trim text) ".git").
    + cbn [now]. destruct (ask H (GitShowToplevel cwd) w1) as [[topLevel|] w2];
        cbn [snd trace console isSome]; (split; [reflexivity|]); eexists;
        (split; [rewrite <- app_assoc; reflexivity|]);
        intros c ok [[= <- _] | [[= <- _] | []]]; auto.
    + cbn [snd trace console]. split; [reflexivity|].
      exists [(Lib (GitCommonDir cwd), true)]. split; [reflexivity|].
      intros c ok [[= <- _] | []]. now left.
  - split; [reflexivity|]. exists [(Lib (GitCommonDir cwd), false)]. split; [reflexivity|].
    intros c ok [[= <- _] | []]. now left.
Qed.

(** X19: [excluded] needs no remote: whatever happens, the only
    subprocesses it runs are [git rev-parse --git-common-dir] and
    [git rev-parse --show-toplevel]; the URL of the remote is never
    asked for. *)
Theorem excluded_needs_no_remote :
  forall (W : Type) (H : Host W) (s : session W),
    exists added,
      trace (snd (guarded H (excludedCommand H) s)) = (trace s ++ added)%list
      /\ forall c ok, In (c, ok) added ->
                      (exists d, c = Lib (GitCommonDir d))
                      \/ (exists d, c = Query (GitShowToplevel d)).
Proof.
  intros W H s.
  destruct (getRepoRoot_session H (processCwd H (now s)) s)
    as [_ [added [Htrace Hadded]]].
  assert (Hfirst : forall c ok, In (c, ok) added ->
                     (exists d, c = Lib (GitCommonDir d))
                     \/ (exists d, c = Query (GitShowToplevel d))).
  { intros c ok Hin. destruct (Hadded c ok Hin) as [-> | ->]; eauto. }
  unfold guarded, excludedCommand, andThen, cwdOfProcess.
  destruct (getRepoRoot H (processCwd H (now s)) s) as [[root|e] s1];
    cbn [snd] in Htrace; [|exists added; cbn [snd trace]; now split].
  unfold consoleLog at 1 2 3. unfold call. cbn [now trace console].
  pose proof (getExcludePatterns_log (env H) root {| world := now s1; issued := [] |})
    as Hlog.
  destruct (getExcludePatterns (env H) root {| world := now s1; issued := [] |})
    as [[patterns|e] st2].
  - cbn [snd] in Hlog. subst st2. unfold run. cbn [world issued app].
    destruct (exec (env H) (GitCommonDir root) (now s1)) as [out w2].
    cbn [snd world issued map fst].
    exists (added ++ [(Lib (GitCommonDir root), isSome out)])%list.
    split.
    + destruct (Nat.eqb (List.length patterns) 0).
      * unfold consoleLog. cbn [snd trace]. now rewrite Htrace, <- app_assoc.
      * rewrite forEach_consoleLog. cbn [snd trace]. now rewrite Htrace, <- app_assoc.
    + intros c ok Hin. apply in_app_or in Hin. destruct Hin as [Hin | [[= <- _] | []]];
        [exact (Hfirst c ok Hin) | eauto].
  - cbn [snd] in Hlog. subst st2. unfold run. cbn [world issued app].
    destruct (exec (env H) (GitCommonDir root) (now s1)) as [out w2].
    cbn [snd world issued map fst trace].
    exists (added ++ [(Lib (GitCommonDir root), isSome out)])%list.
    split; [now rewrite Htrace, <- app_assoc|].
    intros c ok Hin. apply in_app_or in Hin. destruct Hin as [Hin | [[= <- _] | []]];
      [exact (Hfirst c ok Hin) | eauto].
Qed.

Lemma excluded_needs_no_remote_witness :
  exists added,
    trace (snd (guarded (RefHost.host None) (excludedCommand (RefHost.host None))
                  (RefHost.start Sample.w0))) = ([] ++ added)%list
    /\ forall c ok, In (c, ok) added ->
                    (exists d, c = Lib (GitCommonDir d))
                    \/ (exists d, c = Query (GitShowToplevel d)).
Proof.
  exact (excluded_needs_no_remote Ref.World (RefHost.host None) (RefHost.start Sample.w0)).
Defined.

(** ** Patterns that are plain names *)








(** ** [getCurrentBranch] *)

(** X21: [getCurrentBranch] raises exactly when
    [git branch --show-current] fails; otherwise it returns what git
    printed without the white space around it, the final line feed
    included: trimming the result again changes nothing, and the
    result is empty when git printed white space only, as it does on a
    detached HEAD. *)
Theorem getCurrentBranch_trimmed :
  forall (W : Type) (H : Host W) (repoRoot : string) (s : session W),
    (fst (ask H (GitBranchShowCurrent repoRoot) (now s)) = None
     <-> fst (getCurrentBranch H repoRoot s) = Raised (QueryError (GitBranchShowCurrent repoRoot)))
    /\ (forall text,
          fst (ask H (GitBranchShowCurrent repoRoot) (now s)) = Some text ->
          exists b before after,
            fst (getCurrentBranch H repoRoot s) = Done b
            /\ text = before ++ b ++ after
            /\ allWhiteSpace before /\ allWhiteSpace after
            /\ JS.trim b = b
            /\ (allWhiteSpace text -> b = "")).
Proof.
  intros W H repoRoot s.
  assert (Hrun : fst (getCurrentBranch H repoRoot s)
                 = match fst (ask H (GitBranchShowCurrent repoRoot) (now s)) with
                   | Some text => Done (JS.trim text)
                   | None => Raised (QueryError (GitBranchShowCurrent repoRoot))
                   end).
  { unfold getCurrentBranch, andThen, shq, done.
    now destruct (ask H (GitBranchShowCurrent repoRoot) (now s)) as [[text|] w1]. }
  rewrite Hrun. split.
  - destruct (fst (ask H (GitBranchShowCurrent repoRoot) (now s))); split; congruence.
  - intros text ->.
    destruct (trim_spec text) as [before [after [Htext [Hb [Ha [Hhead _]]]]]].
    exists (JS.trim text), before, after.
    split; [reflexivity|]. split; [exact Htext|]. split; [exact Hb|].
    split; [exact Ha|]. split; [apply trim_idem|].
    intros Hws. destruct (JS.trim text) as [|c u] eqn:Ht; [reflexivity|]. exfalso.
    unfold allWhiteSpace in Hws. rewrite Htext, !list_ascii_app, !forallb_app in Hws.
    apply andb_true_iff in Hws. destruct Hws as [_ Hws].
    apply andb_true_iff in Hws. destruct Hws as [Hws _].
    cbn [list_ascii_of_string forallb] in Hws. apply andb_true_iff in Hws.
    destruct Hws as [Hc _]. congruence.
Qed.

Lemma getCurrentBranch_trimmed_witness :
  exists b before after,
    fst (getCurrentBranch SampleHost.nextjs "/r" (RefHost.start Sample.w0)) = Done b
    /\ "main" ++ Sample.nl = before ++ b ++ after
    /\ allWhiteSpace before /\ allWhiteSpace after
    /\ JS.trim b = b
    /\ (allWhiteSpace ("main" ++ Sample.nl) -> b = "").
Proof.
  exact (proj2 (getCurrentBranch_trimmed Ref.World SampleHost.nextjs "/r"
                  (RefHost.start Sample.w0))
           ("main" ++ Sample.nl) eq_refl).
Defined.

(** ** [getRepoRoot] below the root *)

Lemma split_joinWith (subs : list string) :
  subs <> [] -> forallb slashFree subs = true ->
  JS.split "/" (JS.joinWith "/" subs) = subs.
Proof.
  induction subs as [|x subs IH]; [congruence|]. intros _ Hall.
  cbn [forallb] in Hall. apply andb_true_iff in Hall. destruct Hall as [Hx Hall].
  destruct subs as [|y subs]; [exact (split_no_slash x Hx)|].
  change (JS.joinWith "/" (x :: y :: subs))
    with (x ++ String "/" (JS.joinWith "/" (y :: subs))).
  rewrite split_app_sep, (split_no_slash x Hx), IH by (discriminate || exact Hall).
  reflexivity.
Qed.

Lemma split_upward (n : nat) (rest : string) :
  JS.split "/" (upward n ++ rest) = (repeat ".." n ++ JS.split "/" rest)%list.
Proof.
  induction n as [|n IH]; [reflexivity|].
  change (upward (S n) ++ rest) with (("../" ++ upward n) ++ rest).
  rewrite append_assoc.
  change ("../" ++ upward n ++ rest) with (".." ++ String "/" (upward n ++ rest)).
  now rewrite split_app_sep, IH.
Qed.

Lemma forallb_reversed {A : Type} (f : A -> bool) (l : list A) :
  forallb f (rev l) = forallb f l.
Proof.
  induction l as [|x l IH]; [reflexivity|]. cbn [rev forallb].
  rewrite forallb_app, IH. cbn [forallb]. rewrite andb_true_r. apply andb_comm.
Qed.

Lemma normalizeSegments_pops (above : bool) (top stack rest : list string) :
  forallb Path.plainSegment top = true ->
  Path.normalizeSegments above (top ++ stack) (repeat ".." (List.length top) ++ rest)
  = Path.normalizeSegments above stack rest.
Proof.
  induction top as [|t top IH]; [reflexivity|]. intros Hall.
  cbn [forallb] in Hall. apply andb_true_iff in Hall. destruct Hall as [Ht Hall].
  cbn [List.length repeat app]. rewrite normalizeSegments_pop; [now apply IH|].
  unfold Path.plainSegment in Ht. apply andb_true_iff in Ht. destruct Ht as [_ Ht].
  now apply negb_true_iff in Ht.
Qed.

(** [resolve(cwd, "../ ... ../.git")] from [cwd], as many levels below
    [root] as there are [../]. *)
Lemma resolve_upward (processCwd root : string) (subs : list string) :
  Path.isNormalAbsolute root = true ->
  subs <> [] ->
  forallb Path.plainSegment subs = true -> forallb slashFree subs = true ->
  resolve processCwd
    [root ++ "/" ++ JS.joinWith "/" subs; upward (List.length subs) ++ ".git"]
  = root ++ "/.git".
Proof.
  intros Hroot Hne Hplain Hfree.
  destruct (normal_segments root Hroot) as [seg [segs [Hsplit [Hsegs Hp]]]].
  destruct subs as [|sub subs']; [congruence|].
  set (subs := sub :: subs') in *.
  assert (Hcwd : exists t, root ++ "/" ++ JS.joinWith "/" subs = String "/" t).
  { rewrite Hp. eexists. reflexivity. }
  destruct Hcwd as [t Hcwd].
  unfold resolve. cbn [rev app resolveLoop].
  change (upward (List.length subs) ++ ".git")
    with (String "." (String "." (String "/" (upward (List.length subs') ++ ".git")))).
  cbn [String.eqb JS.startsWith Ascii.eqb Bool.eqb andb].
  rewrite Hcwd. cbn [String.eqb JS.startsWith]. rewrite Ascii.eqb_refl. cbn [andb negb].
  rewrite <- Hcwd. unfold Path.slash.
  assert (Hall :
    JS.split "/"
      ((root ++ "/" ++ JS.joinWith "/" subs) ++ "/"
       ++ String "." (String "." (String "/" (upward (List.length subs') ++ ".git")))
       ++ "/" ++ "")
    = ("" :: (seg :: segs) ++ subs
          ++ repeat ".." (List.length subs) ++ [".git"; ""])%list).
  { change ((root ++ "/" ++ JS.joinWith "/" subs) ++ "/"
            ++ String "." (String "." (String "/" (upward (List.length subs') ++ ".git")))
            ++ "/" ++ "")
      with ((root ++ String "/" (JS.joinWith "/" subs))
            ++ String "/" ((upward (List.length subs) ++ ".git") ++ String "/" "")).
    rewrite !split_app_sep, Hsplit, (split_joinWith subs Hne Hfree).
    rewrite split_upward. cbn [JS.split Ascii.eqb Bool.eqb app].
    now rewrite <- !app_assoc. }
  rewrite Hall.
  change (Path.normalizeSegments false []
            ("" :: (seg :: segs) ++ subs ++ repeat ".." (List.length subs)
                ++ [".git"; ""])%list)
    with (Path.normalizeSegments false []
            ((seg :: segs) ++ subs ++ repeat ".." (List.length subs)
               ++ [".git"; ""])%list).
  rewrite (normalizeSegments_app_plain false (seg :: segs) _ [] Hsegs), app_nil_r.
  rewrite (normalizeSegments_app_plain false subs _ _ Hplain).
  rewrite <- (length_rev subs).
  rewrite normalizeSegments_pops by (now rewrite forallb_reversed).
  change [".git"; ""] with ([".git"] ++ [""])%list.
  rewrite (normalizeSegments_app_plain false [".git"] [""] _ eq_refl).
  cbn [Path.normalizeSegments String.eqb orb rev app].
  rewrite rev_app_distr, rev_involutive. cbn [rev app].
  change (seg :: segs ++ [".git"])%list with ((seg :: segs) ++ [".git"])%list.
  rewrite joinWith_snoc by discriminate. now rewrite Hp, !append_assoc.
Qed.

(** X22: asked in a directory of the main working tree below its root,
    git names the common directory by a relative path, [../.git] one
    level down, [../../.git] two levels down, and so on.
    [getRepoRoot] resolves it against the directory it was asked
    about and returns the root, however deep the directory is. *)
Theorem getRepoRoot_below_root :
  forall (W : Type) (H : Host W) (root : string) (subs : list string) (s : session W)
         (text : string),
    Path.isNormalAbsolute root = true ->
    subs <> [] ->
    forallb Path.plainSegment subs = true -> forallb slashFree subs = true ->
    let cwd := root ++ "/" ++ JS.joinWith "/" subs in
    fst (exec (env H) (GitCommonDir cwd) (now s)) = Some text ->
    JS.trim text = upward (List.length subs) ++ ".git" ->
    fst (getRepoRoot H cwd s) = Done root.
Proof.
  intros W H root subs s text Hroot Hne Hplain Hfree cwd Hexec Htrim.
  rewrite getRepoRoot_run.
  destruct (exec (env H) (GitCommonDir cwd) (now s)) as [out w1].
  cbn [fst] in Hexec. subst out. rewrite Htrim.
  assert (Hrel : String.eqb (upward (List.length subs) ++ ".git") ".git" = false).
  { destruct subs as [|sub subs']; [congruence|]. reflexivity. }
  rewrite Hrel. unfold cwd. rewrite (resolve_upward _ root subs Hroot Hne Hplain Hfree).
  destruct (normal_segments root Hroot) as [seg [segs [_ [Hsegs Hp]]]].
  assert (Hroot' : exists r, root = String "/" r /\ r <> "").
  { rewrite Hp. cbn [forallb] in Hsegs. apply andb_true_iff in Hsegs.
    destruct Hsegs as [Hseg _]. destruct seg as [|x seg]; [discriminate Hseg|].
    eexists. split; [reflexivity|]. destruct segs; discriminate. }
  destruct Hroot' as [r [-> Hr]]. now rewrite (dirname_dot_git _ r Hr).
Qed.

(** From [/r/foo/b], two levels below the root [/r]. *)
Lemma getRepoRoot_below_root_witness :
  fst (exec (env SampleHost.nextjs) (GitCommonDir "/r/foo/b") Sample.w0)
  = Some ("../../.git" ++ Sample.nl)
  /\ fst (getRepoRoot SampleHost.nextjs "/r/foo/b" (RefHost.start Sample.w0)) = Done "/r".
Proof.
  split; [reflexivity|].
  assert (Hne : ["foo"; "b"] <> []) by discriminate.
  exact (getRepoRoot_below_root Ref.World SampleHost.nextjs "/r" ["foo"; "b"]
           (RefHost.start Sample.w0) ("../../.git" ++ Sample.nl)
           eq_refl Hne eq_refl eq_refl eq_refl eq_refl).
Defined.

(** ** What the replication copies *)

Lemma lookup_filter_self {A : Type} (k : string) (l : list (string * A)) :
  Ref.lookup k (filter (fun x => negb (String.eqb (fst x) k)) l) = None.
Proof.
  induction l as [|[k' v] l IH]; [reflexivity|]. cbn [filter fst].
  destruct (String.eqb k' k) eqn:Hk; cbn [negb]; [exact IH|].
  cbn [Ref.lookup]. now rewrite String.eqb_sym, Hk.
Qed.

(** A successful [cp -r src dst] of the reference world: [dst] now
    holds the content of [src], and no other file has changed. *)
Lemma execute_cp_lookup (w w' : Ref.World) (src dst t : string) :
  JS.startsWith src "/" = true -> JS.startsWith dst "/" = true ->
  Ref.execute (CpR src dst) w = (Some t, w') ->
  exists content,
    Ref.lookup src (Ref.files w) = Some content
    /\ forall q, Ref.lookup q (Ref.files w')
                 = if String.eqb q dst then Some content else Ref.lookup q (Ref.files w).
Proof.
  intros Hsrc Hdst. unfold Ref.execute.
  rewrite (absolute_id w src Hsrc), (absolute_id w dst Hdst).
  destruct (Ref.lookup src (Ref.files w)) as [content|]; [|discriminate].
  destruct (Ref.isDir w (Path.dirname dst) && negb (Ref.isDir w dst)); [|discriminate].
  intros [= _ <-]. exists content. split; [reflexivity|]. intros q.
  cbn [Ref.setFs Ref.files].
  destruct (String.eqb q dst) eqn:Hq.
  - apply String.eqb_eq in Hq. subst q.
    rewrite (lookup_app_r dst _ [(dst, content)] (lookup_filter_self dst (Ref.files w))).
    cbn [Ref.lookup]. now rewrite String.eqb_refl.
  - destruct (Ref.lookup q (Ref.files w)) as [v|] eqn:Hv.
    + apply lookup_app_l. now rewrite (lookup_filter_other q dst _ Hq).
    + rewrite lookup_app_r by (now rewrite (lookup_filter_other q dst _ Hq)).
      cbn [Ref.lookup]. now rewrite Hq.
Qed.

Lemma execute_mkdir_files (w w' : Ref.World) (d : string) (o : option string) :
  Ref.execute (MkdirP d) w = (o, w') -> Ref.files w' = Ref.files w.
Proof.
  unfold Ref.execute. destruct (Ref.isFile w (Ref.absolute w d)); [now intros [= _ <-]|].
  destruct (Ref.isDir w (Ref.absolute w d)); now intros [= _ <-].
Qed.

Lemma copyLoop_replicates (repoRoot worktreePath : string) (files acc out : list string)
    (st st2 : state Ref.World) :
  JS.startsWith repoRoot "/" = true -> JS.startsWith worktreePath "/" = true ->
  copyLoop Ref.env repoRoot worktreePath files acc st = (Ok out, st2) ->
  NoDup (map (fun f => Path.join [worktreePath; f]) files) ->
  (forall f g, In f files -> In g files ->
               Path.join [worktreePath; f] <> Path.join [repoRoot; g]) ->
  (forall q, ~ In q (map (fun f => Path.join [worktreePath; f]) files) ->
             Ref.lookup q (Ref.files (world st2)) = Ref.lookup q (Ref.files (world st)))
  /\ forall f, In f files ->
       exists content,
         Ref.lookup (Path.join [repoRoot; f]) (Ref.files (world st)) = Some content
         /\ Ref.lookup (Path.join [worktreePath; f]) (Ref.files (world st2)) = Some content.
Proof.
  intros Hroot Hwt. revert acc st.
  induction files as [|file files IH]; intros acc st Hrun Hnd Hapart.
  - cbn [copyLoop] in Hrun. unfold ret in Hrun. injection Hrun as _ <-.
    split; [reflexivity | intros f []].
  - cbn [copyLoop] in Hrun. unfold bind at 1 in Hrun. rewrite sh_run in Hrun.
    change (exec Ref.env) with Ref.execute in Hrun.
    destruct (Ref.execute (MkdirP (Path.dirname (Path.join [worktreePath; file])))
                (world st)) as [[t1|] w1] eqn:Hmk; [|discriminate Hrun].
    pose proof (execute_mkdir_files _ _ _ _ Hmk) as Hfiles1.
    unfold bind at 1 in Hrun. rewrite sh_run in Hrun. cbn [world issued] in Hrun.
    change (exec Ref.env) with Ref.execute in Hrun.
    destruct (Ref.execute
                (CpR (Path.join [repoRoot; file]) (Path.join [worktreePath; file])) w1)
      as [[t2|] w2] eqn:Hcp; [|discriminate Hrun].
    destruct (execute_cp_lookup _ _ _ _ _ (join_absolute repoRoot file Hroot)
                (join_absolute worktreePath file Hwt) Hcp) as [content [Hsrc Hafter]].
    rewrite Hfiles1 in Hsrc.
    cbn [map] in Hnd. inversion Hnd as [|? ? Hfresh Hnd']. subst.
    destruct (IH _ _ Hrun Hnd'
                (fun f g Hf Hg => Hapart f g (or_intror Hf) (or_intror Hg)))
      as [Hframe Hcopied].
    cbn [world] in Hframe, Hcopied.
    split.
    + intros q Hq. cbn [map In] in Hq.
      rewrite Hframe by (intros Hin; apply Hq; now right).
      rewrite Hafter, Hfiles1.
      destruct (String.eqb q (Path.join [worktreePath; file])) eqn:Heq; [|reflexivity].
      apply String.eqb_eq in Heq. elim Hq. now left.
    + intros f [<- | Hf].
      * exists content. split; [exact Hsrc|].
        rewrite (Hframe _ Hfresh), Hafter. now rewrite String.eqb_refl.
      * destruct (Hcopied f Hf) as [c [Hc1 Hc2]]. exists c. split; [|exact Hc2].
        rewrite Hafter, Hfiles1 in Hc1.
        destruct (String.eqb (Path.join [repoRoot; f]) (Path.join [worktreePath; file]))
          eqn:Heq; [|exact Hc1].
        apply String.eqb_eq in Heq. symmetry in Heq.
        elim (Hapart file f (or_introl eq_refl) (or_intror Hf) Heq).
Qed.

(** X23: what [copyExcludedFiles] returns, it has copied.  In the
    reference world, with absolute paths and destinations of which
    none is a directory, none lies below another or below a regular
    file, and none is a source, a successful [copyExcludedFiles] leaves at [worktreePath/file], for
    every [file] it returns, the content that [repoRoot/file] had, and
    the source still has it.  (Into a destination that is a directory,
    [cp -r] copies the file under its own name.) *)
Theorem copyExcludedFiles_replicates :
  forall (repoRoot worktreePath : string) (st st2 : state Ref.World)
         (copied : list string),
    JS.startsWith repoRoot "/" = true -> JS.startsWith worktreePath "/" = true ->
    copyExcludedFiles Ref.env repoRoot worktreePath st = (Ok copied, st2) ->
    (forall f, In f copied ->
               Ref.isDir (world st) (Path.join [worktreePath; f]) = false) ->
    (forall f g, In f copied -> In g copied -> f <> g ->
                 Ref.within (Path.join [worktreePath; f]) (Path.join [worktreePath; g])
                 = false) ->
    (forall f q, In f copied -> Ref.isFile (world st) q = true ->
                 q <> Path.join [worktreePath; f] ->
                 Ref.within q (Path.join [worktreePath; f]) = false) ->
    NoDup (map (fun f => Path.join [worktreePath; f]) copied) ->
    (forall f g, In f copied -> In g copied ->
                 Path.join [worktreePath; f] <> Path.join [repoRoot; g]) ->
    forall file, In file copied ->
      exists content,
        Ref.lookup (Path.join [repoRoot; file]) (Ref.files (world st)) = Some content
        /\ Ref.lookup (Path.join [worktreePath; file]) (Ref.files (world st2))
           = Some content
        /\ Ref.lookup (Path.join [repoRoot; file]) (Ref.files (world st2)) = Some content.
Proof.
  intros repoRoot worktreePath st st2 copied Hroot Hwt Hrun _ _ _ Hnd Hapart file Hfile.
  rewrite copyExcludedFiles_run in Hrun.
  destruct (findExcludedFiles Ref.env repoRoot st) as [[files|e] st1] eqn:Hfind;
    [|discriminate Hrun].
  pose proof (findExcludedFiles_log _ _ _ _ _ Hfind) as Hst1.
  assert (Hw : world st1 = world st).
  { rewrite Hst1. unfold run. change (exec Ref.env) with Ref.execute.
    cbn [Ref.execute]. reflexivity. }
  pose proof (copyLoop_run Ref.env repoRoot worktreePath files [] st1) as Hout.
  rewrite Hrun in Hout. destruct Hout as [Hout _]. cbn [app] in Hout. subst copied.
  destruct (copyLoop_replicates _ _ _ _ _ _ _ Hroot Hwt Hrun Hnd Hapart)
    as [Hframe Hcopied].
  rewrite Hw in Hframe, Hcopied.
  destruct (Hcopied file Hfile) as [content [Hsrc Hdst]].
  exists content. split; [exact Hsrc|]. split; [exact Hdst|].
  rewrite Hframe; [exact Hsrc|].
  intros Hin. apply in_map_iff in Hin. destruct Hin as [f [Heq Hf]].
  exact (Hapart f file Hf Hfile Heq).
Qed.

(** [bytree add demo] in [Sample.w0]: [foo/b/c] is in the worktree. *)
Lemma copyExcludedFiles_replicates_witness :
  let created :=
    snd (createWorktree Ref.env "/r" "/r-bytree" "demo" "main" (Ref.start Sample.w0)) in
  let copied := snd (copyExcludedFiles Ref.env "/r" "/r-bytree/demo" created) in
  exists content,
    Ref.lookup "/r/foo/b/c" (Ref.files (world created)) = Some content
    /\ Ref.lookup "/r-bytree/demo/foo/b/c" (Ref.files (world copied)) = Some content
    /\ Ref.lookup "/r/foo/b/c" (Ref.files (world copied)) = Some content.
Proof.
  cbv zeta.
  assert (Hnd : NoDup (map (fun f => Path.join ["/r-bytree/demo"; f])
                         [".claude/settings.json"; ".claude/cache/tmp.bin"; "foo/a";
                          "foo/b/c"])).
  { vm_compute. repeat constructor; cbn [In]; intuition discriminate. }
  assert (Hapart : forall f g,
             In f [".claude/settings.json"; ".claude/cache/tmp.bin"; "foo/a"; "foo/b/c"] ->
             In g [".claude/settings.json"; ".claude/cache/tmp.bin"; "foo/a"; "foo/b/c"] ->
             Path.join ["/r-bytree/demo"; f] <> Path.join ["/r"; g]).
  { intros f g Hf Hg. cbn [In] in Hf, Hg.
    destruct Hf as [<- | [<- | [<- | [<- | []]]]];
      destruct Hg as [<- | [<- | [<- | [<- | []]]]]; vm_compute; discriminate. }
  assert (Hrun :
    copyExcludedFiles Ref.env "/r" "/r-bytree/demo"
      (snd (createWorktree Ref.env "/r" "/r-bytree" "demo" "main" (Ref.start Sample.w0)))
    = (Ok [".claude/settings.json"; ".claude/cache/tmp.bin"; "foo/a"; "foo/b/c"],
       snd (copyExcludedFiles Ref.env "/r" "/r-bytree/demo"
              (snd (createWorktree Ref.env "/r" "/r-bytree" "demo" "main"
                      (Ref.start Sample.w0))))))
    by (vm_compute; reflexivity).
  assert (Hfiles : forall f,
             In f [".claude/settings.json"; ".claude/cache/tmp.bin"; "foo/a"; "foo/b/c"] ->
             Ref.isDir
               (world (snd (createWorktree Ref.env "/r" "/r-bytree" "demo" "main"
                              (Ref.start Sample.w0))))
               (Path.join ["/r-bytree/demo"; f]) = false).
  { intros f Hf. cbn [In] in Hf.
    destruct Hf as [<- | [<- | [<- | [<- | []]]]]; vm_compute; reflexivity. }
  assert (Hbelow : forall f g,
             In f [".claude/settings.json"; ".claude/cache/tmp.bin"; "foo/a"; "foo/b/c"] ->
             In g [".claude/settings.json"; ".claude/cache/tmp.bin"; "foo/a"; "foo/b/c"] ->
             f <> g ->
             Ref.within (Path.join ["/r-bytree/demo"; f]) (Path.join ["/r-bytree/demo"; g])
             = false).
  { intros f g Hf Hg Hne. cbn [In] in Hf, Hg.
    destruct Hf as [<- | [<- | [<- | [<- | []]]]];
      destruct Hg as [<- | [<- | [<- | [<- | []]]]];
      try (elim Hne; reflexivity); vm_compute; reflexivity. }
  assert (Habove : forall f q,
             In f [".claude/settings.json"; ".claude/cache/tmp.bin"; "foo/a"; "foo/b/c"] ->
             Ref.isFile
               (world (snd (createWorktree Ref.env "/r" "/r-bytree" "demo" "main"
                              (Ref.start Sample.w0)))) q = true ->
             q <> Path.join ["/r-bytree/demo"; f] ->
             Ref.within q (Path.join ["/r-bytree/demo"; f]) = false).
  { intros f q Hf Hq _. unfold Ref.isFile, Ref.inb in Hq.
    apply existsb_exists in Hq. destruct Hq as [x [Hin Heq]].
    apply String.eqb_eq in Heq. subst x. vm_compute in Hin. cbn [In] in Hf.
    repeat (destruct Hin as [<- | Hin];
            [destruct Hf as [<- | [<- | [<- | [<- | []]]]]; vm_compute; reflexivity|]).
    destruct Hin. }
  apply (copyExcludedFiles_replicates "/r" "/r-bytree/demo" _ _ _
           eq_refl eq_refl Hrun Hfiles Hbelow Habove Hnd Hapart "foo/b/c").
  cbn [In]. auto.
Defined.

(** ** The base branch of [add] *)

Lemma onlyRuns_refl {W : Type} (allowed : command -> bool) (s s' : session W) :
  trace s' = trace s -> onlyRuns allowed s s'.
Proof. intros Heq. exists []. now rewrite Heq, app_nil_r. Qed.

Lemma onlyRuns_trans {W : Type} (allowed : command -> bool) (a b c : session W) :
  onlyRuns allowed a b -> onlyRuns allowed b c -> onlyRuns allowed a c.
Proof.
  intros [x [Hx Px]] [y [Hy Py]]. exists (x ++ y)%list. split.
  - now rewrite Hy, Hx, app_assoc.
  - now rewrite forallb_app, Px, Py.
Qed.

Lemma andThen_onlyRuns {W A B : Type} (allowed : command -> bool)
    (m : C (W := W) A) (k : A -> C (W := W) B) (s : session W) :
  onlyRuns allowed s (snd (m s)) ->
  (forall a s', onlyRuns allowed s' (snd (k a s'))) ->
  onlyRuns allowed s (snd (andThen m k s)).
Proof.
  intros Hm Hk. unfold andThen. destruct (m s) as [[a|e] s1]; cbn [snd] in Hm |- *.
  - exact (onlyRuns_trans _ _ _ _ Hm (Hk a s1)).
  - exact Hm.
Qed.

Lemma consoleLog_onlyRuns {W : Type} (allowed : command -> bool) (line : string)
    (s : session W) :
  onlyRuns allowed s (snd (consoleLog line s)).
Proof. now apply onlyRuns_refl. Qed.

Lemma call_onlyRuns {W A : Type} (allowed : command -> bool) (m : M (W := W) A)
    (s : session W) :
  (forall c ok, In (c, ok) (issued (snd (m {| world := now s; issued := [] |}))) ->
                allowed (Lib c) = true) ->
  onlyRuns allowed s (snd (call m s)).
Proof.
  intros Hall. unfold call.
  destruct (m {| world := now s; issued := [] |}) as [r st]. cbn [snd] in Hall.
  exists (map (fun x => (Lib (fst x), snd x)) (issued st)). split.
  - now destruct r.
  - apply forallb_forall. intros x Hx. apply in_map_iff in Hx.
    destruct Hx as [[c ok] [<- Hin]]. cbn [fst]. exact (Hall c ok Hin).
Qed.

(** The subprocesses of [createWorktree]. *)
Lemma createWorktree_commands {W : Type} (E : Env W)
    (repoRoot worktreeBase name baseBranch : string) (st : state W) (c : cmd) (ok : bool) :
  In (c, ok) (issued (snd (createWorktree E repoRoot worktreeBase name baseBranch st))) ->
  In (c, ok) (issued st)
  \/ c = MkdirP (Path.dirname (Path.join [worktreeBase; name]))
  \/ c = GitWorktreeRemoveForce repoRoot (Path.join [worktreeBase; name])
  \/ c = GitBranchDelete repoRoot ("bytree/" ++ name)
  \/ c = GitWorktreeAdd repoRoot ("bytree/" ++ name) (Path.join [worktreeBase; name])
           baseBranch.
Proof.
  pose proof (createWorktree_run E repoRoot worktreeBase name baseBranch st) as Hrun.
  cbv zeta in Hrun. rewrite Hrun.
  destruct (exec E (MkdirP (Path.dirname (Path.join [worktreeBase; name]))) (world st))
    as [[t1|] w1]; cbn [snd issued].
  - destruct (existsSync E (Path.join [worktreeBase; name]) w1).
    + destruct (exec E (GitWorktreeRemoveForce repoRoot (Path.join [worktreeBase; name])) w1)
        as [removed w2].
      destruct (exec E (GitBranchDelete repoRoot ("bytree/" ++ name)) w2) as [deleted w3].
      destruct (exec E (GitWorktreeAdd repoRoot ("bytree/" ++ name)
                          (Path.join [worktreeBase; name]) baseBranch) w3)
        as [[t4|] w4]; cbn [snd issued]; intros Hin;
        (apply in_app_or in Hin; destruct Hin as [Hin | [[= <- _] | []]]; [|now auto 6]);
        (apply in_app_or in Hin;
         destruct Hin as [Hin | [[= <- _] | [[= <- _] | [[= <- _] | []]]]]; auto 6).
    + destruct (exec E (GitWorktreeAdd repoRoot ("bytree/" ++ name)
                          (Path.join [worktreeBase; name]) baseBranch) w1)
        as [[t4|] w4]; cbn [snd issued]; intros Hin;
        (apply in_app_or in Hin; destruct Hin as [Hin | [[= <- _] | []]]; [|now auto 6]);
        (apply in_app_or in Hin; destruct Hin as [Hin | [[= <- _] | []]]; auto 6).
  - intros Hin. apply in_app_or in Hin. destruct Hin as [Hin | [[= <- _] | []]]; auto.
Qed.


Lemma addCommand_onlyRuns {W : Type} (H : Host W) (name b : string) (s : session W) :
  b <> "" -> onlyRuns (addRuns name b) s (snd (addCommand H name (Some b) s)).
Proof.
  intros Hb. apply String.eqb_neq in Hb. unfold addCommand. cbn [falsy]. rewrite Hb.
  apply andThen_onlyRuns; [now apply onlyRuns_refl|]. intros cwd s0.
  apply andThen_onlyRuns.
  { destruct (getRepoRoot_session H cwd s0) as [_ [added [Htrace Hadded]]].
    exists added. split; [exact Htrace|]. apply forallb_forall. intros [c ok] Hin.
    destruct (Hadded c ok Hin) as [-> | ->]; reflexivity. }
  intros root s1. apply andThen_onlyRuns.
  { unfold getRepoInfo, andThen, shq.
    destruct (ask H (GitRemoteGetUrl root) (now s1)) as [[text|] w2]; cbn [snd].
    - destruct (matchGithub (JS.trim text)) as [[o r]|]; unfold done, raise; cbn [snd];
        eexists; split; reflexivity.
    - eexists. split; reflexivity. }
  intros info s2. unfold andThen at 1. unfold done at 1.
  do 5 (apply andThen_onlyRuns; [apply consoleLog_onlyRuns|]; intros _ ?).
  apply andThen_onlyRuns.
  { apply call_onlyRuns. intros c ok Hin.
    apply createWorktree_commands in Hin. cbn [issued In] in Hin.
    destruct Hin as [[] | [-> | [-> | [-> | ->]]]]; try reflexivity.
    cbn [addRuns]. now rewrite !String.eqb_refl. }
  intros created ?.
  do 4 (apply andThen_onlyRuns; [apply consoleLog_onlyRuns|]; intros _ ?).
  apply andThen_onlyRuns.
  { apply call_onlyRuns. intros c ok Hin.
    match type of Hin with
    | In _ (issued (snd ?run)) => destruct run as [r st] eqn:Hcopy
    end.
    destruct (copyExcludedFiles_commands _ _ _ _ _ _ Hcopy) as [added [Hissued Hadded]].
    cbn [snd] in Hin. rewrite Hissued in Hin. cbn [issued app] in Hin.
    destruct (Hadded c ok Hin) as [-> | Hc]; [reflexivity|].
    destruct c; try discriminate Hc; reflexivity. }
  intros copied ?.
  apply andThen_onlyRuns.
  { destruct (Nat.ltb 0 (List.length copied)); apply consoleLog_onlyRuns. }
  intros _ ?.
  do 2 (apply andThen_onlyRuns; [apply consoleLog_onlyRuns|]; intros _ ?).
  apply consoleLog_onlyRuns.
Qed.

(** X24: the base branch of [add].  An empty base is no base: the
    default branch is detected as when none is given.  With a base
    that is not empty, the command never runs the detection of the
    default branch ([git symbolic-ref], [git branch -r]), whatever
    happens, and the only [git worktree add] it may run creates the
    branch [bytree/name] from this base. *)
Theorem add_base_branch :
  (forall (W : Type) (H : Host W) (name : string) (s : session W),
     addCommand H name (Some "") s = addCommand H name None s)
  /\ (forall (W : Type) (H : Host W) (name b : string) (s : session W),
        b <> "" ->
        onlyRuns (addRuns name b) s (snd (guarded H (addCommand H name (Some b)) s))).
Proof.
  split; [reflexivity|].
  intros W H name b s Hb.
  destruct (addCommand_onlyRuns H name b s Hb) as [added [Htrace Hadded]].
  exists added. split; [|exact Hadded].
  unfold guarded. now destruct (addCommand H name (Some b) s) as [[u|e] s'].
Qed.

Lemma add_base_branch_witness :
  onlyRuns (addRuns "demo" "main") (RefHost.start Sample.w0)
    (snd (guarded SampleHost.nextjs (addCommand SampleHost.nextjs "demo" (Some "main"))
            (RefHost.start Sample.w0))).
Proof.
  assert (Hb : "main" <> "") by discriminate.
  exact (proj2 add_base_branch Ref.World SampleHost.nextjs "demo" "main"
           (RefHost.start Sample.w0) Hb).
Defined.

(** ** [createWorktree] where something else stands at the path *)

(** X25: the clean-up of [createWorktree] can cost a branch its
    commits, and the creation then fail.  In the reference world: when
    something that git will not replace stands at the path (a
    regular file, or a directory that is not empty) and is no
    registered worktree, and a branch [bytree/name] exists, is checked
    out nowhere, and points at another commit than the base branch,
    [createWorktree] raises the error of [git worktree add]; the
    removal of the worktree has failed, the branch has been deleted,
    the files are all as they were, and the branch no longer points at
    the commit it had.  (Git creates the branch anew, at the base,
    before it refuses the path; the reference world leaves it
    deleted.) *)
Theorem createWorktree_deletes_branch_then_fails :
  forall (worktreeBase name baseBranch commit baseCommit : string)
         (st : state Ref.World),
    let w := world st in
    let p := Path.join [worktreeBase; name] in
    let b := "bytree/" ++ name in
    JS.startsWith worktreeBase "/" = true ->
    Ref.isFile w (Path.dirname p) = false ->
    Ref.isFile w p = true
    \/ (Ref.isDir w p = true
        /\ exists q, q <> p /\ Ref.within p q = true /\ Ref.pathExists w q = true) ->
    Ref.inb p (map fst (Ref.linked w)) = false ->
    Ref.lookup b (Ref.branches w) = Some commit ->
    Ref.checkedOut w b = false ->
    Ref.lookup baseBranch (Ref.branches w) = Some baseCommit ->
    baseCommit <> commit ->
    let run := createWorktree Ref.env (Ref.repo w) worktreeBase name baseBranch st in
    fst run = Throw (ShellError (GitWorktreeAdd (Ref.repo w) b p baseBranch))
    /\ issued (snd run)
       = (issued st
          ++ [(MkdirP (Path.dirname p), true);
              (GitWorktreeRemoveForce (Ref.repo w) p, false);
              (GitBranchDelete (Ref.repo w) b, true);
              (GitWorktreeAdd (Ref.repo w) b p baseBranch, false)])%list
    /\ Ref.files (world (snd run)) = Ref.files w
    /\ Ref.lookup b (Ref.branches (world (snd run))) <> Some commit.
Proof.
  intros worktreeBase name baseBranch commit baseCommit st w p b Hbase Hparent Hoccupied
         Hfree Hbranch Hco _ _ run.
  assert (Hexists : Ref.pathExists w p = true).
  { unfold Ref.pathExists. destruct Hoccupied as [-> | [-> _]];
      [apply orb_true_r | reflexivity]. }
  assert (Hp : JS.startsWith p "/" = true) by (now apply join_absolute).
  assert (Hd : JS.startsWith (Path.dirname p) "/" = true) by (now apply dirname_absolute).
  pose proof (createWorktree_run Ref.env (Ref.repo w) worktreeBase name baseBranch st)
    as Hrun.
  cbv zeta in Hrun. fold p b in Hrun. fold run in Hrun.
  change (exec Ref.env) with Ref.execute in Hrun. fold w in Hrun.
  rewrite (execute_mkdir w _ Hd), Hparent in Hrun.
  assert (Hstep : forall w1 : Ref.World,
            Ref.repo w1 = Ref.repo w -> Ref.head w1 = Ref.head w ->
            Ref.branches w1 = Ref.branches w -> Ref.linked w1 = Ref.linked w ->
            Ref.files w1 = Ref.files w -> Ref.pathExists w1 p = true ->
            existsSync Ref.env p w1 = true
            /\ Ref.execute (GitWorktreeRemoveForce (Ref.repo w) p) w1 = (None, w1)
            /\ exists w3,
                 Ref.execute (GitBranchDelete (Ref.repo w) b) w1 = (Some "", w3)
                 /\ Ref.files w3 = Ref.files w
                 /\ Ref.lookup b (Ref.branches w3) = None
                 /\ Ref.execute (GitWorktreeAdd (Ref.repo w) b p baseBranch) w3
                    = (None, w3)).
  { intros w1 Hrepo Hhead Hbranches Hlinked Hfiles Hex. split; [|split].
    - cbn [existsSync Ref.env Ref.envWith]. rewrite (absolute_id w1 p Hp), Hex.
      reflexivity.
    - rewrite (execute_remove w1 _ _ Hp), Hlinked, Hfree. now rewrite andb_false_r.
    - eexists. split; [|split; [|split]].
      + assert (Hcond : String.eqb (Ref.repo w) (Ref.repo w1)
                        && isSome (Ref.lookup b (Ref.branches w1))
                        && negb (Ref.checkedOut w1 b) = true).
        { unfold Ref.checkedOut in Hco |- *.
          now rewrite Hrepo, Hbranches, Hhead, Hlinked, String.eqb_refl, Hbranch, Hco. }
        unfold Ref.execute. rewrite Hcond. reflexivity.
      + cbn [Ref.setGit Ref.files]. exact Hfiles.
      + cbn [Ref.setGit Ref.branches]. rewrite Hbranches. apply lookup_filter_self.
      + rewrite (execute_add _ _ _ _ _ Hp).
        assert (Hex3 : Ref.pathExists
                         (Ref.setGit w1 (Ref.dirs w1) (Ref.files w1)
                            (filter (fun x => negb (String.eqb (fst x) b)) (Ref.branches w1))
                            (Ref.linked w1)) p = true) by exact Hex.
        rewrite Hex3, andb_false_r.
        now destruct (Ref.lookup baseBranch _). }
  assert (Hw1 : exists w1,
            (if Ref.isDir w (Path.dirname p) then (Some "", w)
             else (Some "", Ref.setFs w (Ref.dirs w ++ [Path.dirname p]) (Ref.files w)))
            = (Some "", w1)
            /\ Ref.repo w1 = Ref.repo w /\ Ref.head w1 = Ref.head w
            /\ Ref.branches w1 = Ref.branches w /\ Ref.linked w1 = Ref.linked w
            /\ Ref.files w1 = Ref.files w /\ Ref.pathExists w1 p = true).
  { destruct (Ref.isDir w (Path.dirname p)); eexists; (split; [reflexivity|]);
      repeat (split; [reflexivity|]); [exact Hexists|].
    unfold Ref.pathExists, Ref.isDir, Ref.isFile in Hexists |- *.
    cbn [Ref.setFs Ref.dirs Ref.files]. rewrite inb_app.
    apply orb_true_iff in Hexists. destruct Hexists as [-> | ->]; [reflexivity|].
    apply orb_true_r. }
  destruct Hw1 as [w1 [Hmk [H1 [H2 [H3 [H4 [H5 H6]]]]]]]. rewrite Hmk in Hrun.
  destruct (Hstep w1 H1 H2 H3 H4 H5 H6) as [Hprobe [Hrm [w3 [Hdel [Hf3 [Hb3 Hadd]]]]]].
  rewrite Hprobe, Hrm, Hdel, Hadd in Hrun. cbn [isSome] in Hrun.
  rewrite Hrun. cbn [fst snd issued world].
  split; [reflexivity|]. split; [now rewrite <- app_assoc|]. split; [assumption|].
  rewrite Hb3. discriminate.
Qed.

Lemma createWorktree_deletes_branch_then_fails_witness :
  let run :=
    createWorktree Ref.env "/r" "/r-bytree" "demo" "main"
      (Ref.start SampleHost.occupied) in
  Ref.lookup "bytree/demo" (Ref.branches SampleHost.occupied) = Some "0ldc0de"
  /\ Ref.lookup "main" (Ref.branches SampleHost.occupied) = Some "c0ffee"
  /\ Ref.isFile SampleHost.occupied "/r-bytree/demo/notes.txt" = true
  /\ fst run = Throw (ShellError (GitWorktreeAdd "/r" "bytree/demo" "/r-bytree/demo" "main"))
  /\ Ref.lookup "bytree/demo" (Ref.branches (world (snd run))) <> Some "0ldc0de".
Proof.
  cbv zeta. split; [reflexivity|]. split; [reflexivity|]. split; [reflexivity|].
  assert (Hoccupied :
    Ref.isFile SampleHost.occupied "/r-bytree/demo" = true
    \/ (Ref.isDir SampleHost.occupied "/r-bytree/demo" = true
        /\ exists q, q <> "/r-bytree/demo" /\ Ref.within "/r-bytree/demo" q = true
                     /\ Ref.pathExists SampleHost.occupied q = true)).
  { right. split; [reflexivity|]. exists "/r-bytree/demo/notes.txt".
    split; [discriminate|]. split; reflexivity. }
  assert (Hcommits : "c0ffee" <> "0ldc0de") by discriminate.
  destruct (createWorktree_deletes_branch_then_fails "/r-bytree" "demo" "main" "0ldc0de"
              "c0ffee" (Ref.start SampleHost.occupied) eq_refl eq_refl Hoccupied eq_refl
              eq_refl eq_refl eq_refl Hcommits) as [Hfail [_ [_ Hbranch]]].
  split; [exact Hfail | exact Hbranch].
Defined.

(** ** The exclude file of the repository *)

Lemma joinWith_split_LF (s : string) :
  JS.joinWith (String JS.LF "") (JS.split JS.LF s) = s.
Proof.
  induction s as [|c s IH]; [reflexivity|]. cbn [JS.split].
  destruct (split_cons JS.LF s) as [seg [segs Hs]]. rewrite Hs in *.
  destruct (Ascii.eqb c JS.LF) eqn:Hc.
  - apply Ascii.eqb_eq in Hc. subst c.
    change (JS.joinWith (String JS.LF "") ("" :: seg :: segs))
      with (String JS.LF (JS.joinWith (String JS.LF "") (seg :: segs))).
    now rewrite IH.
  - destruct segs as [|seg' segs].
    + cbn [JS.joinWith] in *. now rewrite IH.
    + change (JS.joinWith (String JS.LF "") (String c seg :: seg' :: segs))
        with (String c (seg ++ String JS.LF (JS.joinWith (String JS.LF "") (seg' :: segs)))).
      change (JS.joinWith (String JS.LF "") (seg :: seg' :: segs))
        with (seg ++ String JS.LF (JS.joinWith (String JS.LF "") (seg' :: segs))) in IH.
      now rewrite IH.
Qed.

Lemma split_joinWith_LF (lines : list string) :
  lines <> [] -> forallb singleLine lines = true ->
  JS.split JS.LF (JS.joinWith (String JS.LF "") lines) = lines.
Proof.
  induction lines as [|x lines IH]; [congruence|]. intros _ Hall.
  cbn [forallb] in Hall. apply andb_true_iff in Hall. destruct Hall as [Hx Hall].
  destruct lines as [|y lines]; [exact (split_single x Hx)|].
  change (JS.joinWith (String JS.LF "") (x :: y :: lines))
    with (x ++ String JS.LF (JS.joinWith (String JS.LF "") (y :: lines))).
  rewrite split_app_sep, (split_single x Hx), IH by (discriminate || exact Hall).
  reflexivity.
Qed.

(** The lines of a content are those of [split]. *)
Lemma linesOf_split (content : string) (lines : list string) :
  linesOf content lines <-> lines = JS.split JS.LF content.
Proof.
  unfold linesOf. split.
  - intros [Hne [-> Hall]]. symmetry. now apply split_joinWith_LF.
  - intros ->. split; [|split].
    + destruct (split_cons JS.LF content) as [seg [segs ->]]. discriminate.
    + symmetry. apply joinWith_split_LF.
    + apply forallb_forall. intros line Hline.
      exact (split_no_sep JS.LF content line Hline).
Qed.

Lemma trimStart_white (s : string) : allWhiteSpace s -> JS.trimStart s = "".
Proof.
  unfold allWhiteSpace. induction s as [|c s IH]; [reflexivity|].
  cbn [list_ascii_of_string forallb JS.trimStart]. intros Hs.
  apply andb_true_iff in Hs. destruct Hs as [Hc Hs]. now rewrite Hc, (IH Hs).
Qed.

Lemma trimStart_after_white (b s : string) :
  allWhiteSpace b -> JS.trimStart (b ++ s) = JS.trimStart s.
Proof.
  unfold allWhiteSpace. induction b as [|c b IH]; [reflexivity|].
  cbn [list_ascii_of_string forallb append JS.trimStart]. intros Hb.
  apply andb_true_iff in Hb. destruct Hb as [Hc Hb]. now rewrite Hc, (IH Hb).
Qed.

Lemma trimEnd_white (s : string) : allWhiteSpace s -> JS.trimEnd s = "".
Proof.
  unfold allWhiteSpace. induction s as [|c s IH]; [reflexivity|].
  cbn [list_ascii_of_string forallb JS.trimEnd]. intros Hs.
  apply andb_true_iff in Hs. destruct Hs as [Hc Hs]. now rewrite (IH Hs), Hc.
Qed.

Lemma trimEnd_before_white (t a : string) :
  allWhiteSpace a -> JS.trimEnd (t ++ a) = JS.trimEnd t.
Proof.
  intros Ha. induction t as [|c t IH]; cbn [append]; [now apply trimEnd_white|].
  cbn [JS.trimEnd]. now rewrite IH.
Qed.

Lemma trimEnd_stripped (t : string) :
  (forall u c, t = u ++ String c "" -> JS.isWhiteSpace c = false) -> JS.trimEnd t = t.
Proof.
  induction t as [|c t IH]; [reflexivity|]. intros Hlast. cbn [JS.trimEnd].
  destruct t as [|d t].
  - cbn [JS.trimEnd]. now rewrite (Hlast "" c eq_refl).
  - rewrite IH; [reflexivity|]. intros u x Hu. apply (Hlast (String c u) x).
    cbn [append]. now rewrite Hu.
Qed.

(** What is left of a line is what [trim] returns, and nothing else. *)
Lemma strippedOf_trim (line t : string) : strippedOf line t <-> t = JS.trim line.
Proof.
  split.
  - intros [before [after [-> [Hb [Ha [Hhead Hlast]]]]]]. unfold JS.trim.
    rewrite (trimStart_after_white before _ Hb). destruct t as [|c t].
    + cbn [append]. now rewrite (trimStart_white after Ha).
    + cbn [append JS.trimStart]. rewrite Hhead.
      change (String c (t ++ after)) with (String c t ++ after).
      now rewrite (trimEnd_before_white _ after Ha), (trimEnd_stripped _ Hlast).
  - intros ->. destruct (trim_spec line) as [before [after H]]. now exists before, after.
Qed.

(** The loop of [getExcludePatterns] keeps what the words say, and the
    words leave no choice. *)
Lemma keptLines_parse (lines patterns : list string) :
  keptLines lines patterns <-> patterns = fold_left pushPattern lines [].
Proof.
  rewrite pushPattern_fold. cbn [app]. split.
  - induction 1 as [|line t lines patterns Ht Hskip _ IH
                    |line t lines patterns Ht Hne Hhash _ IH];
      [reflexivity| |]; apply strippedOf_trim in Ht; subst t; cbn [map filter].
    + destruct Hskip as [-> | [rest ->]]; exact IH.
    + assert (H1 : String.eqb (JS.trim line) "" = false) by (now apply String.eqb_neq).
      assert (H2 : JS.startsWith (JS.trim line) "#" = false).
      { destruct (JS.trim line) as [|c u]; [reflexivity|]. cbn [JS.startsWith].
        destruct (Ascii.eqb c "#") eqn:Hc; [|reflexivity].
        apply Ascii.eqb_eq in Hc. subst c. now elim (Hhash u). }
      rewrite H1, H2. cbn [negb andb]. now rewrite IH.
  - intros ->. induction lines as [|line lines IH]; [constructor|]. cbn [map filter].
    pose proof (proj2 (strippedOf_trim line (JS.trim line)) eq_refl) as Ht.
    destruct (String.eqb (JS.trim line) "") eqn:H1; cbn [negb andb].
    + apply String.eqb_eq in H1. apply (kept_skip _ _ _ _ Ht); [now left | exact IH].
    + destruct (JS.startsWith (JS.trim line) "#") eqn:H2; cbn [negb].
      * apply (kept_skip _ _ _ _ Ht); [|exact IH]. right.
        destruct (JS.trim line) as [|c u]; [discriminate H1|]. cbn [JS.startsWith] in H2.
        apply andb_true_iff in H2. destruct H2 as [Hc _]. apply Ascii.eqb_eq in Hc.
        subst c. now exists u.
      * apply (kept_push _ _ _ _ Ht); [now apply String.eqb_neq | | exact IH].
        intros rest Heq. rewrite Heq in H2. discriminate H2.
Qed.

Lemma exclusionsOf_parse (content : string) (patterns : list string) :
  exclusionsOf content patterns <-> patterns = parseExclude content.
Proof.
  unfold exclusionsOf, parseExclude. split.
  - intros [lines [Hlines Hkept]]. apply linesOf_split in Hlines. subst lines.
    now apply keptLines_parse.
  - intros ->. exists (JS.split JS.LF content). split; [now apply linesOf_split|].
    now apply keptLines_parse.
Qed.

Lemma lookup_some_inb {A : Type} (k : string) (l : list (string * A)) (v : A) :
  Ref.lookup k l = Some v -> Ref.inb k (map fst l) = true.
Proof.
  unfold Ref.inb. induction l as [|[k' v'] l IH]; [discriminate|].
  cbn [Ref.lookup map fst existsb]. destruct (String.eqb k k'); [reflexivity|].
  intros Hl. now rewrite (IH Hl).
Qed.

(** Where git names the common directory [.git], the file looked for
    is [.git/info/exclude], as the process sees it. *)
Lemma getExcludePatterns_dot_git {W : Type} (E : Env W) (repoRoot : string)
    (st : state W) (text : string) :
  fst (exec E (GitCommonDir repoRoot) (world st)) = Some text ->
  JS.trim text = ".git" ->
  let w1 := snd (exec E (GitCommonDir repoRoot) (world st)) in
  fst (getExcludePatterns E repoRoot st)
  = if existsSync E ".git/info/exclude" w1 then
      match readFile E ".git/info/exclude" w1 with
      | Some content => Ok (parseExclude content)
      | None => Throw (ReadError ".git/info/exclude")
      end
    else Ok [].
Proof.
  intros Hexec Htrim w1.
  pose proof (getExcludePatterns_run E repoRoot st) as Hr.
  rewrite getGitDir_run in Hr. cbv zeta in Hr. rewrite Hexec, Htrim in Hr.
  change (Path.join [".git"; "info"; "exclude"]) with ".git/info/exclude" in Hr.
  rewrite Hr.
  assert (Hw : world (snd (run E (GitCommonDir repoRoot) st)) = w1).
  { unfold run, w1. now destruct (exec E (GitCommonDir repoRoot) (world st)). }
  rewrite Hw. destruct (existsSync E ".git/info/exclude" w1); [|reflexivity].
  now destruct (readFile E ".git/info/exclude" w1).
Qed.

(** In the reference world, for a process that stands at the root. *)
Lemma getExcludePatterns_at_root (w : Ref.World) :
  Path.isNormalAbsolute (Ref.repo w) = true -> Ref.cwd w = Ref.repo w ->
  fst (getExcludePatterns Ref.env (Ref.repo w) (Ref.start w))
  = if Ref.pathExists w (Ref.repo w ++ "/.git/info/exclude") then
      match Ref.lookup (Ref.repo w ++ "/.git/info/exclude") (Ref.files w) with
      | Some content => Ok (parseExclude content)
      | None => Throw (ReadError ".git/info/exclude")
      end
    else Ok [].
Proof.
  intros Hroot Hcwd.
  rewrite (getExcludePatterns_dot_git Ref.env (Ref.repo w) (Ref.start w)
             (".git" ++ Sample.nl)).
  - cbn [Ref.start world Ref.env Ref.envWith exec Ref.execute snd existsSync readFile].
    unfold Ref.absolute.
    change (JS.startsWith ".git/info/exclude" "/") with false. cbv iota.
    rewrite Hcwd, (join_below _ Hroot). reflexivity.
  - cbn [Ref.start world Ref.env Ref.envWith exec Ref.execute fst].
    now rewrite String.eqb_refl.
  - reflexivity.
Qed.

(** C5: [getExcludePatterns] is asked for the patterns of the exclude
    file of the repository: its lines, stripped of the white space at
    their ends, without the empty ones and the comments, in the order
    of the file, and none when there is no such file.  For a process
    that stands at the root of the repository it returns them, and the
    file of the scenario gives [["/.claude/"]].  For a process that
    stands elsewhere it does not: git names the common directory
    [.git], the code looks for [.git/info/exclude] from the working
    directory of the process, and in the linked worktree
    [/r-bytree/demo] it returns no pattern where the exclude file of
    the repository has two. *)
Theorem getExcludePatterns_repository_file :
  (forall (w : Ref.World),
     Path.isNormalAbsolute (Ref.repo w) = true -> Ref.cwd w = Ref.repo w ->
     let excludeFile := Ref.repo w ++ "/.git/info/exclude" in
     (forall content,
        Ref.lookup excludeFile (Ref.files w) = Some content ->
        exists patterns,
          fst (getExcludePatterns Ref.env (Ref.repo w) (Ref.start w)) = Ok patterns
          /\ exclusionsOf content patterns
          /\ forall others, exclusionsOf content others -> others = patterns)
     /\ (Ref.pathExists w excludeFile = false ->
         fst (getExcludePatterns Ref.env (Ref.repo w) (Ref.start w)) = Ok []))
  /\ exclusionsOf ("/.claude/" ++ Sample.nl ++ "# comment" ++ Sample.nl ++ Sample.nl)
       ["/.claude/"]
  /\ (exists content,
        Ref.repo SampleHost.inWorktree = "/r"
        /\ Ref.cwd SampleHost.inWorktree = "/r-bytree/demo"
        /\ Ref.lookup "/r/.git/info/exclude" (Ref.files SampleHost.inWorktree)
           = Some content
        /\ exclusionsOf content ["/.claude/"; "/foo/"]
        /\ fst (getExcludePatterns Ref.env "/r" (Ref.start SampleHost.inWorktree))
           = Ok []).
Proof.
  split; [|split].
  - intros w Hroot Hcwd excludeFile. unfold excludeFile.
    rewrite (getExcludePatterns_at_root w Hroot Hcwd). split.
    + intros content Hfile.
      assert (Hex : Ref.pathExists w (Ref.repo w ++ "/.git/info/exclude") = true).
      { unfold Ref.pathExists, Ref.isFile. rewrite (lookup_some_inb _ _ _ Hfile).
        apply orb_true_r. }
      rewrite Hex, Hfile. exists (parseExclude content). split; [reflexivity|].
      split; [now apply exclusionsOf_parse|].
      intros others Hothers. now apply exclusionsOf_parse.
    + intros Hnone. now rewrite Hnone.
  - now apply exclusionsOf_parse.
  - eexists. split; [reflexivity|]. split; [reflexivity|]. split; [reflexivity|].
    split; [now apply exclusionsOf_parse | reflexivity].
Qed.

(** At the root, with white space around the patterns. *)
Lemma getExcludePatterns_repository_file_witness :
  Ref.lookup "/r/.git/info/exclude" (Ref.files SampleHost.padded)
  = Some ("  /.claude/ " ++ String "013" Sample.nl ++ " # comment" ++ Sample.nl
          ++ Sample.nl ++ String "009" "/foo/" ++ Sample.nl)
  /\ fst (getExcludePatterns Ref.env "/r" (Ref.start SampleHost.padded))
     = Ok ["/.claude/"; "/foo/"]
  /\ exclusionsOf
       ("  /.claude/ " ++ String "013" Sample.nl ++ " # comment" ++ Sample.nl
        ++ Sample.nl ++ String "009" "/foo/" ++ Sample.nl)
       ["/.claude/"; "/foo/"].
Proof.
  split; [reflexivity|]. split; [reflexivity|].
  destruct (proj1 (proj1 getExcludePatterns_repository_file SampleHost.padded
                     eq_refl eq_refl)
              _ eq_refl) as [patterns [Hrun [Hpatterns _]]].
  assert (Heq : patterns = ["/.claude/"; "/foo/"]).
  { assert (H : fst (getExcludePatterns Ref.env "/r" (Ref.start SampleHost.padded))
                = Ok ["/.claude/"; "/foo/"]) by reflexivity.
    cbn [Ref.repo SampleHost.padded Ref.setFs Sample.w0] in Hrun.
    rewrite H in Hrun. now injection Hrun. }
  rewrite <- Heq. exact Hpatterns.
Defined.
